(** * Lambda heat pump sensor platform: sensor enumeration and value decoding

    A shallow embedding of [custom_components/lambda_heat_pumps/sensor.py]:
    the set-up routine [async_setup_entry], the constructor of [LambdaSensor]
    and its two accessors [name] and [native_value], followed by the
    properties of the specification that concern them. *)

From Stdlib Require Import ZArith List String Ascii Bool Lia.
From Stdlib Require Import SpecFloat.
From stdpp Require Import base option list gmap strings pretty.

Local Open Scope Z_scope.
Local Open Scope string_scope.
Local Open Scope list_scope.

(** ** Python string built-ins

    A string stands for a text by its bytes.  On ASCII text ([is_ascii]
    below) the functions of this module are the methods of [str]: a byte is
    a character, [upper] and [lower] convert the letters a-z and A-Z, and
    [split] cuts at the white space 9..13, 28..32.  Outside ASCII the case
    conversions and the white space of [str] follow the Unicode tables, which
    this module does not have; a property that applies [upper], [lower] or
    [split] to a text from outside the program is stated for ASCII text. *)
Module PyStr.

(** [s.isascii()] *)
Fixpoint is_ascii (s : string) : bool :=
  match s with
  | EmptyString => true
  | String c r => (N_of_ascii c <? 128)%N && is_ascii r
  end.

Definition is_lower (c : ascii) : bool :=
  let n := N_of_ascii c in (97 <=? n)%N && (n <=? 122)%N.

Definition is_upper (c : ascii) : bool :=
  let n := N_of_ascii c in (65 <=? n)%N && (n <=? 90)%N.

Definition upper_char (c : ascii) : ascii :=
  if is_lower c then ascii_of_N (N_of_ascii c - 32) else c.

Definition lower_char (c : ascii) : ascii :=
  if is_upper c then ascii_of_N (N_of_ascii c + 32) else c.

(** [str.upper()] *)
Fixpoint upper (s : string) : string :=
  match s with
  | EmptyString => EmptyString
  | String c r => String (upper_char c) (upper r)
  end.

(** [str.lower()] *)
Fixpoint lower (s : string) : string :=
  match s with
  | EmptyString => EmptyString
  | String c r => String (lower_char c) (lower r)
  end.

(** [new.join(list(s))] with a [new] at both ends: what [s.replace("", new)]
    gives. *)
Fixpoint intersperse (new s : string) : string :=
  match s with
  | EmptyString => new
  | String c r => new +:+ String c (intersperse new r)
  end.

(** [s.startswith(p)] *)
Fixpoint startswith (p s : string) : bool :=
  match p, s with
  | EmptyString, _ => true
  | String a p', String b s' => Ascii.eqb a b && startswith p' s'
  | String _ _, EmptyString => false
  end.

(** The scan of [str.replace]: left to right, occurrences that do not
    overlap.  [skip] counts the bytes of a matched occurrence that are still
    to be passed over. *)
Fixpoint replace_from (old new : string) (skip : nat) (s : string) : string :=
  match s with
  | EmptyString => EmptyString
  | String c r =>
      match skip with
      | S k => replace_from old new k r
      | O =>
          if startswith old s
          then new +:+ replace_from old new (Nat.pred (String.length old)) r
          else String c (replace_from old new O r)
      end
  end.

(** [s.replace(old, new)] *)
Definition replace (old new s : string) : string :=
  match old with
  | EmptyString => intersperse new s
  | _ => replace_from old new O s
  end.

(** [sub in s] *)
Fixpoint contains (sub s : string) : bool :=
  startswith sub s ||
  match s with
  | EmptyString => false
  | String _ r => contains sub r
  end.

(** [c in s] for one byte [c] *)
Fixpoint has_char (c : ascii) (s : string) : bool :=
  match s with
  | EmptyString => false
  | String a r => Ascii.eqb c a || has_char c r
  end.

(** [c.isdigit()] on one byte *)
Definition is_digit (c : ascii) : bool :=
  let n := N_of_ascii c in (48 <=? n)%N && (n <=? 57)%N.

(** [c.isspace()] on one byte: tab, line feed, vertical tab, form feed,
    carriage return, the four separators 28..31 and the space. *)
Definition is_space (c : ascii) : bool :=
  let n := N_of_ascii c in
  ((9 <=? n)%N && (n <=? 13)%N) || ((28 <=? n)%N && (n <=? 32)%N).

(** [any(c.isspace() for c in s)] *)
Fixpoint has_space (s : string) : bool :=
  match s with
  | EmptyString => false
  | String c r => is_space c || has_space r
  end.

(** The words of [s], separated by runs of white space; [word] is the word
    being read ([None] between two words). *)
Fixpoint split_from (word : option string) (s : string) : list string :=
  match s with
  | EmptyString => match word with Some w => [w] | None => [] end
  | String c r =>
      if is_space c
      then match word with
           | Some w => w :: split_from None r
           | None => split_from None r
           end
      else split_from (Some (default "" word +:+ String c "")) r
  end.

(** [s.split()] *)
Definition split (s : string) : list string := split_from None s.

(** [sep.join(ws)] *)
Fixpoint join (sep : string) (ws : list string) : string :=
  match ws with
  | [] => ""
  | [w] => w
  | w :: ws' => w +:+ sep +:+ join sep ws'
  end.

(** [str(n)] and [f"{n}"] for an [int]. *)
Definition of_int (n : Z) : string := pretty n.

End PyStr.

(** ** Exceptions and results *)

Inductive PyExn : Set :=
  | KeyError | AttributeError | ValueError | TypeError | OverflowError
  | IndexError.

(** What a call gives: a value, or an exception that leaves the function. *)
Inductive result (A : Type) : Type :=
  | Ok (a : A)
  | Raise (e : PyExn).
Arguments Ok {A} a.
Arguments Raise {A} e.

Global Instance result_ret : MRet result := fun _ a => Ok a.
Global Instance result_bind : MBind result := fun _ _ k m =>
  match m with
  | Ok a => k a
  | Raise e => Raise e
  end.

Global Instance result_fmap : FMap result := fun _ _ f m =>
  match m with
  | Ok a => Ok (f a)
  | Raise e => Raise e
  end.

(** [d[key]] on a dict entry that may be missing. *)
Definition subscript {A : Type} (v : option A) : result A :=
  match v with
  | Some a => Ok a
  | None => Raise KeyError
  end.

(** [for x in xs: out.extend(body(x))], stopped by the first exception. *)
Fixpoint for_each {A B : Type} (body : A -> result (list B)) (xs : list A)
  : result (list B) :=
  match xs with
  | [] => Ok []
  | x :: xs' =>
      ys ← body x;
      zs ← for_each body xs';
      Ok (ys ++ zs)
  end.

(** [range(lo, hi)] *)
Definition range (lo hi : Z) : list Z :=
  map (fun i => lo + Z.of_nat i) (seq 0 (Z.to_nat (hi - lo))).

(** ** Floating point: IEEE 754 binary64, as [float] is *)

Definition float : Set := spec_float.
Definition float_of_Z (z : Z) : float := binary_normalize 53 1024 z 0 false.
Definition float_one : float := float_of_Z 1.

(** [float(n)] for an [int]: rounded to nearest even, [OverflowError] past the
    largest finite value. *)
Definition float_of_int (n : Z) : result float :=
  match float_of_Z n with
  | S754_infinity _ => Raise OverflowError
  | x => Ok x
  end.

(** [int(x)] for a [float]: truncation toward zero. *)
Definition int_of_float (x : float) : result Z :=
  match x with
  | S754_zero _ => Ok 0
  | S754_infinity _ => Raise OverflowError
  | S754_nan => Raise ValueError
  | S754_finite s m e =>
      let mag := if (0 <=? e)%Z then Z.pos m * 2 ^ e else Z.pos m / 2 ^ (- e) in
      Ok (if s then - mag else mag)
  end.

(** ** Data model *)

Inductive SensorDeviceClass : Set :=
  | TEMPERATURE | POWER | ENERGY
  | OTHER_DEVICE_CLASS (tag : string).

Inductive SensorStateClass : Set :=
  | TOTAL | TOTAL_INCREASING | MEASUREMENT.

(** One entry of a sensor template ([HP_SENSOR_TEMPLATES], ..., [SENSOR_TYPES]):
    a dict, each key of which may be missing ([None]). *)
Module Info.
Record t : Set := mk {
  relative_address : option Z;
  address : option Z;
  name : option string;
  unit : option string;
  scale : option float;
  state_class : option string;
  device_class : option SensorDeviceClass;
  data_type : option string;
  device_type : option string;
  txt_mapping : option bool;
  precision : option Z;
  override_name : option string
}.
End Info.

(** A template: the entries by sensor id, in the order of the dict. *)
Definition template : Set := list (string * Info.t).

(** [entry.data], the options the platform reads. *)
Module ConfigEntry.
Record t : Set := mk {
  num_hps : option Z;
  num_boil : option Z;
  num_buff : option Z;
  num_sol : option Z;
  num_hc : option Z;
  use_legacy_modbus_names : option bool;
  name : option string
}.
End ConfigEntry.

(** A raw value of the coordinator's snapshot. *)
Inductive PyVal : Set :=
  | PyNone
  | PyInt (n : Z)
  | PyFloat (x : float)
  | PyStr (s : string).

(** The coordinator, as far as the platform reads it; [sensor_overrides] is
    [None] when the object has no such attribute, [data] is [None] before the
    first refresh. *)
Module Coordinator.
Record t : Type := mk {
  entry : ConfigEntry.t;
  data : option (gmap string PyVal);
  sensor_overrides : option (gmap string string);
  is_register_disabled : Z -> bool
}.
End Coordinator.

(** A global of the sensor module, as [native_value] uses it: a dict from
    state code to label, or an object that has no [get]. *)
Inductive PyGlobal : Type :=
  | GDict (table : gmap Z string)
  | GObject.

(** What [native_value] gives when it gives a value. *)
Inductive NativeValue : Set :=
  | PhysicalValue (x : float)
  | Label (s : string).

(** ** The sensor entity *)
Module LambdaSensor.

Record t : Set := mk {
  _sensor_id : string;
  _attr_name : string;
  _attr_unique_id : string;
  entity_id : string;
  _unit : string;
  _address : Z;
  _scale : float;
  _state_class : string;
  _device_class : option SensorDeviceClass;
  _relative_address : Z;
  _data_type : option string;
  _device_type : option string;
  _txt_mapping : bool;
  _precision : option Z;
  _is_state_sensor : bool;
  _attr_device_class : option SensorDeviceClass;
  _attr_state_class : option SensorStateClass;
  _attr_native_unit_of_measurement : option string;
  _attr_suggested_display_precision : option Z
}.

(** [a or b] on strings, [a] possibly [None]. *)
Definition str_or (a : option string) (b : string) : string :=
  match a with
  | Some (String c r) => String c r
  | _ => b
  end.

(** [LambdaSensor.__init__].  The four [_attr_] fields that a branch does not
    assign keep the default of the entity class, [None]. *)
Definition __init__ (sensor_id name unit : string) (address : Z)
    (scale : float) (state_class : string)
    (device_class : option SensorDeviceClass) (relative_address : Z)
    (data_type device_type : option string) (txt_mapping : bool)
    (precision : option Z) (entity_id unique_id : option string) : t :=
  let is_state_sensor := txt_mapping in
  {| _sensor_id := sensor_id;
     _attr_name := name;
     _attr_unique_id := str_or unique_id sensor_id;
     entity_id := str_or entity_id ("sensor." +:+ sensor_id);
     _unit := unit;
     _address := address;
     _scale := scale;
     _state_class := state_class;
     _device_class := device_class;
     _relative_address := relative_address;
     _data_type := data_type;
     _device_type := device_type;
     _txt_mapping := txt_mapping;
     _precision := precision;
     _is_state_sensor := is_state_sensor;
     _attr_device_class :=
       if is_state_sensor then None
       else if (unit =? "°C")%string then Some TEMPERATURE
       else if (unit =? "W")%string then Some POWER
       else if (unit =? "Wh")%string then Some ENERGY
       else None;
     _attr_state_class :=
       if is_state_sensor then None
       else if (state_class =? "total")%string then Some TOTAL
       else if (state_class =? "total_increasing")%string
            then Some TOTAL_INCREASING
       else if (state_class =? "measurement")%string then Some MEASUREMENT
       else None;
     _attr_native_unit_of_measurement :=
       if is_state_sensor then None else Some unit;
     _attr_suggested_display_precision :=
       if is_state_sensor then None else precision |}.

(** The assignment [self._sensor_id = v]. *)
Definition set_sensor_id (v : string) (self : t) : t :=
  {| _sensor_id := v;
     _attr_name := _attr_name self;
     _attr_unique_id := _attr_unique_id self;
     entity_id := entity_id self;
     _unit := _unit self;
     _address := _address self;
     _scale := _scale self;
     _state_class := _state_class self;
     _device_class := _device_class self;
     _relative_address := _relative_address self;
     _data_type := _data_type self;
     _device_type := _device_type self;
     _txt_mapping := _txt_mapping self;
     _precision := _precision self;
     _is_state_sensor := _is_state_sensor self;
     _attr_device_class := _attr_device_class self;
     _attr_state_class := _attr_state_class self;
     _attr_native_unit_of_measurement := _attr_native_unit_of_measurement self;
     _attr_suggested_display_precision :=
       _attr_suggested_display_precision self |}.

(** The [name] property: the name reported, and the sensor after the call. *)
Definition name (coordinator : Coordinator.t) (self : t) : string * t :=
  let use_legacy_modbus_names :=
    default false
      (ConfigEntry.use_legacy_modbus_names (Coordinator.entry coordinator)) in
  match (if use_legacy_modbus_names
         then Coordinator.sensor_overrides coordinator else None) with
  | Some overrides =>
      match overrides !! _sensor_id self with
      | Some (String c r) =>
          let override_name := String c r in
          (override_name, set_sensor_id override_name self)
      | _ => (_attr_name self, self)
      end
  | None => (_attr_name self, self)
  end.

(** [n] reads of [name], one after the other: the names reported and the
    sensor after the last read. *)
Fixpoint read_names (coordinator : Coordinator.t) (self : t) (n : nat)
  : list string * t :=
  match n with
  | O => ([], self)
  | S n' =>
      let '(reported, self') := name coordinator self in
      let '(later, self'') := read_names coordinator self' n' in
      (reported :: later, self'')
  end.

(** The name of the mapping table a state sensor looks its code up in
    (lines 375-385 of the source). *)
Definition mapping_name (self : t) : result string :=
  let base_name := _attr_name self in
  let base_name :=
    match _device_type self with
    | Some (String c r) =>
        if PyStr.contains (PyStr.upper (String c r)) base_name
        then PyStr.join " " (tail (PyStr.split base_name))
        else base_name
    | _ => base_name
    end in
  match _device_type self with
  | Some device_type =>
      Ok (PyStr.upper device_type +:+ "_" +:+
          PyStr.replace "-" "_" (PyStr.replace " " "_" (PyStr.upper base_name)))
  | None => Raise AttributeError
  end.

Section Decoder.
(** [float(s)] for a [str], [None] when it raises [ValueError]; and
    [str(x)] for a [float]. *)
Variable float_of_str : string -> option float.
Variable str_of_float : float -> string.
(** The globals of the module, by name. *)
Variable globals : gmap string PyGlobal.

(** [float(value)] *)
Definition py_float (value : PyVal) : result float :=
  match value with
  | PyNone => Raise TypeError
  | PyInt n => float_of_int n
  | PyFloat x => Ok x
  | PyStr s =>
      match float_of_str s with
      | Some x => Ok x
      | None => Raise ValueError
      end
  end.

(** [int(float(value))] *)
Definition int_float (value : PyVal) : result Z :=
  x ← py_float value; int_of_float x.

(** [str(value)], as an f-string renders it. *)
Definition py_str (value : PyVal) : string :=
  match value with
  | PyNone => "None"
  | PyInt n => PyStr.of_int n
  | PyFloat x => str_of_float x
  | PyStr s => s
  end.

(** The state branch of [native_value], from the integer code on. *)
Definition decode_state (self : t) (numeric_value : Z) : result NativeValue :=
  mapping_name ← mapping_name self;
  match globals !! mapping_name with
  | Some (GDict state_mapping) =>
      Ok (Label (default
                   ("Unknown state (" +:+ PyStr.of_int numeric_value +:+ ")")
                   (state_mapping !! numeric_value)))
  | Some GObject =>
      Ok (Label ("Error loading mappings (" +:+
                 PyStr.of_int numeric_value +:+ ")"))
  | None =>
      Ok (Label ("Unknown mapping for state (" +:+
                 PyStr.of_int numeric_value +:+ ")"))
  end.

(** The [native_value] property; [Ok None] is the absent value. *)
Definition native_value (coordinator : Coordinator.t) (self : t)
  : result (option NativeValue) :=
  match Coordinator.data coordinator with
  | None => Ok None
  | Some data =>
      if bool_decide (data = ∅) then Ok None
      else
        match data !! _sensor_id self with
        | None | Some PyNone => Ok None
        | Some value =>
            if _is_state_sensor self then
              match int_float value with
              | Ok numeric_value =>
                  v ← decode_state self numeric_value; Ok (Some v)
              | Raise ValueError | Raise TypeError =>
                  Ok (Some (Label ("Unknown state (" +:+ py_str value
                                   +:+ ")")))
              | Raise e => Raise e
              end
            else
              match py_float value with
              | Ok x => Ok (Some (PhysicalValue x))
              | Raise ValueError | Raise TypeError => Ok None
              | Raise e => Raise e
              end
        end
  end.
End Decoder.

End LambdaSensor.

(** ** The set-up routine *)
Section Enumerator.
(** [utils.generate_base_addresses(prefix, count)]: the base address of
    each instance index. *)
Variable generate_base_addresses : string -> Z -> gmap Z Z.
(** [fmt.format(idx)] *)
Variable str_format : string -> Z -> result string.
(** The templates of [const.py]. *)
Variables HP_SENSOR_TEMPLATES BOIL_SENSOR_TEMPLATES BUFF_SENSOR_TEMPLATES
          SOL_SENSOR_TEMPLATES HC_SENSOR_TEMPLATES SENSOR_TYPES : template.

(** Lines 98-104 and 201-207: the device class of the entry, or the one
    its unit stands for. *)
Definition infer_device_class (sensor_info : Info.t)
  : option SensorDeviceClass :=
  match Info.device_class sensor_info with
  | Some device_class => Some device_class
  | None =>
      if bool_decide (Info.unit sensor_info = Some "°C") then Some TEMPERATURE
      else if bool_decide (Info.unit sensor_info = Some "W") then Some POWER
      else if bool_decide (Info.unit sensor_info = Some "Wh") then Some ENERGY
      else None
  end.

(** [f"{prefix}{idx}_{sensor_id}"] *)
Definition data_key (prefix : string) (idx : Z) (sensor_id : string) : string :=
  prefix +:+ PyStr.of_int idx +:+ "_" +:+ sensor_id.

(** The override the set-up looks up for a templated sensor (lines
    107-114). *)
Definition lookup_override (coordinator : Coordinator.t)
    (use_legacy_modbus_names : bool) (key : string) : option string :=
  if use_legacy_modbus_names
  then overrides ← Coordinator.sensor_overrides coordinator; overrides !! key
  else None.

(** The body of the innermost loop (lines 89-188): no sensor for a
    disabled register, else the sensor of the entry. *)
Definition templated_sensor (coordinator : Coordinator.t)
    (use_legacy_modbus_names : bool) (name_prefix prefix : string)
    (idx base_address : Z) (item : string * Info.t)
  : result (list LambdaSensor.t) :=
  let '(sensor_id, sensor_info) := item in
  relative_address ← subscript (Info.relative_address sensor_info);
  let address := base_address + relative_address in
  if Coordinator.is_register_disabled coordinator address then Ok []
  else
    let device_class := infer_device_class sensor_info in
    let override_name :=
      lookup_override coordinator use_legacy_modbus_names
        (data_key prefix idx sensor_id) in
    naming ←
      match override_name with
      | Some (String c r) =>
          let override_name := String c r in
          Ok (override_name,
              data_key prefix idx sensor_id,
              "sensor." +:+ name_prefix +:+ "_" +:+ override_name,
              name_prefix +:+ "_" +:+ override_name)
      | _ =>
          let prefix_upper := PyStr.upper prefix in
          name ←
            (if (prefix =? "hc")%string &&
                bool_decide (Info.device_type sensor_info = Some "Climate")
             then fmt ← subscript (Info.name sensor_info); str_format fmt idx
             else
               name ← subscript (Info.name sensor_info);
               Ok (prefix_upper +:+ PyStr.of_int idx +:+ " " +:+ name));
          let sensor_id_final := data_key prefix idx sensor_id in
          let entity_id :=
            if use_legacy_modbus_names
            then "sensor." +:+ name_prefix +:+ "_" +:+
                 data_key prefix idx sensor_id
            else "sensor." +:+ sensor_id_final in
          Ok (name, sensor_id_final, entity_id,
              PyStr.replace "sensor." "" entity_id)
      end;
    let '(name, sensor_id_final, entity_id, unique_id) := naming in
    let device_type :=
      if bool_decide (prefix ∈ ["hp"; "boil"; "hc"; "buff"; "sol"])
      then Some (PyStr.upper prefix)
      else Some (default "main" (Info.device_type sensor_info)) in
    Ok [LambdaSensor.__init__
          sensor_id_final name
          (default "" (Info.unit sensor_info))
          address
          (default float_one (Info.scale sensor_info))
          (default "" (Info.state_class sensor_info))
          device_class
          (default 0 (Info.relative_address sensor_info))
          (Info.data_type sensor_info)
          device_type
          (default false (Info.txt_mapping sensor_info))
          (Info.precision sensor_info)
          (Some entity_id) (Some unique_id)].

(** The loop over the instances of one device type (lines 86-88). *)
Definition device_sensors (coordinator : Coordinator.t)
    (use_legacy_modbus_names : bool) (name_prefix : string)
    (device : string * Z * template) : result (list LambdaSensor.t) :=
  let '(prefix, count, template) := device in
  for_each
    (fun idx =>
       base_address ← subscript (generate_base_addresses prefix count !! idx);
       for_each
         (templated_sensor coordinator use_legacy_modbus_names name_prefix
            prefix idx base_address)
         template)
    (range 1 (count + 1)).

(** The body of the loop over [SENSOR_TYPES] (lines 192-244). *)
Definition general_sensor (coordinator : Coordinator.t)
    (use_legacy_modbus_names : bool) (name_prefix : string)
    (item : string * Info.t) : result (list LambdaSensor.t) :=
  let '(sensor_id, sensor_info) := item in
  address ← subscript (Info.address sensor_info);
  if Coordinator.is_register_disabled coordinator address then Ok []
  else
    let device_class := infer_device_class sensor_info in
    naming ←
      match (if use_legacy_modbus_names
             then Info.override_name sensor_info else None) with
      | Some override_name => Ok (override_name, override_name)
      | None =>
          name ← subscript (Info.name sensor_info);
          Ok (name, sensor_id)
      end;
    let '(name, sensor_id_final) := naming in
    let entity_id :=
      if use_legacy_modbus_names
      then "sensor." +:+ name_prefix +:+ "_" +:+ sensor_id_final
      else "sensor." +:+ sensor_id_final in
    Ok [LambdaSensor.__init__
          sensor_id_final name
          (default "" (Info.unit sensor_info))
          address
          (default float_one (Info.scale sensor_info))
          (default "" (Info.state_class sensor_info))
          device_class
          (default 0 (Info.address sensor_info))
          (Info.data_type sensor_info)
          (Info.device_type sensor_info)
          (default false (Info.txt_mapping sensor_info))
          (Info.precision sensor_info)
          (Some entity_id) None].

(** The device counts of lines 64-68 and the list [TEMPLATES]. *)
Definition TEMPLATES (entry : ConfigEntry.t) : list (string * Z * template) :=
  let num_hps := default 1 (ConfigEntry.num_hps entry) in
  let num_boil := default 1 (ConfigEntry.num_boil entry) in
  let num_buff := default 0 (ConfigEntry.num_buff entry) in
  let num_sol := default 0 (ConfigEntry.num_sol entry) in
  let num_hc := default 1 (ConfigEntry.num_hc entry) in
  [ ("hp", num_hps, HP_SENSOR_TEMPLATES);
    ("boil", num_boil, BOIL_SENSOR_TEMPLATES);
    ("buff", num_buff, BUFF_SENSOR_TEMPLATES);
    ("sol", num_sol, SOL_SENSOR_TEMPLATES);
    ("hc", num_hc, HC_SENSOR_TEMPLATES) ].

(** Line 72: the installation name in lower case, without its spaces. *)
Definition name_prefix_of (entry : ConfigEntry.t) : string :=
  PyStr.replace " " "" (PyStr.lower (default "" (ConfigEntry.name entry))).

(** The sensors of the device templates, then the general ones: the list
    handed to [async_add_entities]. *)
Definition enumerate_sensors (coordinator : Coordinator.t)
    (entry : ConfigEntry.t) : result (list LambdaSensor.t) :=
  let use_legacy_modbus_names :=
    default false (ConfigEntry.use_legacy_modbus_names entry) in
  let name_prefix := name_prefix_of entry in
  templated ←
    for_each (device_sensors coordinator use_legacy_modbus_names name_prefix)
      (TEMPLATES entry);
  general ←
    for_each (general_sensor coordinator use_legacy_modbus_names name_prefix)
      SENSOR_TYPES;
  Ok (templated ++ general).

(** [async_setup_entry]: [coordinator_data] is the coordinator stored for
    the entry, if there is one; [Ok None] when the routine returns without
    adding entities. *)
Definition async_setup_entry (coordinator_data : option Coordinator.t)
    (entry : ConfigEntry.t) : result (option (list LambdaSensor.t)) :=
  match coordinator_data with
  | None => Ok None
  | Some coordinator =>
      sensors ← enumerate_sensors coordinator entry;
      Ok (Some sensors)
  end.
End Enumerator.

(** ** What the enumeration is to give

    The template entries of the instances 1..count whose absolute address
    is not disabled, each with its data key and its absolute address: the
    list of section 8 of the specification, to compare the enumeration
    with. *)
Definition enabled_entries (generate_base_addresses : string -> Z -> gmap Z Z)
    (coordinator : Coordinator.t) (prefix : string) (count : Z)
    (template : template) : list (string * Z) :=
  idx ← Z.of_nat <$> seq 1 (Z.to_nat count);
  item ← template;
  match generate_base_addresses prefix count !! idx,
        Info.relative_address item.2 with
  | Some base, Some rel =>
      if Coordinator.is_register_disabled coordinator (base + rel) then []
      else [(data_key prefix idx item.1, base + rel)]
  | _, _ => []
  end.

(** The final sensor id of a general sensor, as the naming rules give it. *)
Definition general_id (legacy : bool) (item : string * Info.t) : string :=
  if legacy then default item.1 (Info.override_name item.2) else item.1.

(** The keys [{prefix}{index}_{sensor_id}] that an enumeration generates a
    sensor for: those of the template entries of the instances 1..count of
    the five device types whose register is not disabled. *)
Definition generated_key (generate_base_addresses : string -> Z -> gmap Z Z)
    (HP BOIL BUFF SOL HC : template) (coordinator : Coordinator.t)
    (entry : ConfigEntry.t) (key : string) : Prop :=
  exists prefix count template idx base sensor_id sensor_info rel,
    (prefix, count, template) ∈ TEMPLATES HP BOIL BUFF SOL HC entry /\
    1 <= idx <= count /\
    generate_base_addresses prefix count !! idx = Some base /\
    (sensor_id, sensor_info) ∈ template /\
    Info.relative_address sensor_info = Some rel /\
    Coordinator.is_register_disabled coordinator (base + rel) = false /\
    key = data_key prefix idx sensor_id.

(** The general entries whose register is not disabled. *)
Definition enabled_general (SENSOR_TYPES : template)
    (coordinator : Coordinator.t) (item : string * Info.t) : Prop :=
  item ∈ SENSOR_TYPES /\
  exists address,
    Info.address item.2 = Some address /\
    Coordinator.is_register_disabled coordinator address = false.

(** The name that the naming rules give a generated key: its non-empty
    override under legacy naming, else the key itself. *)
Definition given_name (coordinator : Coordinator.t) (legacy : bool)
    (key : string) : string :=
  match lookup_override coordinator legacy key with
  | Some (String c r) => String c r
  | _ => key
  end.

(** When the value accessor is to give the absent value, in the words of
    the specification: the snapshot is absent or empty, or has no entry for
    the sensor id, or the sensor is not a state sensor and its raw value
    fails the coercion to a float. *)
Definition absent_as_specified (float_of_str : string -> option float)
    (coordinator : Coordinator.t) (self : LambdaSensor.t) : Prop :=
  Coordinator.data coordinator = None \/
  Coordinator.data coordinator = Some ∅ \/
  (exists data, Coordinator.data coordinator = Some data /\
                data !! LambdaSensor._sensor_id self = None) \/
  (LambdaSensor._is_state_sensor self = false /\
   exists data value e,
     Coordinator.data coordinator = Some data /\
     data !! LambdaSensor._sensor_id self = Some value /\
     LambdaSensor.py_float float_of_str value = Raise e).

(** The lookup key of a state sensor in the words of the specification.
    The display name loses the device-type token in upper case and the index
    after it, with the white space that follows, when and only when it
    begins with them; the remainder is put in upper case, its spaces and
    hyphens become underscores, and [{DEVICE_TYPE_UPPER}_] comes first. *)
Fixpoint drop_prefix (p s : string) : option string :=
  match p, s with
  | EmptyString, _ => Some s
  | String a p', String b s' =>
      if Ascii.eqb a b then drop_prefix p' s' else None
  | String _ _, EmptyString => None
  end.

Fixpoint drop_while (f : ascii -> bool) (s : string) : string :=
  match s with
  | EmptyString => EmptyString
  | String c r => if f c then drop_while f r else s
  end.

Definition strip_token_and_index (token name : string) : string :=
  match drop_prefix token name with
  | Some (String c r) =>
      if PyStr.is_digit c
      then drop_while PyStr.is_space (drop_while PyStr.is_digit (String c r))
      else name
  | _ => name
  end.

Definition key_as_specified (device_type name : string) : string :=
  PyStr.upper device_type +:+ "_" +:+
  PyStr.replace "-" "_"
    (PyStr.replace " " "_"
       (PyStr.upper
          (strip_token_and_index (PyStr.upper device_type) name))).

(** ** A small installation, for the examples *)
Module Plant.

(** Base addresses as the device blocks of the register map are laid out:
    a block per device type, a hundred registers per instance. *)
Definition base_addresses (prefix : string) (count : Z) : gmap Z Z :=
  let start :=
    if (prefix =? "hp")%string then 1000
    else if (prefix =? "boil")%string then 2000
    else if (prefix =? "buff")%string then 3000
    else if (prefix =? "sol")%string then 4000
    else if (prefix =? "hc")%string then 5000
    else 0 in
  list_to_map (map (fun i => (i, start + (i - 1) * 100)) (range 1 (count + 1))).

(** A name format with fields written as a pair of braces. *)
Definition format_braces (fmt : string) (idx : Z) : result string :=
  Ok (PyStr.replace "{}" (PyStr.of_int idx) fmt).

Definition entry_of (rel : Z) (name unit : string) (txt : bool) : Info.t :=
  {| Info.relative_address := Some rel; Info.address := Some rel;
     Info.name := Some name; Info.unit := Some unit; Info.scale := None;
     Info.state_class := Some "measurement"; Info.device_class := None;
     Info.data_type := Some "int16"; Info.device_type := None;
     Info.txt_mapping := Some txt; Info.precision := Some 1;
     Info.override_name := None |}.

Definition HP : template :=
  [ ("flow_temp", entry_of 5 "Flow Temp" "°C" false);
    ("return_temp", entry_of 6 "Return Temp" "°C" false);
    ("operating_state", entry_of 3 "Operating State" "" true) ].

Definition GENERAL : template :=
  [ ("ambient_temp", entry_of 2 "Ambient Temp" "°C" false) ].

(** A heating circuit entry of the climate kind: its name is a format. *)
Definition CLIMATE : template :=
  [ ("room_temp",
     {| Info.relative_address := Some 4; Info.address := None;
        Info.name := Some "Heating Circuit {} Room Temperature";
        Info.unit := Some "°C"; Info.scale := None;
        Info.state_class := None; Info.device_class := None;
        Info.data_type := None; Info.device_type := Some "Climate";
        Info.txt_mapping := None; Info.precision := None;
        Info.override_name := None |}) ].

(** A general entry with a device class of its own and a unit that stands
    for none. *)
Definition PRESSURE : template :=
  [ ("system_pressure",
     {| Info.relative_address := None; Info.address := Some 7;
        Info.name := Some "System Pressure";
        Info.unit := Some "bar"; Info.scale := None;
        Info.state_class := Some "measurement";
        Info.device_class := Some (OTHER_DEVICE_CLASS "pressure");
        Info.data_type := None; Info.device_type := Some "main";
        Info.txt_mapping := None; Info.precision := None;
        Info.override_name := Some "" |}) ].

(** A template with an entry that has no name. *)
Definition NAMELESS : template :=
  [ ("flow_temp", entry_of 5 "Flow Temp" "°C" false);
    ("pressure",
     {| Info.relative_address := Some 7; Info.address := None;
        Info.name := None; Info.unit := Some "bar"; Info.scale := None;
        Info.state_class := None; Info.device_class := None;
        Info.data_type := None; Info.device_type := None;
        Info.txt_mapping := None; Info.precision := None;
        Info.override_name := None |}) ].

(** A template with a key that holds the text [sensor.]. *)
Definition DOTTED : template :=
  [ ("t", entry_of 5 "T" "°C" false);
    ("sensor.t", entry_of 6 "Sensor T" "°C" false) ].

(** Two general entries with one override name, and a general entry whose
    key is the key of a templated sensor. *)
Definition TWINS : template :=
  [ ("ambient_temp",
     {| Info.relative_address := None; Info.address := Some 2;
        Info.name := Some "Ambient Temp"; Info.unit := Some "°C";
        Info.scale := None; Info.state_class := None;
        Info.device_class := None; Info.data_type := None;
        Info.device_type := None; Info.txt_mapping := None;
        Info.precision := None; Info.override_name := Some "outside" |});
    ("ambient_temp_avg",
     {| Info.relative_address := None; Info.address := Some 4;
        Info.name := Some "Ambient Temp Average"; Info.unit := Some "°C";
        Info.scale := None; Info.state_class := None;
        Info.device_class := None; Info.data_type := None;
        Info.device_type := None; Info.txt_mapping := None;
        Info.precision := None; Info.override_name := Some "outside" |}) ].

Definition SHADOW : template :=
  [ ("hp1_flow_temp", entry_of 2 "Flow Temp" "°C" false) ].

(** A general state sensor; like the entries above it names no device type. *)
Definition STATES : template :=
  [ ("ambient_operating_state", entry_of 3 "Ambient Operating State" "" true) ].

Definition config (hps : option Z) (legacy : bool) : ConfigEntry.t :=
  {| ConfigEntry.num_hps := hps; ConfigEntry.num_boil := Some 0;
     ConfigEntry.num_buff := None; ConfigEntry.num_sol := None;
     ConfigEntry.num_hc := Some 0;
     ConfigEntry.use_legacy_modbus_names := Some legacy;
     ConfigEntry.name := Some "EU 08L" |}.

Definition coordinator (hps : option Z) (legacy : bool)
    (overrides : list (string * string))
    (data : option (list (string * PyVal))) (disabled : list Z)
  : Coordinator.t :=
  {| Coordinator.entry := config hps legacy;
     Coordinator.data := list_to_map <$> data;
     Coordinator.sensor_overrides := Some (list_to_map overrides);
     Coordinator.is_register_disabled :=
       fun a => bool_decide (a ∈ disabled) |}.

(** The coordinator of one heat pump: with nothing set, with legacy names
    and overrides, with disabled registers, with a snapshot. *)
Definition plain : Coordinator.t := coordinator (Some 1) false [] None [].

Definition with_overrides (overrides : list (string * string))
  : Coordinator.t :=
  coordinator (Some 1) true overrides None [].

Definition with_disabled (disabled : list Z) : Coordinator.t :=
  coordinator (Some 1) false [] None disabled.

Definition with_data (data : list (string * PyVal)) : Coordinator.t :=
  coordinator (Some 1) false [] (Some data) [].

(** [float] on the texts of the examples, none of which is a number, and
    [str] on a float, which no example reaches. *)
Definition float_of_str (s : string) : option float := None.
Definition str_of_float (x : float) : string := "".

(** The globals of the module: one mapping table, and the logger. *)
Definition globals : gmap string PyGlobal :=
  list_to_map
    [ ("HP_OPERATING_STATE",
       GDict (list_to_map [(0, "STBY"); (1, "CH"); (2, "DHW")]));
      ("_LOGGER", GObject) ].

(** The value accessor with these. *)
Definition native_value (coordinator : Coordinator.t) (self : LambdaSensor.t)
  : result (option NativeValue) :=
  LambdaSensor.native_value float_of_str str_of_float globals coordinator self.

(** The enumeration of this installation. *)
Definition sensors (hps : option Z) (legacy : bool)
    (overrides : list (string * string)) (disabled : list Z)
  : result (list LambdaSensor.t) :=
  enumerate_sensors base_addresses format_braces HP [] [] [] [] GENERAL
    (coordinator hps legacy overrides None disabled) (config hps legacy).

(** The list of a result, empty when the call raised. *)
Definition the {A : Type} (r : result (list A)) : list A :=
  match r with
  | Ok l => l
  | Raise _ => []
  end.

(** An entry that gives no option at all. *)
Definition no_counts : ConfigEntry.t :=
  {| ConfigEntry.num_hps := None; ConfigEntry.num_boil := None;
     ConfigEntry.num_buff := None; ConfigEntry.num_sol := None;
     ConfigEntry.num_hc := None;
     ConfigEntry.use_legacy_modbus_names := None;
     ConfigEntry.name := None |}.

End Plant.

(** * Properties *)

(** ** The built-ins and the enumeration on examples *)

Example replace_ex :
  PyStr.replace "sensor." "" "sensor.eu08l_hp1_sensor.x" = "eu08l_hp1_x".
Proof. reflexivity. Qed.

Example join_ex :
  PyStr.join " " (tail (PyStr.split "HP1 Operating State")) = "Operating State".
Proof. reflexivity. Qed.

Example contains_ex :
  PyStr.contains "HP" "Total HP Energy" = true /\
  PyStr.contains "HP" "hp x" = false.
Proof. split; reflexivity. Qed.

Example upper_ex : PyStr.upper "hp1 Operating-state" = "HP1 OPERATING-STATE".
Proof. reflexivity. Qed.

Example split_ex :
  PyStr.split "  HP1   Operating State " = ["HP1"; "Operating"; "State"].
Proof. reflexivity. Qed.

Example of_int_ex : PyStr.of_int 12 = "12" /\ PyStr.of_int (-3) = "-3".
Proof. split; reflexivity. Qed.

Example float_int_ex :
  (x ← float_of_int 2; int_of_float x) = Ok 2 /\
  int_of_float (S754_finite true 5 (-1)) = Ok (-2) /\
  float_of_int (2 ^ 1024) = Raise OverflowError.
Proof. repeat split; vm_compute; reflexivity. Qed.

Example enumerate_modern :
  (map (fun s => (LambdaSensor._sensor_id s, LambdaSensor.entity_id s,
                  LambdaSensor._attr_unique_id s, LambdaSensor._address s,
                  LambdaSensor._attr_device_class s))
     <$> Plant.sensors (Some 1) false [] [1006])
  = Ok [ ("hp1_flow_temp", "sensor.hp1_flow_temp", "hp1_flow_temp", 1005,
          Some TEMPERATURE);
         ("hp1_operating_state", "sensor.hp1_operating_state",
          "hp1_operating_state", 1003, None);
         ("ambient_temp", "sensor.ambient_temp", "ambient_temp", 2,
          Some TEMPERATURE) ].
Proof. vm_compute. reflexivity. Qed.

(** ** Loops in the result monad *)

Lemma bind_Ok {A B : Type} (m : result A) (k : A -> result B) (b : B) :
  (m ≫= k) = Ok b <-> exists a, m = Ok a /\ k a = Ok b.
Proof.
  destruct m as [a|e]; simpl; split.
  - intros H. exists a. split; [reflexivity | exact H].
  - intros (a' & Ha & Hk). injection Ha as <-. exact Hk.
  - discriminate.
  - intros (a' & Ha & _). discriminate.
Qed.

Lemma for_each_cons_Ok {A B : Type} (body : A -> result (list B)) x xs ys :
  for_each body (x :: xs) = Ok ys <->
  exists zs ws, body x = Ok zs /\ for_each body xs = Ok ws /\ ys = zs ++ ws.
Proof.
  simpl. rewrite bind_Ok. split.
  - intros (zs & Hx & H). apply bind_Ok in H as (ws & Hxs & H).
    injection H as <-. eauto.
  - intros (zs & ws & Hx & Hxs & ->). exists zs. split; [exact Hx|].
    apply bind_Ok. exists ws. split; [exact Hxs | reflexivity].
Qed.

(** A loop that ends gave, for each element, the sensors of its body. *)
Lemma for_each_Ok {A B : Type} (body : A -> result (list B)) xs ys :
  for_each body xs = Ok ys <->
  exists yss, Forall2 (fun x zs => body x = Ok zs) xs yss /\ ys = concat yss.
Proof.
  revert ys. induction xs as [|x xs IH]; intros ys.
  - simpl. split.
    + intros [= <-]. exists []. split; [constructor | reflexivity].
    + intros (yss & HF & ->). inversion HF. reflexivity.
  - rewrite for_each_cons_Ok. split.
    + intros (zs & ws & Hx & Hxs & ->).
      apply IH in Hxs as (yss & HF & ->).
      exists (zs :: yss). split; [constructor; assumption | reflexivity].
    + intros (yss & HF & ->). inversion HF as [|? zs ? yss' Hx HF']; subst.
      exists zs, (concat yss'). split; [exact Hx|]. split; [|reflexivity].
      apply IH. eauto.
Qed.

(** A loop whose body never raises ends. *)
Lemma for_each_total {A B : Type} (body : A -> result (list B)) xs :
  Forall (fun x => exists zs, body x = Ok zs) xs ->
  exists ys, for_each body xs = Ok ys.
Proof.
  induction 1 as [|x xs (zs & Hx) _ (ws & Hxs)].
  - exists []. reflexivity.
  - exists (zs ++ ws). apply for_each_cons_Ok. eauto.
Qed.

Lemma for_each_elem {A B : Type} (body : A -> result (list B)) xs ys x :
  for_each body xs = Ok ys -> x ∈ xs ->
  exists zs, body x = Ok zs /\ zs ⊆ ys.
Proof.
  revert ys. induction xs as [|x' xs IH]; intros ys Hys Hx.
  - inversion Hx.
  - apply for_each_cons_Ok in Hys as (zs & ws & Hx' & Hxs & ->).
    apply elem_of_cons in Hx as [->|Hx].
    + exists zs. split; [exact Hx'|]. intros z Hz. apply elem_of_app. auto.
    + destruct (IH ws Hxs Hx) as (zs' & Hb & Hsub).
      exists zs'. split; [exact Hb|]. intros z Hz. apply elem_of_app. auto.
Qed.

Lemma for_each_Forall {A B : Type} (P : B -> Prop)
    (body : A -> result (list B)) xs ys :
  (forall x zs, x ∈ xs -> body x = Ok zs -> Forall P zs) ->
  for_each body xs = Ok ys -> Forall P ys.
Proof.
  revert ys. induction xs as [|x xs IH]; intros ys HP Hys.
  - injection Hys as <-. constructor.
  - apply for_each_cons_Ok in Hys as (zs & ws & Hx & Hxs & ->).
    apply Forall_app. split.
    + apply (HP x); [left | exact Hx].
    + apply IH; [|exact Hxs]. intros x' zs' Hin. apply HP. right. exact Hin.
Qed.

Lemma elem_of_range lo hi i : i ∈ range lo hi <-> lo <= i < hi.
Proof.
  unfold range. rewrite list_elem_of_fmap. split.
  - intros (n & -> & Hn). apply elem_of_seq in Hn. lia.
  - intros H. exists (Z.to_nat (i - lo)). split; [lia|].
    apply elem_of_seq. lia.
Qed.

Lemma NoDup_range lo hi : NoDup (range lo hi).
Proof.
  unfold range. apply NoDup_fmap_2; [|apply NoDup_seq].
  intros n m H. lia.
Qed.

(** The instances 1..count, as [range(1, count + 1)] gives them. *)
Lemma range_from_1 count :
  range 1 (count + 1) = Z.of_nat <$> seq 1 (Z.to_nat count).
Proof.
  unfold range. replace (count + 1 - 1) with count by lia.
  rewrite <- fmap_S_seq, <- list_fmap_compose.
  apply list_fmap_ext. intros _ i _. simpl. lia.
Qed.

(** ** Strings *)

Lemma str_or_Some_app a b c d :
  LambdaSensor.str_or (Some (a +:+ String c b)) d = a +:+ String c b.
Proof. destruct a; reflexivity. Qed.

Lemma str_or_None d : LambdaSensor.str_or None d = d.
Proof. reflexivity. Qed.

Lemma append_cons c a b : String c a +:+ b = String c (a +:+ b).
Proof. reflexivity. Qed.

Lemma append_nil_l a : "" +:+ a = a.
Proof. reflexivity. Qed.

Lemma append_nil_r a : a +:+ "" = a.
Proof.
  induction a as [|c a IH]; [reflexivity|].
  rewrite append_cons, IH. reflexivity.
Qed.

Lemma append_length a b :
  String.length (a +:+ b) = (String.length a + String.length b)%nat.
Proof.
  induction a as [|c a IH]; [reflexivity|].
  rewrite append_cons. simpl. rewrite IH. reflexivity.
Qed.

Lemma append_assoc a b c : (a +:+ b) +:+ c = a +:+ (b +:+ c).
Proof.
  induction a as [|x a IH]; [reflexivity|].
  rewrite !append_cons, IH. reflexivity.
Qed.

(** ** The constructor *)

(** C9. A sensor constructed with [txt_mapping] true exposes no unit of
    measurement, no device class, no state class and no display precision,
    whatever unit, device class, state class and precision it is constructed
    with. *)
Theorem state_sensor_exposes_no_attributes
    (sensor_id name unit : string) (address : Z) (scale : float)
    (state_class : string) (device_class : option SensorDeviceClass)
    (relative_address : Z) (data_type device_type : option string)
    (precision : option Z) (entity_id unique_id : option string) :
  let self :=
    LambdaSensor.__init__ sensor_id name unit address scale state_class
      device_class relative_address data_type device_type true precision
      entity_id unique_id in
  LambdaSensor._attr_native_unit_of_measurement self = None /\
  LambdaSensor._attr_device_class self = None /\
  LambdaSensor._attr_state_class self = None /\
  LambdaSensor._attr_suggested_display_precision self = None.
Proof. repeat split. Qed.

(** The same on the sensors of a template: an entry marked [txt_mapping]
    gives a sensor without the four attributes, whatever else it says. *)
Lemma templated_state_sensor_attributes str_format coordinator legacy
    name_prefix prefix idx base_address sensor_id sensor_info sensors :
  Info.txt_mapping sensor_info = Some true ->
  templated_sensor str_format coordinator legacy name_prefix prefix idx
    base_address (sensor_id, sensor_info) = Ok sensors ->
  Forall (fun self =>
            LambdaSensor._attr_native_unit_of_measurement self = None /\
            LambdaSensor._attr_device_class self = None /\
            LambdaSensor._attr_state_class self = None /\
            LambdaSensor._attr_suggested_display_precision self = None)
    sensors.
Proof.
  intros Htxt. unfold templated_sensor.
  intros H. apply bind_Ok in H as (rel & _ & H).
  destruct (Coordinator.is_register_disabled _ _).
  { injection H as <-. constructor. }
  apply bind_Ok in H as ([[[nm sid] eid] uid] & _ & H).
  injection H as <-. rewrite Htxt. repeat constructor.
Qed.

(** ** General sensors *)

Lemma general_sensor_shape coordinator legacy name_prefix item sensors :
  general_sensor coordinator legacy name_prefix item = Ok sensors ->
  Forall (fun self =>
            LambdaSensor._attr_unique_id self = LambdaSensor._sensor_id self /\
            LambdaSensor.entity_id self =
              (if legacy
               then "sensor." +:+ name_prefix +:+ "_" +:+
                    LambdaSensor._sensor_id self
               else "sensor." +:+ LambdaSensor._sensor_id self) /\
            Coordinator.is_register_disabled coordinator
              (LambdaSensor._address self) = false)
    sensors.
Proof.
  destruct item as [sensor_id sensor_info]. unfold general_sensor.
  intros H. apply bind_Ok in H as (address & _ & H).
  destruct (Coordinator.is_register_disabled _ _) eqn:Hdis.
  { injection H as <-. constructor. }
  apply bind_Ok in H as ([nm sid] & _ & H).
  injection H as <-. constructor; [|constructor].
  split; [reflexivity|]. split; [|exact Hdis].
  destruct legacy; reflexivity.
Qed.

Lemma append_neq_self a b : a +:+ "_" +:+ b <> b.
Proof.
  intros H. apply (f_equal String.length) in H.
  rewrite !append_length in H. simpl in H. lia.
Qed.

(** C10. A general sensor is constructed without a unique id, so its unique
    id is its final sensor id.  With legacy names its entity id is
    [sensor.{name_prefix}_{sensor_id}], and the unique id, which has no name
    prefix, is not that entity id without the leading [sensor.]. *)
Theorem general_sensor_unique_id coordinator legacy name_prefix SENSOR_TYPES
    sensors :
  for_each (general_sensor coordinator legacy name_prefix) SENSOR_TYPES
    = Ok sensors ->
  Forall (fun self =>
            LambdaSensor._attr_unique_id self = LambdaSensor._sensor_id self /\
            (legacy = true ->
             LambdaSensor.entity_id self =
               "sensor." +:+ name_prefix +:+ "_" +:+
               LambdaSensor._sensor_id self /\
             "sensor." +:+ LambdaSensor._attr_unique_id self
               <> LambdaSensor.entity_id self))
    sensors.
Proof.
  apply for_each_Forall. intros item zs _ Hitem.
  apply general_sensor_shape in Hitem.
  eapply Forall_impl; [exact Hitem|].
  intros self (Huid & Heid & _). split; [exact Huid|].
  intros ->. split; [exact Heid|].
  rewrite Heid, Huid. intros H. injection H as H.
  symmetry in H. exact (append_neq_self _ _ H).
Qed.

Lemma general_sensor_unique_id_witness :
  exists sensors,
    for_each
      (general_sensor (Plant.with_overrides []) true "eu08l")
      Plant.GENERAL = Ok sensors /\
    map LambdaSensor._attr_unique_id sensors = ["ambient_temp"] /\
    map LambdaSensor.entity_id sensors = ["sensor.eu08l_ambient_temp"] /\
    Forall (fun self =>
              LambdaSensor._attr_unique_id self
              = LambdaSensor._sensor_id self /\
              (true = true ->
               LambdaSensor.entity_id self =
                 "sensor." +:+ "eu08l" +:+ "_" +:+
                 LambdaSensor._sensor_id self /\
               "sensor." +:+ LambdaSensor._attr_unique_id self
                 <> LambdaSensor.entity_id self))
      sensors.
Proof.
  eexists. split; [vm_compute; reflexivity|].
  split; [reflexivity|]. split; [reflexivity|].
  apply (general_sensor_unique_id (Plant.with_overrides []) true "eu08l"
           Plant.GENERAL).
  vm_compute. reflexivity.
Defined.

(** ** Instance counts *)

Section Counts.
Variable generate_base_addresses : string -> Z -> gmap Z Z.
Variable str_format : string -> Z -> result string.
Variables HP BOIL BUFF SOL HC : template.

Lemma device_sensors_count_0 coordinator legacy name_prefix prefix template :
  device_sensors generate_base_addresses str_format coordinator legacy
    name_prefix (prefix, 0, template) = Ok [].
Proof. reflexivity. Qed.

(** C6, as the code has it.  An omitted count is 1 for the heat pumps and
    the boilers and 0 for the buffers and the solar modules; so an omitted
    [num_buff] or [num_sol] gives no sensor of that device type, and an
    omitted [num_hps] or [num_boil] gives the sensors of one instance. *)
Theorem omitted_instance_counts (entry : ConfigEntry.t) coordinator legacy
    name_prefix :
  (ConfigEntry.num_hps entry = None ->
   ("hp", 1, HP) ∈ TEMPLATES HP BOIL BUFF SOL HC entry) /\
  (ConfigEntry.num_boil entry = None ->
   ("boil", 1, BOIL) ∈ TEMPLATES HP BOIL BUFF SOL HC entry) /\
  (ConfigEntry.num_buff entry = None ->
   ("buff", 0, BUFF) ∈ TEMPLATES HP BOIL BUFF SOL HC entry /\
   device_sensors generate_base_addresses str_format coordinator legacy
     name_prefix ("buff", default 0 (ConfigEntry.num_buff entry), BUFF)
     = Ok []) /\
  (ConfigEntry.num_sol entry = None ->
   ("sol", 0, SOL) ∈ TEMPLATES HP BOIL BUFF SOL HC entry /\
   device_sensors generate_base_addresses str_format coordinator legacy
     name_prefix ("sol", default 0 (ConfigEntry.num_sol entry), SOL)
     = Ok []).
Proof.
  unfold TEMPLATES. split; [|split; [|split]]; intros ->; simpl.
  - set_solver.
  - set_solver.
  - split; [set_solver | reflexivity].
  - split; [set_solver | reflexivity].
Qed.
End Counts.

Lemma omitted_instance_counts_witness :
  ("hp", 1, Plant.HP)
    ∈ TEMPLATES Plant.HP [] Plant.HP [] [] Plant.no_counts /\
  device_sensors Plant.base_addresses Plant.format_braces
    Plant.plain false ""
    ("buff", default 0 (ConfigEntry.num_buff Plant.no_counts), Plant.HP)
  = Ok [].
Proof.
  pose proof (omitted_instance_counts Plant.base_addresses
                Plant.format_braces Plant.HP [] Plant.HP [] [] Plant.no_counts
                Plant.plain false "")
    as (Hhp & _ & Hbuff & _).
  split.
  - apply Hhp. reflexivity.
  - apply Hbuff. reflexivity.
Defined.

(** C6 as the specification words it fails: with [num_hps] omitted the
    heat pump count is 1, not 0, and the sensors of the first heat pump are
    generated. *)
Lemma omitted_num_hps_generates_sensors :
  (map LambdaSensor._sensor_id <$> Plant.sensors None false [] [])
  = Ok ["hp1_flow_temp"; "hp1_return_temp"; "hp1_operating_state";
        "ambient_temp"] /\
  ("hp", 0, Plant.HP) ∉
    TEMPLATES Plant.HP [] [] [] [] (Plant.config None false).
Proof.
  split; [vm_compute; reflexivity|].
  unfold TEMPLATES. simpl. intros H.
  repeat (apply elem_of_cons in H as [H|H]; [discriminate H|]).
  inversion H.
Qed.

(** ** Templated sensors: what one template entry gives *)

Section Templated.
Variable generate_base_addresses : string -> Z -> gmap Z Z.
Variable str_format : string -> Z -> result string.
Variable coordinator : Coordinator.t.
Variable legacy : bool.
Variable name_prefix : string.

Abbreviation disabled := (Coordinator.is_register_disabled coordinator).
Abbreviation body :=
  (templated_sensor str_format coordinator legacy name_prefix).

(** A disabled register is passed over, without an error, whatever the rest
    of the entry says. *)
Lemma templated_sensor_disabled prefix idx base sensor_id sensor_info rel :
  Info.relative_address sensor_info = Some rel ->
  disabled (base + rel) = true ->
  body prefix idx base (sensor_id, sensor_info) = Ok [].
Proof.
  intros Hrel Hdis. unfold templated_sensor. rewrite Hrel. simpl.
  rewrite Hdis. reflexivity.
Qed.

(** With an override that applies, the entry gives one sensor, named by the
    override and keyed by the data key. *)
Lemma templated_sensor_override prefix idx base sensor_id sensor_info rel o :
  Info.relative_address sensor_info = Some rel ->
  disabled (base + rel) = false ->
  lookup_override coordinator legacy (data_key prefix idx sensor_id) = Some o ->
  o <> "" ->
  exists self,
    body prefix idx base (sensor_id, sensor_info) = Ok [self] /\
    LambdaSensor._attr_name self = o /\
    LambdaSensor._sensor_id self = data_key prefix idx sensor_id /\
    LambdaSensor.entity_id self = "sensor." +:+ name_prefix +:+ "_" +:+ o /\
    LambdaSensor._attr_unique_id self = name_prefix +:+ "_" +:+ o /\
    LambdaSensor._address self = base + rel.
Proof.
  intros Hrel Hdis Hov Ho. unfold templated_sensor.
  rewrite Hrel. simpl. rewrite Hdis, Hov.
  destruct o as [|c r]; [congruence|]. simpl.
  eexists. split; [reflexivity|]. simpl.
  repeat split. apply str_or_Some_app.
Qed.

(** The sensor id is the data key and the address the absolute one, with
    or without an override. *)
Lemma templated_sensor_shape prefix idx base sensor_id sensor_info sensors :
  body prefix idx base (sensor_id, sensor_info) = Ok sensors ->
  exists rel, Info.relative_address sensor_info = Some rel /\
    if disabled (base + rel) then sensors = []
    else exists self, sensors = [self] /\
         LambdaSensor._sensor_id self = data_key prefix idx sensor_id /\
         LambdaSensor._address self = base + rel /\
         LambdaSensor._attr_unique_id self =
           match lookup_override coordinator legacy
                   (data_key prefix idx sensor_id) with
           | Some (String c r) => name_prefix +:+ "_" +:+ String c r
           | _ =>
               LambdaSensor.str_or
                 (Some (PyStr.replace "sensor." ""
                          ("sensor." +:+
                           (if legacy then name_prefix +:+ "_" else "") +:+
                           data_key prefix idx sensor_id)))
                 (data_key prefix idx sensor_id)
           end.
Proof.
  unfold templated_sensor. intros H.
  apply bind_Ok in H as (rel & Hrel & H).
  exists rel. split.
  { destruct (Info.relative_address sensor_info); [|discriminate].
    injection Hrel as ->. reflexivity. }
  destruct (disabled (base + rel)).
  { injection H as <-. reflexivity. }
  apply bind_Ok in H as ([[[nm sid] eid] uid] & Hnaming & H).
  injection H as <-. eexists. split; [reflexivity|]. simpl.
  destruct (lookup_override coordinator legacy _) as [[|c r]|].
  - apply bind_Ok in Hnaming as (nm' & _ & Hn). injection Hn as <- <- <- <-.
    repeat split. destruct legacy; [|reflexivity].
    rewrite append_assoc. reflexivity.
  - injection Hnaming as <- <- <- <-. repeat split. apply str_or_Some_app.
  - apply bind_Ok in Hnaming as (nm' & _ & Hn). injection Hn as <- <- <- <-.
    repeat split. destruct legacy; [|reflexivity].
    rewrite append_assoc. reflexivity.
Qed.

End Templated.

(** ** The enumeration as a whole *)

Section Enumeration.
Variable generate_base_addresses : string -> Z -> gmap Z Z.
Variable str_format : string -> Z -> result string.
Variables HP BOIL BUFF SOL HC SENSOR_TYPES : template.
Variable coordinator : Coordinator.t.

Abbreviation disabled := (Coordinator.is_register_disabled coordinator).
Abbreviation enumerate :=
  (enumerate_sensors generate_base_addresses str_format HP BOIL BUFF SOL HC
     SENSOR_TYPES coordinator).
Abbreviation devices := (TEMPLATES HP BOIL BUFF SOL HC).
Abbreviation legacy_of entry :=
  (default false (ConfigEntry.use_legacy_modbus_names entry)).

(** The two halves of the list. *)
Lemma enumerate_Ok entry sensors :
  enumerate entry = Ok sensors <->
  exists templated general,
    for_each
      (device_sensors generate_base_addresses str_format coordinator
         (legacy_of entry) (name_prefix_of entry))
      (devices entry) = Ok templated /\
    for_each
      (general_sensor coordinator (legacy_of entry) (name_prefix_of entry))
      SENSOR_TYPES = Ok general /\
    sensors = templated ++ general.
Proof.
  unfold enumerate_sensors. rewrite bind_Ok. split.
  - intros (templated & Ht & H). apply bind_Ok in H as (general & Hg & H).
    injection H as <-. eauto.
  - intros (templated & general & Ht & Hg & ->).
    exists templated. split; [exact Ht|]. apply bind_Ok. eauto.
Qed.

Lemma device_sensors_elem legacy name_prefix prefix count template idx item
    sensors :
  device_sensors generate_base_addresses str_format coordinator legacy
    name_prefix (prefix, count, template) = Ok sensors ->
  1 <= idx <= count -> item ∈ template ->
  exists base zs,
    generate_base_addresses prefix count !! idx = Some base /\
    templated_sensor str_format coordinator legacy name_prefix prefix idx base
      item = Ok zs /\
    zs ⊆ sensors.
Proof.
  unfold device_sensors. intros H Hidx Hitem.
  eapply for_each_elem in H as (rs & Hrs & Hsub1);
    [|apply elem_of_range; split; [apply Hidx | lia]].
  apply bind_Ok in Hrs as (base & Hbase & Hrs).
  eapply for_each_elem in Hrs as (zs & Hzs & Hsub2); [|exact Hitem].
  exists base, zs. split.
  { destruct (generate_base_addresses prefix count !! idx); [|discriminate].
    injection Hbase as ->. reflexivity. }
  split; [exact Hzs|]. intros z Hz. auto.
Qed.

(** C1, as the code has it.  With legacy names and a non-empty override
    under the key [{prefix}{index}_{sensor_id}], the sensor that the
    enumeration produces for the entry has the override as its display name,
    entity id [sensor.{name_prefix}_{override}] and unique id
    [{name_prefix}_{override}]; its sensor id stays the key
    [{prefix}{index}_{sensor_id}], under which the snapshot holds its
    value. *)
Theorem override_names_templated_sensor entry sensors overrides prefix count
    template idx sensor_id sensor_info base rel o :
  enumerate entry = Ok sensors ->
  ConfigEntry.use_legacy_modbus_names entry = Some true ->
  Coordinator.sensor_overrides coordinator = Some overrides ->
  (prefix, count, template) ∈ devices entry ->
  1 <= idx <= count ->
  (sensor_id, sensor_info) ∈ template ->
  generate_base_addresses prefix count !! idx = Some base ->
  Info.relative_address sensor_info = Some rel ->
  disabled (base + rel) = false ->
  overrides !! data_key prefix idx sensor_id = Some o ->
  o <> "" ->
  exists self,
    self ∈ sensors /\
    LambdaSensor._attr_name self = o /\
    LambdaSensor._sensor_id self = data_key prefix idx sensor_id /\
    LambdaSensor.entity_id self =
      "sensor." +:+ name_prefix_of entry +:+ "_" +:+ o /\
    LambdaSensor._attr_unique_id self = name_prefix_of entry +:+ "_" +:+ o.
Proof.
  intros Hen Hleg Hov Hdev Hidx Hitem Hbase Hrel Hdis Ho Hne.
  apply enumerate_Ok in Hen as (templated & general & Ht & _ & ->).
  eapply for_each_elem in Ht as (ds & Hds & Hsub1); [|exact Hdev].
  eapply device_sensors_elem in Hds as (base' & zs & Hbase' & Hzs & Hsub2);
    [|exact Hidx|exact Hitem].
  rewrite Hbase in Hbase'. injection Hbase' as <-.
  destruct (templated_sensor_override str_format coordinator (legacy_of entry)
              (name_prefix_of entry) prefix idx base sensor_id sensor_info
              rel o Hrel Hdis)
    as (self & Hself & Hname & Hsid & Heid & Huid & _); [|exact Hne|].
  { unfold lookup_override. rewrite Hleg, Hov. simpl. exact Ho. }
  rewrite Hself in Hzs. injection Hzs as <-.
  exists self. split.
  { apply elem_of_app. left. apply Hsub1, Hsub2. left. }
  auto.
Qed.
End Enumeration.

Lemma override_names_templated_sensor_witness :
  exists self,
    self ∈ Plant.the (Plant.sensors (Some 1) true
                        [("hp1_flow_temp", "supply_temp")] []) /\
    LambdaSensor._attr_name self = "supply_temp" /\
    LambdaSensor._sensor_id self = data_key "hp" 1 "flow_temp" /\
    LambdaSensor.entity_id self =
      "sensor." +:+ name_prefix_of (Plant.config (Some 1) true) +:+ "_" +:+
      "supply_temp" /\
    LambdaSensor._attr_unique_id self =
      name_prefix_of (Plant.config (Some 1) true) +:+ "_" +:+ "supply_temp".
Proof.
  destruct (Plant.sensors (Some 1) true [("hp1_flow_temp", "supply_temp")] [])
    as [sensors|e] eqn:Hen; [|vm_compute in Hen; discriminate Hen].
  simpl.
  apply (override_names_templated_sensor Plant.base_addresses
           Plant.format_braces Plant.HP [] [] [] [] Plant.GENERAL
           (Plant.with_overrides [("hp1_flow_temp", "supply_temp")])
           (Plant.config (Some 1) true) sensors
           (list_to_map [("hp1_flow_temp", "supply_temp")])
           "hp" 1 Plant.HP 1 "flow_temp"
           (Plant.entry_of 5 "Flow Temp" "°C" false) 1000 5 "supply_temp").
  - exact Hen.
  - reflexivity.
  - reflexivity.
  - left.
  - lia.
  - left.
  - vm_compute. reflexivity.
  - reflexivity.
  - vm_compute. reflexivity.
  - vm_compute. reflexivity.
  - discriminate.
Defined.

(** C1 as the specification words it fails: the sensor named by the override
    keeps the data key as its sensor id; the override is not its sensor id. *)
Lemma override_is_not_the_sensor_id :
  (map (fun self => (LambdaSensor._attr_name self, LambdaSensor._sensor_id self,
                     LambdaSensor.entity_id self,
                     LambdaSensor._attr_unique_id self))
     <$> Plant.sensors (Some 1) true [("hp1_flow_temp", "supply_temp")]
           [1006; 1003; 2])
  = Ok [("supply_temp", "hp1_flow_temp", "sensor.eu08l_supply_temp",
         "eu08l_supply_temp")] /\
  "hp1_flow_temp" <> "supply_temp".
Proof. split; [vm_compute; reflexivity | discriminate]. Qed.

(** ** Disabled registers *)

Lemma for_each_fmap_bind {A B C : Type} (g : B -> C) (h : A -> list C)
    (body : A -> result (list B)) xs ys :
  (forall x zs, x ∈ xs -> body x = Ok zs -> g <$> zs = h x) ->
  for_each body xs = Ok ys -> g <$> ys = xs ≫= h.
Proof.
  revert ys. induction xs as [|x xs IH]; intros ys Hh Hys.
  - injection Hys as <-. reflexivity.
  - apply for_each_cons_Ok in Hys as (zs & ws & Hx & Hxs & ->).
    rewrite fmap_app, bind_cons. f_equal.
    + apply Hh; [left | exact Hx].
    + apply IH; [|exact Hxs]. intros x' zs' Hin. apply Hh. right. exact Hin.
Qed.

Lemma device_sensors_not_disabled_at generate_base_addresses str_format
    coordinator legacy name_prefix device sensors :
  device_sensors generate_base_addresses str_format coordinator legacy
    name_prefix device = Ok sensors ->
  Forall (fun self =>
            Coordinator.is_register_disabled coordinator
              (LambdaSensor._address self) = false) sensors.
Proof.
  destruct device as [[prefix count] template].
  unfold device_sensors. apply for_each_Forall. intros idx rs _ Hrs.
  apply bind_Ok in Hrs as (base & _ & Hrs).
  revert Hrs. apply for_each_Forall. intros [sensor_id sensor_info] zs _ Hzs.
  apply templated_sensor_shape in Hzs as (rel & _ & Hzs).
  destruct (Coordinator.is_register_disabled coordinator (base + rel)) eqn:Hdis.
  - subst zs. constructor.
  - destruct Hzs as (self & -> & _ & Haddr & _).
    constructor; [|constructor]. rewrite Haddr. exact Hdis.
Qed.

Section Disabled.
Variable generate_base_addresses : string -> Z -> gmap Z Z.
Variable str_format : string -> Z -> result string.
Variable coordinator : Coordinator.t.
Variable legacy : bool.
Variable name_prefix : string.

Abbreviation disabled := (Coordinator.is_register_disabled coordinator).

Lemma device_sensors_enabled prefix count template sensors :
  device_sensors generate_base_addresses str_format coordinator legacy
    name_prefix (prefix, count, template) = Ok sensors ->
  (fun self => (LambdaSensor._sensor_id self, LambdaSensor._address self))
    <$> sensors
  = enabled_entries generate_base_addresses coordinator prefix count template.
Proof.
  unfold device_sensors, enabled_entries. rewrite <- range_from_1.
  apply for_each_fmap_bind. intros idx rs _ Hrs.
  apply bind_Ok in Hrs as (base & Hbase & Hrs).
  destruct (generate_base_addresses prefix count !! idx) as [b|];
    [|discriminate]. injection Hbase as ->.
  revert Hrs. apply for_each_fmap_bind. intros [sensor_id sensor_info] zs _ Hzs.
  apply templated_sensor_shape in Hzs as (rel & Hrel & Hzs). simpl.
  rewrite Hrel. destruct (disabled (base + rel)).
  - subst zs. reflexivity.
  - destruct Hzs as (self & -> & Hsid & Haddr & _). simpl.
    rewrite Hsid, Haddr. reflexivity.
Qed.

Lemma device_sensors_not_disabled prefix count template sensors :
  device_sensors generate_base_addresses str_format coordinator legacy
    name_prefix (prefix, count, template) = Ok sensors ->
  Forall (fun self => disabled (LambdaSensor._address self) = false) sensors.
Proof. apply device_sensors_not_disabled_at. Qed.

(** The same on the whole list: no sensor of an enumeration, templated or
    general, has a disabled address. *)
Lemma enumeration_has_no_disabled_address HP BOIL BUFF SOL HC SENSOR_TYPES
    entry sensors :
  enumerate_sensors generate_base_addresses str_format HP BOIL BUFF SOL HC
    SENSOR_TYPES coordinator entry = Ok sensors ->
  Forall (fun self => disabled (LambdaSensor._address self) = false) sensors.
Proof.
  intros H. apply enumerate_Ok in H as (templated & general & Ht & Hg & ->).
  apply Forall_app. split.
  - revert Ht. apply for_each_Forall.
    intros [[prefix count] template] zs _ Hzs.
    eapply device_sensors_not_disabled_at. exact Hzs.
  - revert Hg. apply for_each_Forall. intros item zs _ Hzs.
    apply general_sensor_shape in Hzs.
    eapply Forall_impl; [exact Hzs|]. intros self (_ & _ & H). exact H.
Qed.
End Disabled.

(** ** Characters of the generated identifiers *)

Lemma has_char_app c a b :
  PyStr.has_char c (a +:+ b) = PyStr.has_char c a || PyStr.has_char c b.
Proof.
  induction a as [|x a IH]; [reflexivity|].
  rewrite append_cons. simpl. rewrite IH. apply orb_assoc.
Qed.

Lemma pretty_N_char_digit x : PyStr.is_digit (pretty_N_char x) = true.
Proof. unfold pretty_N_char. repeat case_match; reflexivity. Qed.

Lemma pretty_N_go_chars c x s :
  PyStr.has_char c (pretty_N_go x s) = true ->
  PyStr.is_digit c = true \/ PyStr.has_char c s = true.
Proof.
  revert s. induction (N.lt_wf_0 x) as [x _ IH]; intros s.
  destruct (decide (x = 0)%N) as [->|Hx].
  - rewrite pretty_N_go_0. auto.
  - rewrite pretty_N_go_step by lia. intros H.
    apply IH in H; [|apply N.div_lt; lia].
    destruct H as [H|H]; [auto|]. simpl in H.
    apply orb_true_iff in H as [H|H]; [|auto].
    left. apply Ascii.eqb_eq in H as ->. apply pretty_N_char_digit.
Qed.

(** The decimal form of an index has digits only. *)
Lemma of_int_digits c i :
  0 <= i -> PyStr.has_char c (PyStr.of_int i) = true -> PyStr.is_digit c = true.
Proof.
  intros Hi. unfold PyStr.of_int, pretty, pretty_Z.
  destruct i as [|p|p]; [| |lia].
  - simpl. intros H. apply orb_true_iff in H as [H|H]; [|discriminate].
    apply Ascii.eqb_eq in H as ->. reflexivity.
  - unfold pretty, pretty_positive, pretty, pretty_N.
    destruct (decide (N.pos p = 0)%N); [discriminate|].
    intros H. apply pretty_N_go_chars in H as [H|H]; [exact H | discriminate].
Qed.

Lemma of_int_has_no c i :
  0 <= i -> PyStr.is_digit c = false ->
  PyStr.has_char c (PyStr.of_int i) = false.
Proof.
  intros Hi Hc.
  destruct (PyStr.has_char c (PyStr.of_int i)) eqn:H; [|reflexivity].
  apply of_int_digits in H; [congruence | exact Hi].
Qed.

(** Two strings cut at their first [c] are equal piece by piece. *)
Lemma append_sep_inj c d1 s1 d2 s2 :
  PyStr.has_char c d1 = false -> PyStr.has_char c d2 = false ->
  d1 +:+ String c s1 = d2 +:+ String c s2 -> d1 = d2 /\ s1 = s2.
Proof.
  revert d2. induction d1 as [|a d1 IH]; intros [|b d2] H1 H2 H.
  - injection H as ->. auto.
  - rewrite append_cons, append_nil_l in H. injection H as <- _.
    simpl in H2. rewrite Ascii.eqb_refl in H2. discriminate.
  - rewrite append_cons, append_nil_l in H. injection H as -> _.
    simpl in H1. rewrite Ascii.eqb_refl in H1. discriminate.
  - rewrite !append_cons in H. injection H as -> H.
    simpl in H1, H2. apply orb_false_iff in H1 as [_ H1].
    apply orb_false_iff in H2 as [_ H2].
    destruct (IH d2 H1 H2 H) as [-> ->]. auto.
Qed.

Lemma startswith_has_char c p s :
  PyStr.startswith p s = true -> PyStr.has_char c p = true ->
  PyStr.has_char c s = true.
Proof.
  revert s. induction p as [|a p IH]; intros [|b s] Hp Hc; try discriminate.
  simpl in Hp. apply andb_true_iff in Hp as [Hab Hp].
  apply Ascii.eqb_eq in Hab as <-. simpl in *.
  apply orb_true_iff in Hc as [Hc|Hc]; [rewrite Hc; reflexivity|].
  rewrite (IH s Hp Hc). apply orb_true_r.
Qed.

Lemma contains_has_char c sub s :
  PyStr.has_char c sub = true -> PyStr.has_char c s = false ->
  PyStr.contains sub s = false.
Proof.
  intros Hc. induction s as [|a s IH]; intros Hs.
  - destruct sub; [discriminate Hc | reflexivity].
  - simpl. apply orb_false_iff. split.
    + destruct (PyStr.startswith sub (String a s)) eqn:Hp; [|reflexivity].
      rewrite (startswith_has_char c _ _ Hp Hc) in Hs. discriminate.
    + apply IH. simpl in Hs. apply orb_false_iff in Hs as [_ Hs]. exact Hs.
Qed.

(** Replacing a text that does not occur changes nothing. *)
Lemma replace_from_absent old new s :
  PyStr.contains old s = false -> PyStr.replace_from old new 0 s = s.
Proof.
  induction s as [|a s IH]; [reflexivity|]. simpl.
  intros H. apply orb_false_iff in H as [Hp Hc].
  simpl in Hp. rewrite Hp, (IH Hc). reflexivity.
Qed.

(** [("sensor." + s).replace("sensor.", "")] when [s] has no [sensor.]. *)
Lemma replace_sensor_prefix s :
  PyStr.contains "sensor." s = false ->
  PyStr.replace "sensor." "" ("sensor." +:+ s) = s.
Proof. intros H. exact (replace_from_absent "sensor." "" s H). Qed.

Lemma append_inj_l a b c : a +:+ b = a +:+ c -> b = c.
Proof.
  induction a as [|x a IH]; [auto|].
  rewrite !append_cons. intros H. injection H as H. auto.
Qed.

Lemma device_prefix_cases p :
  p ∈ ["hp"; "boil"; "buff"; "sol"; "hc"] ->
  p = "hp" \/ p = "boil" \/ p = "buff" \/ p = "sol" \/ p = "hc".
Proof.
  intros H. repeat (apply elem_of_cons in H as [H|H]; [auto 6|]).
  inversion H.
Qed.

(** The five device prefixes differ within their first two bytes, so the
    data key tells the prefix, the index and the sensor id. *)
Lemma data_key_inj p1 i1 s1 p2 i2 s2 :
  p1 ∈ ["hp"; "boil"; "buff"; "sol"; "hc"] ->
  p2 ∈ ["hp"; "boil"; "buff"; "sol"; "hc"] ->
  0 <= i1 -> 0 <= i2 ->
  data_key p1 i1 s1 = data_key p2 i2 s2 ->
  p1 = p2 /\ i1 = i2 /\ s1 = s2.
Proof.
  intros Hp1 Hp2 Hi1 Hi2 H.
  assert (p1 = p2) as <-.
  { unfold data_key in H.
    apply device_prefix_cases in Hp1 as [->|[->|[->|[->| ->]]]];
      apply device_prefix_cases in Hp2 as [->|[->|[->|[->| ->]]]];
      first [reflexivity | rewrite !append_cons in H; discriminate H]. }
  split; [reflexivity|].
  unfold data_key in H. apply append_inj_l in H.
  apply append_sep_inj in H as [Hi ->];
    [|apply of_int_has_no; [assumption | reflexivity]..].
  split; [|reflexivity]. exact (inj pretty _ _ Hi).
Qed.

Lemma for_each_provenance {A B C : Type} (g : B -> C) (P : A -> C -> Prop)
    (body : A -> result (list B)) xs ys :
  (forall x zs, x ∈ xs -> body x = Ok zs -> Forall (fun z => P x (g z)) zs) ->
  for_each body xs = Ok ys ->
  Forall (fun z => exists x, x ∈ xs /\ P x (g z)) ys.
Proof.
  intros HP. apply for_each_Forall. intros x zs Hx Hzs.
  eapply Forall_impl; [exact (HP x zs Hx Hzs)|].
  intros z Hz. eauto.
Qed.

(** The loop keeps the values of [g] apart when each round does and no two
    rounds can give the same one. *)
Lemma for_each_NoDup {A B C : Type} (g : B -> C) (P : A -> C -> Prop)
    (body : A -> result (list B)) xs ys :
  NoDup xs ->
  (forall x zs, x ∈ xs -> body x = Ok zs ->
                NoDup (g <$> zs) /\ Forall (fun z => P x (g z)) zs) ->
  (forall x1 x2 y, x1 ∈ xs -> x2 ∈ xs -> P x1 y -> P x2 y -> x1 = x2) ->
  for_each body xs = Ok ys -> NoDup (g <$> ys).
Proof.
  intros Hxs. revert ys.
  induction Hxs as [|x xs Hx Hxs IH]; intros ys Hbody Hinj Hys.
  - injection Hys as <-. constructor.
  - apply for_each_cons_Ok in Hys as (zs & ws & Hz & Hw & ->).
    rewrite fmap_app. apply NoDup_app.
    destruct (Hbody x zs) as [Hnd HP]; [left | exact Hz |].
    split; [exact Hnd|]. split.
    + intros y Hy1 Hy2.
      apply list_elem_of_fmap in Hy1 as (z & -> & Hzin).
      apply list_elem_of_fmap in Hy2 as (w & Hgw & Hwin).
      assert (Forall (fun z => exists x, x ∈ xs /\ P x (g z)) ws) as Hprov.
      { eapply for_each_provenance; [|exact Hw].
        intros x' zs' Hx' Hzs'. apply (Hbody x' zs'); [right|]; assumption. }
      rewrite Forall_forall in HP, Hprov.
      destruct (Hprov w Hwin) as (x' & Hx' & HPw).
      specialize (HP z Hzin). rewrite Hgw in HP.
      assert (x = x') as <-.
      { apply (Hinj x x' (g w));
          [left | right; exact Hx' | exact HP | exact HPw]. }
      contradiction.
    + apply IH; [| |exact Hw].
      * intros x' zs' Hx'. apply Hbody. right. exact Hx'.
      * intros x1 x2 y H1 H2. apply Hinj; right; assumption.
Qed.

Lemma NoDup_fmap_inj_on {A B : Type} (f : A -> B) (l : list A) x1 x2 :
  NoDup (f <$> l) -> x1 ∈ l -> x2 ∈ l -> f x1 = f x2 -> x1 = x2.
Proof.
  induction l as [|a l IH]; intros Hnd H1 H2 Hf; [inversion H1|].
  rewrite fmap_cons in Hnd. apply NoDup_cons in Hnd as [Hnot Hnd].
  apply elem_of_cons in H1 as [->|H1]; apply elem_of_cons in H2 as [->|H2].
  - reflexivity.
  - exfalso. apply Hnot. rewrite Hf. apply list_elem_of_fmap. eauto.
  - exfalso. apply Hnot. rewrite <- Hf. apply list_elem_of_fmap. eauto.
  - auto.
Qed.

(** ** Unique ids *)

Lemma general_sensor_final_id coordinator legacy name_prefix item zs :
  general_sensor coordinator legacy name_prefix item = Ok zs ->
  NoDup (LambdaSensor._attr_unique_id <$> zs) /\
  Forall (fun z => LambdaSensor._attr_unique_id z = general_id legacy item) zs.
Proof.
  destruct item as [sensor_id sensor_info]. unfold general_sensor, general_id.
  intros H. apply bind_Ok in H as (address & _ & H).
  destruct (Coordinator.is_register_disabled _ _).
  { injection H as <-. split; constructor. }
  apply bind_Ok in H as ([nm sid] & Hnaming & H). injection H as <-.
  split; [apply NoDup_singleton|]. constructor; [|constructor]. simpl.
  destruct legacy; simpl in *.
  - destruct (Info.override_name sensor_info) as [o|]; simpl in *.
    + injection Hnaming as <- <-. reflexivity.
    + apply bind_Ok in Hnaming as (nm' & _ & Hn). injection Hn as <- <-.
      reflexivity.
  - apply bind_Ok in Hnaming as (nm' & _ & Hn). injection Hn as <- <-.
    reflexivity.
Qed.

Lemma TEMPLATES_prefixes HP BOIL BUFF SOL HC entry :
  (fun device : string * Z * template => device.1.1)
    <$> TEMPLATES HP BOIL BUFF SOL HC entry
  = ["hp"; "boil"; "buff"; "sol"; "hc"].
Proof. reflexivity. Qed.

Lemma NoDup_device_prefixes : NoDup ["hp"; "boil"; "buff"; "sol"; "hc"].
Proof.
  repeat (apply NoDup_cons; split;
          [intros H; repeat (apply elem_of_cons in H as [H|H];
                             [discriminate H|]); inversion H|]).
  apply NoDup_nil. exact I.
Qed.

Lemma TEMPLATES_elem HP BOIL BUFF SOL HC entry prefix count template :
  (prefix, count, template) ∈ TEMPLATES HP BOIL BUFF SOL HC entry ->
  prefix ∈ ["hp"; "boil"; "buff"; "sol"; "hc"] /\
  template ∈ [HP; BOIL; BUFF; SOL; HC].
Proof.
  unfold TEMPLATES. intros H.
  repeat (apply elem_of_cons in H as [H|H];
          [injection H as -> _ ->; split; set_solver|]).
  inversion H.
Qed.

Example enabled_entries_ex :
  enabled_entries Plant.base_addresses
    (Plant.with_disabled [1006; 1103]) "hp" 2 Plant.HP
  = [("hp1_flow_temp", 1005); ("hp1_operating_state", 1003);
     ("hp2_flow_temp", 1105); ("hp2_return_temp", 1106)].
Proof. vm_compute. reflexivity. Qed.

(** ** The name accessor *)

Lemma name_override coordinator self overrides o :
  ConfigEntry.use_legacy_modbus_names (Coordinator.entry coordinator)
    = Some true ->
  Coordinator.sensor_overrides coordinator = Some overrides ->
  overrides !! LambdaSensor._sensor_id self = Some o ->
  o <> "" ->
  LambdaSensor.name coordinator self = (o, LambdaSensor.set_sensor_id o self).
Proof.
  intros Hleg Hov Ho Hne. unfold LambdaSensor.name.
  rewrite Hleg, Hov. simpl. rewrite Ho.
  destruct o; [congruence | reflexivity].
Qed.

Lemma name_no_override coordinator self overrides :
  Coordinator.sensor_overrides coordinator = Some overrides ->
  overrides !! LambdaSensor._sensor_id self = None \/
  overrides !! LambdaSensor._sensor_id self = Some "" ->
  LambdaSensor.name coordinator self = (LambdaSensor._attr_name self, self).
Proof.
  intros Hov Ho. unfold LambdaSensor.name. rewrite Hov.
  destruct (default false _); [|reflexivity].
  destruct Ho as [-> | ->]; reflexivity.
Qed.

(** C3, as the code has it.  With legacy names and a non-empty override [o]
    under the current sensor id, one read of [name] sets the sensor id to [o]
    and reports [o].  When the table has no non-empty entry under [o] itself,
    every later read leaves the sensor as it is and reports the display name
    the sensor was constructed with; that is [o] again for a sensor
    constructed with the override as its name, as the set-up constructs the
    templated ones. *)
Theorem name_override_transition coordinator self overrides o n :
  ConfigEntry.use_legacy_modbus_names (Coordinator.entry coordinator)
    = Some true ->
  Coordinator.sensor_overrides coordinator = Some overrides ->
  overrides !! LambdaSensor._sensor_id self = Some o ->
  o <> "" ->
  overrides !! o = None \/ overrides !! o = Some "" ->
  LambdaSensor.read_names coordinator self (S n)
  = (o :: replicate n (LambdaSensor._attr_name self),
     LambdaSensor.set_sensor_id o self) /\
  (LambdaSensor._attr_name self = o ->
   LambdaSensor.read_names coordinator self (S n)
   = (replicate (S n) o, LambdaSensor.set_sensor_id o self)).
Proof.
  intros Hleg Hov Ho Hne Hoo.
  assert (LambdaSensor.read_names coordinator self (S n)
          = (o :: replicate n (LambdaSensor._attr_name self),
             LambdaSensor.set_sensor_id o self)) as H.
  { simpl. rewrite (name_override _ _ _ _ Hleg Hov Ho Hne).
    assert (forall k,
              LambdaSensor.read_names coordinator
                (LambdaSensor.set_sensor_id o self) k
              = (replicate k (LambdaSensor._attr_name self),
                 LambdaSensor.set_sensor_id o self)) as Hk.
    { induction k as [|k IH]; [reflexivity|]. simpl.
      rewrite (name_no_override coordinator
                 (LambdaSensor.set_sensor_id o self) overrides Hov Hoo).
      simpl. rewrite IH. reflexivity. }
    rewrite Hk. reflexivity. }
  split; [exact H|]. intros Hname. rewrite H, Hname. reflexivity.
Qed.

Lemma name_override_transition_witness :
  exists self,
    head (Plant.the (Plant.sensors (Some 1) true
                       [("hp1_flow_temp", "supply_temp")] [])) = Some self /\
    LambdaSensor._attr_name self = "supply_temp" /\
    LambdaSensor.read_names
      (Plant.with_overrides [("hp1_flow_temp", "supply_temp")])
      self 3
    = (["supply_temp"; "supply_temp"; "supply_temp"],
       LambdaSensor.set_sensor_id "supply_temp" self).
Proof.
  eexists. split; [vm_compute; reflexivity|]. split; [reflexivity|].
  refine (proj2 (name_override_transition
                   (Plant.with_overrides [("hp1_flow_temp", "supply_temp")])
                   _ (list_to_map [("hp1_flow_temp", "supply_temp")])
                   "supply_temp" 2 _ _ _ _ _) _).
  - reflexivity.
  - reflexivity.
  - vm_compute. reflexivity.
  - discriminate.
  - left. vm_compute. reflexivity.
  - reflexivity.
Defined.

(** C3 as the specification words it fails.  A general sensor is constructed
    with the name of its entry: after the read that applies an override
    the next reads report that name again, not the override.  And an
    override of the override name moves the sensor id a second time. *)
Lemma name_reverts_after_override :
  ((fun self =>
      (LambdaSensor.read_names
         (Plant.with_overrides [("ambient_temp", "outside")]) self 3).1)
     <$> last (Plant.the (Plant.sensors (Some 1) true
                            [("ambient_temp", "outside")] [])))
  = Some ["outside"; "Ambient Temp"; "Ambient Temp"] /\
  ((fun self =>
      LambdaSensor._sensor_id
        <$> [ (LambdaSensor.read_names
                 (Plant.with_overrides
                    [("hp1_flow_temp", "supply"); ("supply", "hot")])
                 self 1).2;
              (LambdaSensor.read_names
                 (Plant.with_overrides
                    [("hp1_flow_temp", "supply"); ("supply", "hot")])
                 self 2).2 ])
     <$> head (Plant.the (Plant.sensors (Some 1) true
                            [("hp1_flow_temp", "supply"); ("supply", "hot")]
                            [])))
  = Some ["supply"; "hot"].
Proof. split; vm_compute; reflexivity. Qed.

(** ** The name of the mapping table *)

Lemma split_from_word w acc s :
  PyStr.has_space w = false ->
  PyStr.split_from (Some acc) (w +:+ s) = PyStr.split_from (Some (acc +:+ w)) s.
Proof.
  revert acc. induction w as [|c w IH]; intros acc Hw.
  - rewrite append_nil_l, append_nil_r. reflexivity.
  - simpl in Hw. apply orb_false_iff in Hw as [Hc Hw].
    rewrite append_cons. simpl. rewrite Hc, (IH _ Hw), append_assoc.
    reflexivity.
Qed.

(** The first word of a name and the words after it. *)
Lemma split_first_word w rest :
  w <> "" -> PyStr.has_space w = false ->
  PyStr.split (w +:+ " " +:+ rest) = w :: PyStr.split rest.
Proof.
  intros Hne Hw. destruct w as [|c w]; [congruence|].
  simpl in Hw. apply orb_false_iff in Hw as [Hc Hw].
  unfold PyStr.split. rewrite append_cons. simpl. rewrite Hc.
  rewrite (split_from_word w _ _ Hw). reflexivity.
Qed.

(** *** The key of the specification and the key of the code *)

Lemma upper_length s : String.length (PyStr.upper s) = String.length s.
Proof. induction s as [|c s IH]; [reflexivity|]. simpl. rewrite IH. reflexivity. Qed.

Lemma replace_char_length a b s :
  String.length (PyStr.replace_from (String a "") (String b "") 0 s)
  = String.length s.
Proof.
  induction s as [|c s IH]; [reflexivity|].
  cbn [PyStr.replace_from PyStr.startswith].
  destruct (Ascii.eqb a c && true).
  - change (Nat.pred (String.length (String a ""))) with 0%nat.
    rewrite append_cons, append_nil_l. simpl. rewrite IH. reflexivity.
  - simpl. rewrite IH. reflexivity.
Qed.

Lemma join_cons_length w ws :
  (String.length (PyStr.join " " (w :: ws))
   <= String.length w + 1 + String.length (PyStr.join " " ws))%nat.
Proof.
  destruct ws as [|v ws]; simpl.
  - lia.
  - rewrite !append_length. simpl. lia.
Qed.

Lemma split_from_length s : forall word,
  (String.length (PyStr.join " " (PyStr.split_from word s))
   <= String.length (default "" word) + String.length s)%nat.
Proof.
  induction s as [|c s IH]; intros word.
  - destruct word as [w|]; simpl; lia.
  - cbn [PyStr.split_from]. destruct (PyStr.is_space c).
    + destruct word as [w|].
      * pose proof (join_cons_length w (PyStr.split_from None s)).
        pose proof (IH None). simpl in *. lia.
      * pose proof (IH None). simpl in *. lia.
    + pose proof (IH (Some (default "" word +:+ String c ""))) as H.
      simpl in H. rewrite append_length in H. simpl in *. lia.
Qed.

(** Joining the words of a text by single spaces does not make it longer. *)
Lemma join_split_length s :
  (String.length (PyStr.join " " (PyStr.split s)) <= String.length s)%nat.
Proof.
  unfold PyStr.split. induction s as [|c s IH]; [simpl; lia|].
  cbn [PyStr.split_from]. destruct (PyStr.is_space c).
  - simpl. lia.
  - pose proof (split_from_length s (Some ("" +:+ String c ""))) as H.
    simpl in *. lia.
Qed.

Lemma drop_prefix_startswith p s :
  PyStr.startswith p s = false -> drop_prefix p s = None.
Proof.
  revert s. induction p as [|a p IH]; intros [|b s] H;
    try discriminate; [reflexivity|].
  simpl in *. destruct (Ascii.eqb a b); [apply IH; exact H | reflexivity].
Qed.

Example key_as_specified_ex :
  key_as_specified "HP" "HP1 Operating State" = "HP_OPERATING_STATE" /\
  key_as_specified "BOIL" "BOIL12  Circulation-Pump State"
  = "BOIL_CIRCULATION_PUMP_STATE" /\
  key_as_specified "HP" "Main HP State" = "HP_MAIN_HP_STATE".
Proof. repeat split; vm_compute; reflexivity. Qed.

(** C5, where the code fails it.  The claim strips the leading device-type
    token with its index when and only when the display name begins with
    it, as the comments of lines 375-379 say.  The code tests whether the
    token occurs anywhere in the name and then drops the first word,
    whatever it is: for an ASCII display name [w rest] that does not begin
    with the token but holds it, the code forms the key from [rest] alone,
    the specification forms it from the whole name, and the two keys
    differ. *)
Theorem mapping_name_drops_a_word_that_is_not_the_token self device_type w
    rest :
  LambdaSensor._device_type self = Some device_type ->
  device_type <> "" ->
  PyStr.is_ascii device_type = true ->
  PyStr.is_ascii (LambdaSensor._attr_name self) = true ->
  LambdaSensor._attr_name self = w +:+ " " +:+ rest ->
  w <> "" -> PyStr.has_space w = false ->
  PyStr.startswith (PyStr.upper device_type) (LambdaSensor._attr_name self)
  = false ->
  PyStr.contains (PyStr.upper device_type) (LambdaSensor._attr_name self)
  = true ->
  LambdaSensor.mapping_name self
  = Ok (PyStr.upper device_type +:+ "_" +:+
        PyStr.replace "-" "_"
          (PyStr.replace " " "_"
             (PyStr.upper (PyStr.join " " (PyStr.split rest))))) /\
  key_as_specified device_type (LambdaSensor._attr_name self)
  = PyStr.upper device_type +:+ "_" +:+
    PyStr.replace "-" "_"
      (PyStr.replace " " "_" (PyStr.upper (LambdaSensor._attr_name self))) /\
  LambdaSensor.mapping_name self
  <> Ok (key_as_specified device_type (LambdaSensor._attr_name self)).
Proof.
  intros Hdt Hne _ _ Hname Hw Hsp Hstart Hcontains.
  assert (LambdaSensor.mapping_name self
          = Ok (PyStr.upper device_type +:+ "_" +:+
                PyStr.replace "-" "_"
                  (PyStr.replace " " "_"
                     (PyStr.upper (PyStr.join " " (PyStr.split rest))))))
    as Hcode.
  { unfold LambdaSensor.mapping_name. rewrite Hdt.
    destruct device_type as [|c r]; [congruence|].
    rewrite Hcontains, Hname, (split_first_word w rest Hw Hsp). reflexivity. }
  assert (key_as_specified device_type (LambdaSensor._attr_name self)
          = PyStr.upper device_type +:+ "_" +:+
            PyStr.replace "-" "_"
              (PyStr.replace " " "_"
                 (PyStr.upper (LambdaSensor._attr_name self)))) as Hspec.
  { unfold key_as_specified, strip_token_and_index.
    rewrite (drop_prefix_startswith _ _ Hstart). reflexivity. }
  split; [exact Hcode|]. split; [exact Hspec|].
  rewrite Hcode, Hspec. intros [= H].
  apply append_inj_l in H. apply append_inj_l in H.
  apply (f_equal String.length) in H.
  rewrite !replace_char_length, !upper_length, Hname, !append_length in H.
  pose proof (join_split_length rest). simpl in H. lia.
Qed.

Lemma mapping_name_drops_a_word_that_is_not_the_token_witness :
  exists self,
    Plant.the (Plant.sensors (Some 1) true
                 [("hp1_operating_state", "Main HP State")] []) !! 2%nat
    = Some self /\
    LambdaSensor._attr_name self = "Main HP State" /\
    LambdaSensor._device_type self = Some "HP" /\
    LambdaSensor.mapping_name self = Ok "HP_HP_STATE" /\
    key_as_specified "HP" (LambdaSensor._attr_name self)
    = "HP_MAIN_HP_STATE" /\
    LambdaSensor.mapping_name self
    <> Ok (key_as_specified "HP" (LambdaSensor._attr_name self)).
Proof.
  eexists. split; [vm_compute; reflexivity|].
  split; [reflexivity|]. split; [reflexivity|].
  split; [vm_compute; reflexivity|]. split; [vm_compute; reflexivity|].
  refine (proj2 (proj2 (mapping_name_drops_a_word_that_is_not_the_token
                          _ "HP" "Main" "HP State" _ _ _ _ _ _ _ _ _))).
  - reflexivity.
  - discriminate.
  - reflexivity.
  - reflexivity.
  - reflexivity.
  - discriminate.
  - reflexivity.
  - reflexivity.
  - reflexivity.
Defined.

(** ** The names the set-up gives *)

Lemma startswith_app p s : PyStr.startswith p (p +:+ s) = true.
Proof.
  induction p as [|a p IH]; [reflexivity|].
  rewrite append_cons. simpl. rewrite Ascii.eqb_refl. exact IH.
Qed.

Lemma contains_app p s : PyStr.contains p (p +:+ s) = true.
Proof.
  pose proof (startswith_app p s) as H.
  destruct (p +:+ s); simpl; rewrite H; reflexivity.
Qed.

Lemma has_space_app a b :
  PyStr.has_space (a +:+ b) = PyStr.has_space a || PyStr.has_space b.
Proof.
  induction a as [|x a IH]; [reflexivity|].
  rewrite append_cons. simpl. rewrite IH. apply orb_assoc.
Qed.

Lemma digit_not_space c : PyStr.is_digit c = true -> PyStr.is_space c = false.
Proof.
  unfold PyStr.is_digit, PyStr.is_space. intros H.
  apply andb_true_iff in H as [H1 H2].
  apply N.leb_le in H1, H2.
  apply orb_false_iff. split; apply andb_false_iff.
  - right. apply N.leb_gt. lia.
  - right. apply N.leb_gt. lia.
Qed.

Lemma of_int_no_space i : 0 <= i -> PyStr.has_space (PyStr.of_int i) = false.
Proof.
  intros Hi.
  assert (forall s,
            (forall c, PyStr.has_char c s = true -> PyStr.is_digit c = true) ->
            PyStr.has_space s = false) as Hdigits.
  { induction s as [|a s IH]; intros Hs; [reflexivity|]. simpl.
    apply orb_false_iff. split.
    - apply digit_not_space, Hs. simpl. rewrite Ascii.eqb_refl. reflexivity.
    - apply IH. intros c Hc. apply Hs. simpl. rewrite Hc. apply orb_true_r. }
  apply Hdigits. intros c. apply of_int_digits. exact Hi.
Qed.

(** A templated sensor without an override is named
    [{PREFIX}{index} {name}] and typed [{PREFIX}]; for such a sensor the
    first word is the device type with the index, and the table is
    [{PREFIX}_] with the name of the entry, as the specification has it. *)
Lemma mapping_name_of_generic_sensor self prefix idx name :
  prefix ∈ ["hp"; "boil"; "buff"; "sol"; "hc"] -> 0 <= idx ->
  LambdaSensor._device_type self = Some (PyStr.upper prefix) ->
  LambdaSensor._attr_name self
  = PyStr.upper prefix +:+ PyStr.of_int idx +:+ " " +:+ name ->
  LambdaSensor.mapping_name self
  = Ok (PyStr.upper prefix +:+ "_" +:+
        PyStr.replace "-" "_"
          (PyStr.replace " " "_"
             (PyStr.upper (PyStr.join " " (PyStr.split name))))).
Proof.
  intros Hp Hi Hdt Hname.
  assert (PyStr.upper (PyStr.upper prefix) = PyStr.upper prefix /\
          PyStr.upper prefix <> "" /\
          PyStr.has_space (PyStr.upper prefix) = false) as (Hu & Hne & Hsp).
  { apply device_prefix_cases in Hp as [->|[->|[->|[->| ->]]]];
      (split; [reflexivity|]; split; [discriminate | reflexivity]). }
  unfold LambdaSensor.mapping_name. rewrite Hdt, Hname.
  destruct (PyStr.upper prefix) as [|c r] eqn:HU; [congruence|].
  rewrite Hu, contains_app.
  rewrite <- (append_assoc (String c r) (PyStr.of_int idx) (" " +:+ name)).
  rewrite split_first_word.
  - reflexivity.
  - rewrite append_cons. discriminate.
  - rewrite has_space_app, Hsp, of_int_no_space by exact Hi. reflexivity.
Qed.

(** ** The value accessor *)

Section Decoding.
Variable float_of_str : string -> option float.
Variable str_of_float : float -> string.
Variable globals : gmap string PyGlobal.
Variable coordinator : Coordinator.t.
Variable self : LambdaSensor.t.

Abbreviation value_of :=
  (LambdaSensor.native_value float_of_str str_of_float globals coordinator
     self).
Abbreviation sensor_id := (LambdaSensor._sensor_id self).

(** With a device type the state branch gives one of its three labels and
    raises nothing. *)
Lemma decode_state_labels device_type numeric_value :
  LambdaSensor._device_type self = Some device_type ->
  exists key,
    LambdaSensor.mapping_name self = Ok key /\
    LambdaSensor.decode_state globals self numeric_value
    = Ok (Label
            match globals !! key with
            | Some (GDict state_mapping) =>
                default ("Unknown state (" +:+ PyStr.of_int numeric_value
                         +:+ ")")
                  (state_mapping !! numeric_value)
            | Some GObject =>
                "Error loading mappings (" +:+ PyStr.of_int numeric_value
                +:+ ")"
            | None =>
                "Unknown mapping for state (" +:+ PyStr.of_int numeric_value
                +:+ ")"
            end).
Proof.
  intros Hdt. unfold LambdaSensor.decode_state, LambdaSensor.mapping_name.
  rewrite Hdt. eexists. split; [reflexivity|]. simpl.
  destruct (globals !! _) as [[t|]|]; reflexivity.
Qed.

(** C4, where the code fails it.  A state sensor without a device type, as
    the general sensors are constructed when their entry names none, raises
    [AttributeError] from the value accessor as soon as its raw value
    coerces to an integer code: the key is formed before the guarded
    look-up. *)
Theorem state_sensor_without_device_type_raises data value numeric_value :
  Coordinator.data coordinator = Some data ->
  data !! sensor_id = Some value ->
  LambdaSensor._is_state_sensor self = true ->
  LambdaSensor.int_float float_of_str value = Ok numeric_value ->
  LambdaSensor._device_type self = None ->
  value_of = Raise AttributeError.
Proof.
  intros Hdata Hvalue Hstate Hcode Hdt. unfold LambdaSensor.native_value.
  rewrite Hdata. case_bool_decide as Hempty.
  { subst data. rewrite lookup_empty in Hvalue. discriminate. }
  rewrite Hvalue, Hstate.
  destruct value; [discriminate Hcode|..]; rewrite Hcode;
    unfold LambdaSensor.decode_state, LambdaSensor.mapping_name;
    rewrite Hdt; reflexivity.
Qed.

(** With a device type the claim of C4 holds: the accessor gives a label
    and raises nothing. *)
Lemma state_sensor_with_device_type_labels data value numeric_value
    device_type :
  Coordinator.data coordinator = Some data ->
  data !! sensor_id = Some value ->
  LambdaSensor._is_state_sensor self = true ->
  LambdaSensor.int_float float_of_str value = Ok numeric_value ->
  LambdaSensor._device_type self = Some device_type ->
  exists key,
    LambdaSensor.mapping_name self = Ok key /\
    value_of
    = Ok (Some (Label
            match globals !! key with
            | Some (GDict state_mapping) =>
                default ("Unknown state (" +:+ PyStr.of_int numeric_value
                         +:+ ")")
                  (state_mapping !! numeric_value)
            | Some GObject =>
                "Error loading mappings (" +:+ PyStr.of_int numeric_value
                +:+ ")"
            | None =>
                "Unknown mapping for state (" +:+ PyStr.of_int numeric_value
                +:+ ")"
            end)).
Proof.
  intros Hdata Hvalue Hstate Hcode Hdt.
  destruct (decode_state_labels device_type numeric_value Hdt)
    as (key & Hkey & Hdec).
  exists key. split; [exact Hkey|]. unfold LambdaSensor.native_value.
  rewrite Hdata. case_bool_decide as Hempty.
  { subst data. rewrite lookup_empty in Hvalue. discriminate. }
  rewrite Hvalue, Hstate.
  destruct value; [discriminate Hcode|..]; rewrite Hcode, Hdec; reflexivity.
Qed.
End Decoding.

Lemma state_sensor_without_device_type_raises_witness :
  exists self,
    head (Plant.the
            (for_each
               (general_sensor Plant.plain false "eu08l") Plant.STATES))
    = Some self /\
    LambdaSensor._is_state_sensor self = true /\
    LambdaSensor._device_type self = None /\
    Plant.native_value
      (Plant.with_data [("ambient_operating_state", PyInt 2)])
      self
    = Raise AttributeError.
Proof.
  eexists. split; [vm_compute; reflexivity|].
  split; [reflexivity|]. split; [reflexivity|].
  apply (state_sensor_without_device_type_raises Plant.float_of_str
           Plant.str_of_float Plant.globals
           (Plant.with_data [("ambient_operating_state", PyInt 2)])
           _ (list_to_map [("ambient_operating_state", PyInt 2)])
           (PyInt 2) 2).
  - reflexivity.
  - vm_compute. reflexivity.
  - reflexivity.
  - vm_compute. reflexivity.
  - reflexivity.
Defined.

(** The example of the specification: the state sensor of the first heat
    pump decodes the code 2 by the table [HP_OPERATING_STATE], and a code
    that the table does not have to a placeholder. *)
Example native_value_state_ex :
  (fun self =>
     [ Plant.native_value
         (Plant.with_data [("hp1_operating_state", PyInt 2)]) self;
       Plant.native_value
         (Plant.with_data [("hp1_operating_state", PyFloat (float_of_Z 7))])
         self;
       Plant.native_value
         (Plant.with_data [("hp1_operating_state", PyStr "abc")]) self ])
    <$> Plant.the (Plant.sensors (Some 1) false [] []) !! 2%nat
  = Some [ Ok (Some (Label "DHW"));
           Ok (Some (Label "Unknown state (7)"));
           Ok (Some (Label "Unknown state (abc)")) ].
Proof. vm_compute. reflexivity. Qed.

Section Absence.
Variable float_of_str : string -> option float.
Variable str_of_float : float -> string.
Variable globals : gmap string PyGlobal.
Variable coordinator : Coordinator.t.
Variable self : LambdaSensor.t.

Abbreviation value_of :=
  (LambdaSensor.native_value float_of_str str_of_float globals coordinator
     self).
Abbreviation sensor_id := (LambdaSensor._sensor_id self).
Abbreviation to_float := (LambdaSensor.py_float float_of_str).

Lemma decode_state_not_absent numeric_value :
  (LambdaSensor.decode_state globals self numeric_value
     ≫= fun v => Ok (Some v)) <> Ok None.
Proof.
  intros H. apply bind_Ok in H as (v & _ & H). discriminate H.
Qed.

(** C8, as the code has it.  The accessor gives the absent value exactly when
    the snapshot is absent or empty, when the look-up of the sensor id gives
    nothing (no entry, or an entry that holds [None]), or when the sensor is
    not a state sensor and the coercion of its raw value to a float raises
    [ValueError] or [TypeError].  When the coercion succeeds for such a
    sensor the float is the value, as it is parsed: the scale is not
    read. *)
Theorem native_value_absent :
  (value_of = Ok None <->
   Coordinator.data coordinator = None \/
   Coordinator.data coordinator = Some ∅ \/
   exists data,
     Coordinator.data coordinator = Some data /\
     (data !! sensor_id = None \/
      data !! sensor_id = Some PyNone \/
      (LambdaSensor._is_state_sensor self = false /\
       exists value,
         data !! sensor_id = Some value /\
         (to_float value = Raise ValueError \/
          to_float value = Raise TypeError)))) /\
  (forall data value x,
     Coordinator.data coordinator = Some data ->
     data !! sensor_id = Some value ->
     LambdaSensor._is_state_sensor self = false ->
     to_float value = Ok x ->
     value_of = Ok (Some (PhysicalValue x))).
Proof.
  split.
  - unfold LambdaSensor.native_value.
    destruct (Coordinator.data coordinator) as [data|]; [|split; auto].
    case_bool_decide as Hempty; [subst data; split; auto|].
    destruct (data !! sensor_id) as [value|] eqn:Hvalue;
      [|split; [intros _; right; right; eauto | reflexivity]].
    split.
    + intros H. right. right. exists data. split; [reflexivity|].
      rewrite Hvalue.
      destruct value as [|n|x|s]; [auto|..];
        (destruct (LambdaSensor._is_state_sensor self);
         [ exfalso; revert H;
           destruct (LambdaSensor.int_float float_of_str _) as [code|[]];
           try discriminate; apply decode_state_not_absent
         | right; right; split; [reflexivity|]; eexists;
           split; [reflexivity|]; revert H;
           destruct (to_float _) as [y|[]]; try discriminate; auto ]).
    + intros [H|[H|(data0 & H & HP)]]; [discriminate| |].
      { injection H as ->. contradiction. }
      injection H as <-. rewrite Hvalue in HP.
      destruct HP as [HP|[HP|(Hstate & value0 & Hv & HP)]]; [discriminate| |].
      { injection HP as ->. reflexivity. }
      injection Hv as <-. rewrite Hstate.
      destruct value as [|n|x|s]; [reflexivity|..];
        destruct HP as [-> | ->]; reflexivity.
  - intros data value x Hdata Hvalue Hstate Hx.
    unfold LambdaSensor.native_value. rewrite Hdata.
    case_bool_decide as Hempty.
    { subst data. rewrite lookup_empty in Hvalue. discriminate. }
    rewrite Hvalue, Hstate.
    destruct value; [discriminate Hx|..]; rewrite Hx; reflexivity.
Qed.
End Absence.

Lemma native_value_absent_witness :
  exists self,
    head (Plant.the (Plant.sensors (Some 1) false [] [])) = Some self /\
    Plant.native_value
      (Plant.with_data [("hp1_flow_temp", PyInt 21)])
      self
    = Ok (Some (PhysicalValue (float_of_Z 21))) /\
    Plant.native_value
      (Plant.with_data [("hp1_flow_temp", PyStr "abc")])
      self
    = Ok None.
Proof.
  eexists. split; [vm_compute; reflexivity|]. split.
  - apply (proj2 (native_value_absent Plant.float_of_str
                    Plant.str_of_float Plant.globals
                    (Plant.with_data [("hp1_flow_temp", PyInt 21)])
                    _)
             (list_to_map [("hp1_flow_temp", PyInt 21)]) (PyInt 21)
             (float_of_Z 21)).
    + reflexivity.
    + vm_compute. reflexivity.
    + reflexivity.
    + vm_compute. reflexivity.
  - apply (proj1 (native_value_absent Plant.float_of_str
                    Plant.str_of_float Plant.globals
                    (Plant.with_data [("hp1_flow_temp", PyStr "abc")])
                    _)).
    right. right. exists (list_to_map [("hp1_flow_temp", PyStr "abc")]).
    split; [reflexivity|]. right. right. split; [reflexivity|].
    exists (PyStr "abc"). split; [vm_compute; reflexivity|].
    left. reflexivity.
Defined.

(** C8 as the specification words it fails, in both directions.  A state
    sensor whose entry holds [None] is absent, though the snapshot has an
    entry for it; and an integer too large for a float fails the coercion of
    a sensor that is not a state sensor with [OverflowError], which the
    accessor lets through. *)
Lemma absent_not_as_specified :
  (exists self,
     Plant.the (Plant.sensors (Some 1) false [] []) !! 2%nat = Some self /\
     Plant.native_value
       (Plant.with_data [("hp1_operating_state", PyNone)])
       self = Ok None /\
     ~ absent_as_specified Plant.float_of_str
         (Plant.with_data [("hp1_operating_state", PyNone)])
         self) /\
  (exists self,
     head (Plant.the (Plant.sensors (Some 1) false [] [])) = Some self /\
     absent_as_specified Plant.float_of_str
       (Plant.with_data [("hp1_flow_temp", PyInt (2 ^ 1024))])
       self /\
     Plant.native_value
       (Plant.with_data [("hp1_flow_temp", PyInt (2 ^ 1024))])
       self = Raise OverflowError).
Proof.
  split.
  - eexists. split; [vm_compute; reflexivity|].
    split; [vm_compute; reflexivity|].
    intros [H|[H|[(data & H & Hl)|(Hs & _)]]].
    + discriminate H.
    + apply (f_equal (fun o : option (gmap string PyVal) =>
                        m ← o; m !! "hp1_operating_state")) in H.
      vm_compute in H. discriminate H.
    + injection H as <-. vm_compute in Hl. discriminate Hl.
    + discriminate Hs.
  - eexists. split; [vm_compute; reflexivity|]. split.
    + right. right. right. split; [reflexivity|].
      exists (list_to_map [("hp1_flow_temp", PyInt (2 ^ 1024))]),
             (PyInt (2 ^ 1024)), OverflowError.
      split; [reflexivity|]. split; vm_compute; reflexivity.
    + vm_compute. reflexivity.
Qed.

(** * Further properties of the set-up and of the sensor *)

(** ** What a loop body constructs *)

(** The sensor of a template entry, spelled out: the arguments the
    constructor is called with (lines 167-188). *)
Lemma templated_sensor_inv str_format coordinator legacy name_prefix prefix
    idx base sensor_id sensor_info sensors :
  templated_sensor str_format coordinator legacy name_prefix prefix idx base
    (sensor_id, sensor_info) = Ok sensors ->
  exists rel,
    Info.relative_address sensor_info = Some rel /\
    if Coordinator.is_register_disabled coordinator (base + rel)
    then sensors = []
    else exists name entity_id unique_id,
        sensors =
          [LambdaSensor.__init__ (data_key prefix idx sensor_id) name
             (default "" (Info.unit sensor_info)) (base + rel)
             (default float_one (Info.scale sensor_info))
             (default "" (Info.state_class sensor_info))
             (infer_device_class sensor_info) rel
             (Info.data_type sensor_info)
             (if bool_decide (prefix ∈ ["hp"; "boil"; "hc"; "buff"; "sol"])
              then Some (PyStr.upper prefix)
              else Some (default "main" (Info.device_type sensor_info)))
             (default false (Info.txt_mapping sensor_info))
             (Info.precision sensor_info) (Some entity_id) (Some unique_id)] /\
        match lookup_override coordinator legacy
                (data_key prefix idx sensor_id) with
        | Some (String c r) =>
            name = String c r /\
            entity_id = "sensor." +:+ name_prefix +:+ "_" +:+ String c r /\
            unique_id = name_prefix +:+ "_" +:+ String c r
        | _ =>
            (if (prefix =? "hc")%string &&
                bool_decide (Info.device_type sensor_info = Some "Climate")
             then exists fmt, Info.name sensor_info = Some fmt /\
                              str_format fmt idx = Ok name
             else exists entry_name,
                 Info.name sensor_info = Some entry_name /\
                 name = PyStr.upper prefix +:+ PyStr.of_int idx +:+ " " +:+
                        entry_name) /\
            entity_id =
              "sensor." +:+ (if legacy then name_prefix +:+ "_" else "") +:+
              data_key prefix idx sensor_id /\
            unique_id = PyStr.replace "sensor." "" entity_id
        end.
Proof.
  unfold templated_sensor. intros H.
  apply bind_Ok in H as (rel & Hrel & H).
  assert (Info.relative_address sensor_info = Some rel) as Hrel'.
  { destruct (Info.relative_address sensor_info); [|discriminate].
    injection Hrel as ->. reflexivity. }
  exists rel. split; [exact Hrel'|].
  destruct (Coordinator.is_register_disabled coordinator (base + rel)).
  { injection H as <-. reflexivity. }
  apply bind_Ok in H as ([[[nm sid] eid] uid] & Hnaming & H).
  injection H as <-. exists nm, eid, uid.
  assert ((((if (prefix =? "hc")%string &&
                  bool_decide (Info.device_type sensor_info = Some "Climate")
               then fmt ← subscript (Info.name sensor_info);
                    str_format fmt idx
               else name ← subscript (Info.name sensor_info);
                    Ok (PyStr.upper prefix +:+ PyStr.of_int idx +:+ " " +:+
                        name)) : result string) = Ok nm) ->
            if (prefix =? "hc")%string &&
               bool_decide (Info.device_type sensor_info = Some "Climate")
            then exists fmt, Info.name sensor_info = Some fmt /\
                             str_format fmt idx = Ok nm
            else exists entry_name,
                Info.name sensor_info = Some entry_name /\
                nm = PyStr.upper prefix +:+ PyStr.of_int idx +:+ " " +:+
                     entry_name) as Hname.
  { intros Hn. destruct (_ && _);
      apply bind_Ok in Hn as (x & Hx & Hn);
      (destruct (Info.name sensor_info) as [y|]; [|discriminate]);
      injection Hx as ->; exists x; split; try reflexivity.
    - exact Hn.
    - injection Hn as <-. reflexivity. }
  destruct (lookup_override coordinator legacy _) as [[|c r]|].
  - apply bind_Ok in Hnaming as (nm' & Hn & Hnaming).
    injection Hnaming as <- <- <- <-. rewrite Hrel'. simpl.
    split; [reflexivity|]. split; [exact (Hname Hn)|].
    split; [|reflexivity]. destruct legacy; [|reflexivity].
    rewrite append_assoc. reflexivity.
  - injection Hnaming as <- <- <- <-. rewrite Hrel'. simpl. auto.
  - apply bind_Ok in Hnaming as (nm' & Hn & Hnaming).
    injection Hnaming as <- <- <- <-. rewrite Hrel'. simpl.
    split; [reflexivity|]. split; [exact (Hname Hn)|].
    split; [|reflexivity]. destruct legacy; [|reflexivity].
    rewrite append_assoc. reflexivity.
Qed.

(** A property of the sensors of every entry is a property of the sensors
    of the device type. *)
Lemma device_sensors_Forall (P : LambdaSensor.t -> Prop)
    generate_base_addresses str_format coordinator legacy name_prefix prefix
    count template sensors :
  (forall idx base item zs,
     1 <= idx <= count ->
     generate_base_addresses prefix count !! idx = Some base ->
     item ∈ template ->
     templated_sensor str_format coordinator legacy name_prefix prefix idx
       base item = Ok zs ->
     Forall P zs) ->
  device_sensors generate_base_addresses str_format coordinator legacy
    name_prefix (prefix, count, template) = Ok sensors ->
  Forall P sensors.
Proof.
  intros HP. unfold device_sensors. apply for_each_Forall.
  intros idx rs Hidx Hrs. apply elem_of_range in Hidx.
  apply bind_Ok in Hrs as (base & Hbase & Hrs).
  assert (generate_base_addresses prefix count !! idx = Some base) as Hb.
  { destruct (generate_base_addresses prefix count !! idx); [|discriminate].
    injection Hbase as ->. reflexivity. }
  revert Hrs. apply for_each_Forall. intros item zs Hitem Hzs.
  apply (HP idx base item zs); [lia|assumption..].
Qed.

(** ** Sensor ids *)

Section SensorIds.
Variable generate_base_addresses : string -> Z -> gmap Z Z.
Variable str_format : string -> Z -> result string.
Variable coordinator : Coordinator.t.
Variable legacy : bool.
Variable name_prefix : string.

Abbreviation sid := LambdaSensor._sensor_id.
Abbreviation five := ["hp"; "boil"; "buff"; "sol"; "hc"].

Lemma instance_sensor_ids prefix idx base template zs :
  prefix ∈ five -> 0 <= idx -> NoDup template.*1 ->
  for_each
    (templated_sensor str_format coordinator legacy name_prefix prefix idx base)
    template = Ok zs ->
  NoDup (sid <$> zs) /\
  Forall (fun z => exists sensor_id, sid z = data_key prefix idx sensor_id) zs.
Proof.
  intros Hp Hi Hnd Hzs.
  assert (forall item rs, item ∈ template ->
            templated_sensor str_format coordinator legacy name_prefix prefix
              idx base item = Ok rs ->
            NoDup (sid <$> rs) /\
            Forall (fun z => sid z = data_key prefix idx item.1) rs) as Hbody.
  { intros [sensor_id sensor_info] rs _ Hrs.
    apply templated_sensor_shape in Hrs as (rel & _ & Hrs).
    destruct (Coordinator.is_register_disabled coordinator (base + rel)).
    - subst rs. split; constructor.
    - destruct Hrs as (self & -> & Hsid & _).
      split; [apply NoDup_singleton|]. constructor; [exact Hsid|constructor]. }
  split.
  - eapply (for_each_NoDup sid (fun item y => y = data_key prefix idx item.1));
      [| exact Hbody | | exact Hzs].
    + eapply NoDup_fmap_1. exact Hnd.
    + intros [k1 v1] [k2 v2] y H1 H2 -> Hy. simpl in Hy.
      apply data_key_inj in Hy as (_ & _ & Hk); [|assumption..].
      exact (NoDup_fmap_inj_on fst template _ _ Hnd H1 H2 Hk).
  - eapply Forall_impl.
    + eapply (for_each_provenance sid
                (fun item y => y = data_key prefix idx item.1)); [|exact Hzs].
      intros item rs Hin Hrs. apply (Hbody item rs Hin Hrs).
    + intros z (item & _ & Hz). eauto.
Qed.

Lemma device_sensor_ids prefix count template zs :
  prefix ∈ five -> NoDup template.*1 ->
  device_sensors generate_base_addresses str_format coordinator legacy
    name_prefix (prefix, count, template) = Ok zs ->
  NoDup (sid <$> zs) /\
  Forall (fun z => exists idx sensor_id,
            1 <= idx /\ sid z = data_key prefix idx sensor_id) zs.
Proof.
  intros Hp Hnd Hzs. unfold device_sensors in Hzs.
  set (P := fun (idx : Z) (y : string) =>
              exists sensor_id, y = data_key prefix idx sensor_id).
  assert (forall idx rs, idx ∈ range 1 (count + 1) ->
            (subscript (generate_base_addresses prefix count !! idx)
               ≫= fun base =>
                    for_each
                      (templated_sensor str_format coordinator legacy
                         name_prefix prefix idx base) template) = Ok rs ->
            NoDup (sid <$> rs) /\ Forall (fun z => P idx (sid z)) rs)
    as Hbody.
  { intros idx rs Hidx Hrs. apply elem_of_range in Hidx.
    destruct (generate_base_addresses prefix count !! idx) as [base|];
      [|discriminate]. simpl in Hrs.
    apply (instance_sensor_ids prefix idx base template); [|lia|..];
      assumption. }
  split.
  - eapply (for_each_NoDup sid P); [apply NoDup_range|exact Hbody| |exact Hzs].
    intros i1 i2 y H1 H2 (s1 & ->) (s2 & Hy).
    apply elem_of_range in H1, H2.
    apply data_key_inj in Hy as (_ & Hi & _); [auto|assumption..|lia|lia].
  - eapply Forall_impl.
    + eapply (for_each_provenance sid P); [|exact Hzs].
      intros idx rs Hin Hrs. apply (Hbody idx rs Hin Hrs).
    + intros z (idx & Hidx & sensor_id & Hz). apply elem_of_range in Hidx.
      exists idx, sensor_id. split; [lia | exact Hz].
Qed.
End SensorIds.

(** X1. The sensors of the device templates have pairwise distinct sensor
    ids, in either naming mode and whatever the override table holds: each
    reads an entry of the snapshot of its own, also where two of them share
    a unique id.  The sensor ids of a template are the keys of a dict, so
    distinct. *)
Theorem templated_sensor_ids_distinct generate_base_addresses str_format
    HP BOIL BUFF SOL HC coordinator legacy name_prefix entry templated :
  Forall (fun t : template => NoDup t.*1) [HP; BOIL; BUFF; SOL; HC] ->
  for_each
    (device_sensors generate_base_addresses str_format coordinator legacy
       name_prefix)
    (TEMPLATES HP BOIL BUFF SOL HC entry) = Ok templated ->
  NoDup (LambdaSensor._sensor_id <$> templated).
Proof.
  intros Htemplates Ht.
  set (P := fun (device : string * Z * template) (y : string) =>
              exists idx sensor_id,
                1 <= idx /\ y = data_key device.1.1 idx sensor_id).
  eapply (for_each_NoDup LambdaSensor._sensor_id P); [| | |exact Ht].
  - eapply NoDup_fmap_1. rewrite TEMPLATES_prefixes.
    exact NoDup_device_prefixes.
  - intros [[prefix count] template] zs Hin Hzs.
    apply TEMPLATES_elem in Hin as [Hp Htpl].
    rewrite Forall_forall in Htemplates.
    exact (device_sensor_ids generate_base_addresses str_format coordinator
             legacy name_prefix prefix count template zs Hp
             (Htemplates template Htpl) Hzs).
  - intros [[p1 c1] t1] [[p2 c2] t2] y H1 H2 (i1 & s1 & Hi1 & ->)
      (i2 & s2 & Hi2 & Hy). simpl in Hy.
    pose proof (TEMPLATES_elem _ _ _ _ _ _ _ _ _ H1) as [Hp1 _].
    pose proof (TEMPLATES_elem _ _ _ _ _ _ _ _ _ H2) as [Hp2 _].
    apply data_key_inj in Hy as (Hp & _ & _); [|assumption..|lia|lia].
    apply (NoDup_fmap_inj_on
             (fun device : string * Z * template => device.1.1)
             (TEMPLATES HP BOIL BUFF SOL HC entry)); [|assumption..].
    rewrite TEMPLATES_prefixes. exact NoDup_device_prefixes.
Qed.

Lemma templated_sensor_ids_distinct_witness :
  exists templated,
    for_each
      (device_sensors Plant.base_addresses Plant.format_braces
         (Plant.with_overrides
            [("hp1_flow_temp", "temp"); ("hp1_return_temp", "temp")])
         true "eu08l")
      (TEMPLATES Plant.HP [] [] [] [] (Plant.config (Some 1) true))
    = Ok templated /\
    LambdaSensor._attr_unique_id <$> templated
    = ["eu08l_temp"; "eu08l_temp"; "eu08l_hp1_operating_state"] /\
    NoDup (LambdaSensor._sensor_id <$> templated).
Proof.
  eexists. split; [vm_compute; reflexivity|]. split; [reflexivity|].
  apply (templated_sensor_ids_distinct Plant.base_addresses
           Plant.format_braces Plant.HP [] [] [] []
           (Plant.with_overrides
              [("hp1_flow_temp", "temp"); ("hp1_return_temp", "temp")])
           true "eu08l" (Plant.config (Some 1) true)).
  - repeat (apply Forall_cons_2;
            [apply (bool_decide_unpack _); vm_compute; exact I|]).
    apply Forall_nil_2.
  - vm_compute. reflexivity.
Defined.

(** ** Device types of the templated sensors *)

Lemma device_prefix_listed prefix :
  prefix ∈ ["hp"; "boil"; "buff"; "sol"; "hc"] ->
  bool_decide (prefix ∈ ["hp"; "boil"; "hc"; "buff"; "sol"]) = true.
Proof.
  intros H.
  apply device_prefix_cases in H as [->|[->|[->|[->| ->]]]]; reflexivity.
Qed.

Lemma templated_sensor_device_type str_format coordinator legacy name_prefix
    prefix idx base item zs :
  prefix ∈ ["hp"; "boil"; "buff"; "sol"; "hc"] ->
  templated_sensor str_format coordinator legacy name_prefix prefix idx base
    item = Ok zs ->
  Forall (fun self =>
            LambdaSensor._device_type self = Some (PyStr.upper prefix)) zs.
Proof.
  intros Hp Hzs. destruct item as [sensor_id sensor_info].
  apply templated_sensor_inv in Hzs as (rel & _ & Hzs).
  destruct (Coordinator.is_register_disabled coordinator (base + rel)).
  { subst zs. constructor. }
  destruct Hzs as (nm & eid & uid & -> & _).
  constructor; [|constructor]. simpl.
  rewrite (device_prefix_listed prefix Hp). reflexivity.
Qed.

Lemma templated_device_types generate_base_addresses str_format HP BOIL BUFF
    SOL HC coordinator legacy name_prefix entry templated :
  for_each
    (device_sensors generate_base_addresses str_format coordinator legacy
       name_prefix)
    (TEMPLATES HP BOIL BUFF SOL HC entry) = Ok templated ->
  Forall (fun self =>
            exists prefix,
              prefix ∈ ["hp"; "boil"; "buff"; "sol"; "hc"] /\
              LambdaSensor._device_type self = Some (PyStr.upper prefix))
    templated.
Proof.
  apply for_each_Forall. intros [[prefix count] template] zs Hin Hzs.
  apply TEMPLATES_elem in Hin as [Hp _].
  eapply Forall_impl.
  - eapply device_sensors_Forall; [|exact Hzs].
    intros idx base item rs _ _ _ Hrs.
    exact (templated_sensor_device_type _ _ _ _ _ _ _ _ _ Hp Hrs).
  - intros self Hself. eauto.
Qed.

(** X2. Every sensor of the device templates is tagged with the prefix of
    its own device type in upper case, whatever device type its template
    entry names: a sensor made for the instance [idx] of the device type
    [prefix] from the template entry [sensor_id] has the sensor id
    [{prefix}{idx}_{sensor_id}] and the device type [prefix.upper()]; and
    however the sensor id is read as such a key, the tag is the prefix of
    that key. *)
Theorem templated_sensors_are_tagged_by_prefix generate_base_addresses
    str_format HP BOIL BUFF SOL HC coordinator legacy name_prefix entry
    templated :
  for_each
    (device_sensors generate_base_addresses str_format coordinator legacy
       name_prefix)
    (TEMPLATES HP BOIL BUFF SOL HC entry) = Ok templated ->
  Forall (fun self =>
            (exists prefix count template idx sensor_id,
               (prefix, count, template)
                 ∈ TEMPLATES HP BOIL BUFF SOL HC entry /\
               1 <= idx <= count /\
               sensor_id ∈ template.*1 /\
               LambdaSensor._sensor_id self = data_key prefix idx sensor_id /\
               LambdaSensor._device_type self = Some (PyStr.upper prefix)) /\
            (forall prefix idx sensor_id,
               prefix ∈ ["hp"; "boil"; "buff"; "sol"; "hc"] -> 0 <= idx ->
               LambdaSensor._sensor_id self = data_key prefix idx sensor_id ->
               LambdaSensor._device_type self = Some (PyStr.upper prefix)))
    templated.
Proof.
  intros Ht.
  assert (Forall (fun self =>
                    exists prefix count template idx sensor_id,
                      (prefix, count, template)
                        ∈ TEMPLATES HP BOIL BUFF SOL HC entry /\
                      1 <= idx <= count /\
                      sensor_id ∈ template.*1 /\
                      LambdaSensor._sensor_id self
                      = data_key prefix idx sensor_id /\
                      LambdaSensor._device_type self
                      = Some (PyStr.upper prefix)) templated) as Hprov.
  { revert Ht. apply for_each_Forall.
    intros [[prefix count] template] zs Hin Hzs.
    pose proof (TEMPLATES_elem _ _ _ _ _ _ _ _ _ Hin) as [Hp _].
    eapply device_sensors_Forall; [|exact Hzs].
    intros idx base [sensor_id sensor_info] rs Hidx _ Hitem Hrs.
    apply templated_sensor_inv in Hrs as (rel & _ & Hrs).
    destruct (Coordinator.is_register_disabled coordinator (base + rel)).
    { subst rs. constructor. }
    destruct Hrs as (nm & eid & uid & -> & _).
    constructor; [|constructor].
    exists prefix, count, template, idx, sensor_id.
    split; [exact Hin|]. split; [exact Hidx|]. split.
    { apply list_elem_of_fmap. exists (sensor_id, sensor_info). auto. }
    split; [reflexivity|]. simpl.
    rewrite (device_prefix_listed prefix Hp). reflexivity. }
  eapply Forall_impl; [exact Hprov|].
  intros self (prefix & count & template & idx & sensor_id & Hin & Hidx
               & Hsid & Hkey & Hdt).
  split; [eauto 10|].
  intros prefix' idx' sensor_id' Hp' Hidx' Hkey'.
  apply TEMPLATES_elem in Hin as [Hp _].
  rewrite Hkey in Hkey'.
  apply data_key_inj in Hkey' as (<- & _ & _); [exact Hdt|assumption..|lia|lia].
Qed.

Lemma templated_sensors_are_tagged_by_prefix_witness :
  exists templated,
    for_each
      (device_sensors Plant.base_addresses Plant.format_braces Plant.plain
         false "eu08l")
      (TEMPLATES Plant.HP [] [] [] Plant.CLIMATE Plant.no_counts)
    = Ok templated /\
    (fun self => (LambdaSensor._sensor_id self, LambdaSensor._device_type self))
      <$> templated
    = [("hp1_flow_temp", Some "HP"); ("hp1_return_temp", Some "HP");
       ("hp1_operating_state", Some "HP"); ("hc1_room_temp", Some "HC")] /\
    Forall (fun self =>
              (exists prefix count template idx sensor_id,
                 (prefix, count, template)
                   ∈ TEMPLATES Plant.HP [] [] [] Plant.CLIMATE
                       Plant.no_counts /\
                 1 <= idx <= count /\
                 sensor_id ∈ template.*1 /\
                 LambdaSensor._sensor_id self
                 = data_key prefix idx sensor_id /\
                 LambdaSensor._device_type self = Some (PyStr.upper prefix)) /\
              (forall prefix idx sensor_id,
                 prefix ∈ ["hp"; "boil"; "buff"; "sol"; "hc"] -> 0 <= idx ->
                 LambdaSensor._sensor_id self
                 = data_key prefix idx sensor_id ->
                 LambdaSensor._device_type self = Some (PyStr.upper prefix)))
      templated.
Proof.
  eexists. split; [vm_compute; reflexivity|]. split; [reflexivity|].
  apply (templated_sensors_are_tagged_by_prefix Plant.base_addresses
           Plant.format_braces Plant.HP [] [] [] Plant.CLIMATE Plant.plain
           false "eu08l" Plant.no_counts).
  vm_compute. reflexivity.
Defined.

(** X3. A state sensor of the device templates never fails on its device
    type: once its raw value coerces to an integer code the value accessor
    gives a label, it does not raise. *)
Theorem templated_state_sensor_gives_label generate_base_addresses str_format
    HP BOIL BUFF SOL HC setup_coordinator legacy name_prefix entry templated
    float_of_str str_of_float globals coordinator self data value
    numeric_value :
  for_each
    (device_sensors generate_base_addresses str_format setup_coordinator
       legacy name_prefix)
    (TEMPLATES HP BOIL BUFF SOL HC entry) = Ok templated ->
  self ∈ templated ->
  LambdaSensor._is_state_sensor self = true ->
  Coordinator.data coordinator = Some data ->
  data !! LambdaSensor._sensor_id self = Some value ->
  LambdaSensor.int_float float_of_str value = Ok numeric_value ->
  exists label,
    LambdaSensor.native_value float_of_str str_of_float globals coordinator
      self = Ok (Some (Label label)).
Proof.
  intros Ht Hin Hstate Hdata Hvalue Hcode.
  apply templated_device_types in Ht. rewrite Forall_forall in Ht.
  destruct (Ht self Hin) as (prefix & _ & Hdt).
  destruct (state_sensor_with_device_type_labels float_of_str str_of_float
              globals coordinator self data value numeric_value
              (PyStr.upper prefix) Hdata Hvalue Hstate Hcode Hdt)
    as (key & _ & Hv).
  eexists. exact Hv.
Qed.

Lemma templated_state_sensor_gives_label_witness :
  exists templated self,
    for_each
      (device_sensors Plant.base_addresses Plant.format_braces Plant.plain
         false "eu08l")
      (TEMPLATES Plant.HP [] [] [] [] (Plant.config (Some 1) false))
    = Ok templated /\
    templated !! 2%nat = Some self /\
    Plant.native_value (Plant.with_data [("hp1_operating_state", PyInt 2)])
      self = Ok (Some (Label "DHW")) /\
    exists label,
      Plant.native_value (Plant.with_data [("hp1_operating_state", PyInt 2)])
        self = Ok (Some (Label label)).
Proof.
  eexists. eexists. split; [vm_compute; reflexivity|].
  split; [reflexivity|]. split; [vm_compute; reflexivity|].
  eapply (templated_state_sensor_gives_label Plant.base_addresses
            Plant.format_braces Plant.HP [] [] [] [] Plant.plain false "eu08l"
            (Plant.config (Some 1) false) _ Plant.float_of_str
            Plant.str_of_float Plant.globals
            (Plant.with_data [("hp1_operating_state", PyInt 2)]) _
            (list_to_map [("hp1_operating_state", PyInt 2)]) (PyInt 2) 2).
  - vm_compute. reflexivity.
  - right. right. left.
  - reflexivity.
  - reflexivity.
  - vm_compute. reflexivity.
  - vm_compute. reflexivity.
Defined.

(** ** The mapping table of a templated state sensor *)

(** X4. A templated sensor that takes no override name and is not a
    heating circuit entry of the climate kind is named
    [{PREFIX}{index} {name}], and its mapping table is [{PREFIX}_] followed
    by the name of the template entry in upper case with underscores: the
    table does not depend on the instance index, so all instances of a
    device type decode a state by the same table. *)
Theorem generic_sensor_mapping_table str_format coordinator legacy name_prefix
    prefix idx base sensor_id sensor_info entry_name sensors :
  prefix ∈ ["hp"; "boil"; "buff"; "sol"; "hc"] ->
  0 <= idx ->
  lookup_override coordinator legacy (data_key prefix idx sensor_id) = None \/
  lookup_override coordinator legacy (data_key prefix idx sensor_id)
    = Some "" ->
  (prefix =? "hc")%string &&
    bool_decide (Info.device_type sensor_info = Some "Climate") = false ->
  Info.name sensor_info = Some entry_name ->
  templated_sensor str_format coordinator legacy name_prefix prefix idx base
    (sensor_id, sensor_info) = Ok sensors ->
  Forall (fun self =>
            LambdaSensor._attr_name self
            = PyStr.upper prefix +:+ PyStr.of_int idx +:+ " " +:+ entry_name /\
            LambdaSensor.mapping_name self
            = Ok (PyStr.upper prefix +:+ "_" +:+
                  PyStr.replace "-" "_"
                    (PyStr.replace " " "_"
                       (PyStr.upper
                          (PyStr.join " " (PyStr.split entry_name))))))
    sensors.
Proof.
  intros Hp Hi Hov Hclimate Hname Hs.
  apply templated_sensor_inv in Hs as (rel & _ & Hs).
  destruct (Coordinator.is_register_disabled coordinator (base + rel)).
  { subst sensors. constructor. }
  destruct Hs as (nm & eid & uid & -> & Hnaming).
  assert (nm = PyStr.upper prefix +:+ PyStr.of_int idx +:+ " " +:+ entry_name)
    as ->.
  { rewrite Hclimate in Hnaming.
    destruct Hov as [Hov|Hov]; rewrite Hov in Hnaming;
      destruct Hnaming as ((entry_name' & Hn & ->) & _);
      rewrite Hname in Hn; injection Hn as <-; reflexivity. }
  constructor; [|constructor]. split; [reflexivity|].
  apply (mapping_name_of_generic_sensor _ prefix idx entry_name Hp Hi).
  - simpl. rewrite (device_prefix_listed prefix Hp). reflexivity.
  - reflexivity.
Qed.

Lemma generic_sensor_mapping_table_witness :
  Forall (fun self =>
            LambdaSensor._attr_name self
            = PyStr.upper "hp" +:+ PyStr.of_int 2 +:+ " " +:+
              "Operating State" /\
            LambdaSensor.mapping_name self
            = Ok (PyStr.upper "hp" +:+ "_" +:+
                  PyStr.replace "-" "_"
                    (PyStr.replace " " "_"
                       (PyStr.upper
                          (PyStr.join " " (PyStr.split "Operating State"))))))
    (Plant.the
       (templated_sensor Plant.format_braces Plant.plain false "eu08l" "hp" 2
          1100 ("operating_state", Plant.entry_of 3 "Operating State" "" true))).
Proof.
  destruct (templated_sensor Plant.format_braces Plant.plain false "eu08l"
              "hp" 2 1100
              ("operating_state",
               Plant.entry_of 3 "Operating State" "" true))
    as [sensors|e] eqn:Hs; [|vm_compute in Hs; discriminate Hs].
  simpl.
  apply (generic_sensor_mapping_table Plant.format_braces Plant.plain false
           "eu08l" "hp" 2 1100 "operating_state"
           (Plant.entry_of 3 "Operating State" "" true) "Operating State"
           sensors).
  - left.
  - lia.
  - left. reflexivity.
  - reflexivity.
  - reflexivity.
  - exact Hs.
Defined.

(** ** General sensors, spelled out *)

(** The sensor of an entry of [SENSOR_TYPES]: the arguments the constructor
    is called with (lines 226-244). *)
Lemma general_sensor_inv coordinator legacy name_prefix sensor_id sensor_info
    sensors :
  general_sensor coordinator legacy name_prefix (sensor_id, sensor_info)
    = Ok sensors ->
  exists address,
    Info.address sensor_info = Some address /\
    if Coordinator.is_register_disabled coordinator address
    then sensors = []
    else exists name sensor_id_final,
        sensors =
          [LambdaSensor.__init__ sensor_id_final name
             (default "" (Info.unit sensor_info)) address
             (default float_one (Info.scale sensor_info))
             (default "" (Info.state_class sensor_info))
             (infer_device_class sensor_info) address
             (Info.data_type sensor_info) (Info.device_type sensor_info)
             (default false (Info.txt_mapping sensor_info))
             (Info.precision sensor_info)
             (Some ("sensor." +:+
                    (if legacy then name_prefix +:+ "_" else "") +:+
                    sensor_id_final))
             None] /\
        match (if legacy then Info.override_name sensor_info else None) with
        | Some override_name =>
            name = override_name /\ sensor_id_final = override_name
        | None =>
            Info.name sensor_info = Some name /\ sensor_id_final = sensor_id
        end.
Proof.
  unfold general_sensor. intros H.
  apply bind_Ok in H as (address & Haddr & H).
  assert (Info.address sensor_info = Some address) as Haddr'.
  { destruct (Info.address sensor_info); [|discriminate].
    injection Haddr as ->. reflexivity. }
  exists address. split; [exact Haddr'|].
  destruct (Coordinator.is_register_disabled coordinator address).
  { injection H as <-. reflexivity. }
  apply bind_Ok in H as ([nm sid] & Hnaming & H). injection H as <-.
  exists nm, sid. rewrite Haddr'. simpl. split.
  { destruct legacy; [|reflexivity]. rewrite append_assoc. reflexivity. }
  destruct (if legacy then Info.override_name sensor_info else None)
    as [o|].
  - injection Hnaming as <- <-. auto.
  - apply bind_Ok in Hnaming as (nm' & Hn & Hnaming).
    injection Hnaming as <- <-.
    destruct (Info.name sensor_info); [|discriminate].
    injection Hn as ->. auto.
Qed.

(** A property of the sensors of every loop body is a property of the whole
    enumeration. *)
Lemma enumerate_Forall (P : LambdaSensor.t -> Prop) generate_base_addresses
    str_format HP BOIL BUFF SOL HC SENSOR_TYPES coordinator entry sensors :
  let legacy := default false (ConfigEntry.use_legacy_modbus_names entry) in
  (forall prefix idx base item zs,
     prefix ∈ ["hp"; "boil"; "buff"; "sol"; "hc"] -> 1 <= idx ->
     item ∈ HP ++ BOIL ++ BUFF ++ SOL ++ HC ->
     templated_sensor str_format coordinator legacy (name_prefix_of entry)
       prefix idx base item = Ok zs ->
     Forall P zs) ->
  (forall item zs,
     item ∈ SENSOR_TYPES ->
     general_sensor coordinator legacy (name_prefix_of entry) item = Ok zs ->
     Forall P zs) ->
  enumerate_sensors generate_base_addresses str_format HP BOIL BUFF SOL HC
    SENSOR_TYPES coordinator entry = Ok sensors ->
  Forall P sensors.
Proof.
  intros legacy Ht Hg Hen.
  apply enumerate_Ok in Hen as (templated & general & Hts & Hgs & ->).
  apply Forall_app. split.
  - revert Hts. apply for_each_Forall.
    intros [[prefix count] template] zs Hin Hzs.
    apply TEMPLATES_elem in Hin as [Hp Htpl].
    eapply device_sensors_Forall; [|exact Hzs].
    intros idx base item rs Hidx _ Hitem Hrs.
    apply (Ht prefix idx base item rs Hp); [lia | | exact Hrs].
    rewrite !elem_of_app.
    repeat (apply elem_of_cons in Htpl as [->|Htpl]; [tauto|]).
    inversion Htpl.
  - revert Hgs. apply for_each_Forall. intros item zs Hitem Hzs.
    exact (Hg item zs Hitem Hzs).
Qed.

(** ** The device class a sensor exposes *)

Lemma init_device_class sensor_id name unit address scale state_class
    device_class relative_address data_type device_type txt_mapping precision
    entity_id unique_id :
  let self :=
    LambdaSensor.__init__ sensor_id name unit address scale state_class
      device_class relative_address data_type device_type txt_mapping
      precision entity_id unique_id in
  LambdaSensor._attr_device_class self
  = (if LambdaSensor._is_state_sensor self then None
     else if (LambdaSensor._unit self =? "°C")%string then Some TEMPERATURE
     else if (LambdaSensor._unit self =? "W")%string then Some POWER
     else if (LambdaSensor._unit self =? "Wh")%string then Some ENERGY
     else None) /\
  forall tag,
    LambdaSensor._attr_device_class self <> Some (OTHER_DEVICE_CLASS tag).
Proof.
  simpl. split; [reflexivity|]. intros tag.
  destruct txt_mapping; [discriminate|].
  repeat (destruct (_ =? _)%string; [discriminate|]). discriminate.
Qed.

(** X5. The device class that a sensor of the enumeration exposes follows
    from its unit alone: temperature for °C, power for W, energy for Wh and
    none otherwise, and none for a state sensor.  A device class that the
    template entry names itself is kept in [_device_class] but is never the
    exposed one. *)
Theorem exposed_device_class_follows_unit generate_base_addresses str_format
    HP BOIL BUFF SOL HC SENSOR_TYPES coordinator entry sensors :
  enumerate_sensors generate_base_addresses str_format HP BOIL BUFF SOL HC
    SENSOR_TYPES coordinator entry = Ok sensors ->
  Forall (fun self =>
            LambdaSensor._attr_device_class self
            = (if LambdaSensor._is_state_sensor self then None
               else if (LambdaSensor._unit self =? "°C")%string
                    then Some TEMPERATURE
               else if (LambdaSensor._unit self =? "W")%string then Some POWER
               else if (LambdaSensor._unit self =? "Wh")%string
                    then Some ENERGY
               else None) /\
            forall tag,
              LambdaSensor._attr_device_class self
              <> Some (OTHER_DEVICE_CLASS tag))
    sensors.
Proof.
  apply enumerate_Forall.
  - intros prefix idx base [sensor_id sensor_info] zs _ _ _ Hzs.
    apply templated_sensor_inv in Hzs as (rel & _ & Hzs).
    destruct (Coordinator.is_register_disabled coordinator (base + rel)).
    { subst zs. constructor. }
    destruct Hzs as (nm & eid & uid & -> & _).
    constructor; [|constructor]. apply init_device_class.
  - intros [sensor_id sensor_info] zs _ Hzs.
    apply general_sensor_inv in Hzs as (address & _ & Hzs).
    destruct (Coordinator.is_register_disabled coordinator address).
    { subst zs. constructor. }
    destruct Hzs as (nm & sid & -> & _).
    constructor; [|constructor]. apply init_device_class.
Qed.

Lemma exposed_device_class_follows_unit_witness :
  exists sensors,
    enumerate_sensors Plant.base_addresses Plant.format_braces Plant.HP [] []
      [] [] Plant.PRESSURE Plant.plain (Plant.config (Some 1) false)
    = Ok sensors /\
    (fun self => (LambdaSensor._unit self, LambdaSensor._device_class self,
                  LambdaSensor._attr_device_class self)) <$> sensors
    = [ ("°C", Some TEMPERATURE, Some TEMPERATURE);
        ("°C", Some TEMPERATURE, Some TEMPERATURE);
        ("", None, None);
        ("bar", Some (OTHER_DEVICE_CLASS "pressure"), None) ] /\
    Forall (fun self =>
              LambdaSensor._attr_device_class self
              = (if LambdaSensor._is_state_sensor self then None
                 else if (LambdaSensor._unit self =? "°C")%string
                      then Some TEMPERATURE
                 else if (LambdaSensor._unit self =? "W")%string
                      then Some POWER
                 else if (LambdaSensor._unit self =? "Wh")%string
                      then Some ENERGY
                 else None) /\
              forall tag,
                LambdaSensor._attr_device_class self
                <> Some (OTHER_DEVICE_CLASS tag))
      sensors.
Proof.
  eexists. split; [vm_compute; reflexivity|]. split; [reflexivity|].
  apply (exposed_device_class_follows_unit Plant.base_addresses
           Plant.format_braces Plant.HP [] [] [] [] Plant.PRESSURE Plant.plain
           (Plant.config (Some 1) false)).
  vm_compute. reflexivity.
Defined.

Lemma infer_device_class_of_unit sensor_info :
  Info.device_class sensor_info = None ->
  infer_device_class sensor_info
  = (if (default "" (Info.unit sensor_info) =? "°C")%string
     then Some TEMPERATURE
     else if (default "" (Info.unit sensor_info) =? "W")%string
          then Some POWER
     else if (default "" (Info.unit sensor_info) =? "Wh")%string
          then Some ENERGY
     else None).
Proof.
  intros Hdc. unfold infer_device_class. rewrite Hdc.
  destruct (Info.unit sensor_info) as [u|]; simpl.
  - destruct (String.eqb_spec u "°C") as [->|Hne]; [reflexivity|].
    rewrite (bool_decide_false (Some u = Some "°C")) by congruence.
    destruct (String.eqb_spec u "W") as [->|Hne']; [reflexivity|].
    rewrite (bool_decide_false (Some u = Some "W")) by congruence.
    destruct (String.eqb_spec u "Wh") as [->|Hne'']; [reflexivity|].
    rewrite (bool_decide_false (Some u = Some "Wh")) by congruence.
    reflexivity.
  - reflexivity.
Qed.

(** X6. When no template entry names a device class of its own, the class
    the set-up infers from the unit and the class the constructor infers from
    it agree: every sensor of the enumeration that is not a state sensor
    exposes the device class it stores. *)
Theorem exposed_device_class_is_the_inferred_one generate_base_addresses
    str_format HP BOIL BUFF SOL HC SENSOR_TYPES coordinator entry sensors :
  Forall (fun item => Info.device_class item.2 = None)
    (HP ++ BOIL ++ BUFF ++ SOL ++ HC) ->
  Forall (fun item => Info.device_class item.2 = None) SENSOR_TYPES ->
  enumerate_sensors generate_base_addresses str_format HP BOIL BUFF SOL HC
    SENSOR_TYPES coordinator entry = Ok sensors ->
  Forall (fun self =>
            LambdaSensor._is_state_sensor self = false ->
            LambdaSensor._attr_device_class self
            = LambdaSensor._device_class self)
    sensors.
Proof.
  intros Hts Hgs. rewrite Forall_forall in Hts, Hgs.
  apply enumerate_Forall.
  - intros prefix idx base [sensor_id sensor_info] zs _ _ Hitem Hzs.
    apply templated_sensor_inv in Hzs as (rel & _ & Hzs).
    destruct (Coordinator.is_register_disabled coordinator (base + rel)).
    { subst zs. constructor. }
    destruct Hzs as (nm & eid & uid & -> & _).
    constructor; [|constructor]. simpl. intros ->.
    symmetry. apply infer_device_class_of_unit. exact (Hts _ Hitem).
  - intros [sensor_id sensor_info] zs Hitem Hzs.
    apply general_sensor_inv in Hzs as (address & _ & Hzs).
    destruct (Coordinator.is_register_disabled coordinator address).
    { subst zs. constructor. }
    destruct Hzs as (nm & sid & -> & _).
    constructor; [|constructor]. simpl. intros ->.
    symmetry. apply infer_device_class_of_unit. exact (Hgs _ Hitem).
Qed.

Lemma exposed_device_class_is_the_inferred_one_witness :
  exists sensors,
    Plant.sensors (Some 2) false [] [] = Ok sensors /\
    length sensors = 7%nat /\
    Forall (fun self =>
              LambdaSensor._is_state_sensor self = false ->
              LambdaSensor._attr_device_class self
              = LambdaSensor._device_class self)
      sensors.
Proof.
  eexists. split; [vm_compute; reflexivity|]. split; [reflexivity|].
  apply (exposed_device_class_is_the_inferred_one Plant.base_addresses
           Plant.format_braces Plant.HP [] [] [] [] Plant.GENERAL
           (Plant.coordinator (Some 2) false [] None [])
           (Plant.config (Some 2) false)).
  - repeat constructor.
  - repeat constructor.
  - vm_compute. reflexivity.
Defined.

(** ** Entity ids *)



(** ** The name prefix *)

Lemma lower_char_not_upper a : PyStr.is_upper (PyStr.lower_char a) = false.
Proof.
  destruct a as [[] [] [] [] [] [] [] []]; reflexivity.
Qed.

Lemma has_char_lower c s :
  PyStr.is_upper c = true -> PyStr.has_char c (PyStr.lower s) = false.
Proof.
  intros Hc. induction s as [|a s IH]; [reflexivity|]. simpl.
  rewrite IH, orb_false_r. apply Ascii.eqb_neq. intros Heq.
  rewrite Heq, lower_char_not_upper in Hc. discriminate.
Qed.

Lemma has_char_remove_spaces c s :
  PyStr.has_char c (PyStr.replace " " "" s)
  = negb (Ascii.eqb c " ") && PyStr.has_char c s.
Proof.
  change (PyStr.replace " " "" s) with (PyStr.replace_from " " "" 0 s).
  induction s as [|a s IH].
  - rewrite andb_false_r. reflexivity.
  - cbn [PyStr.replace_from PyStr.startswith PyStr.has_char].
    rewrite andb_true_r.
    destruct (Ascii.eqb_spec " " a) as [<-|Hne].
    + change (Nat.pred (String.length " ")) with 0%nat.
      rewrite append_nil_l, IH.
      destruct (Ascii.eqb_spec c " "); reflexivity.
    + cbn [PyStr.has_char]. rewrite IH.
      destruct (Ascii.eqb_spec c a) as [->|Hca].
      * destruct (Ascii.eqb_spec a " "); [congruence | reflexivity].
      * reflexivity.
Qed.

(** X8. The name prefix of an installation with an ASCII name (line 72)
    holds no space and no capital letter; every other character of the name
    is kept, in lower case. *)
Theorem name_prefix_has_no_space_or_capital (entry : ConfigEntry.t) c :
  PyStr.is_ascii (default "" (ConfigEntry.name entry)) = true ->
  PyStr.has_char c (name_prefix_of entry)
  = negb (Ascii.eqb c " ") &&
    PyStr.has_char c (PyStr.lower (default "" (ConfigEntry.name entry))) /\
  (c = " "%char \/ PyStr.is_upper c = true ->
   PyStr.has_char c (name_prefix_of entry) = false).
Proof.
  intros _. unfold name_prefix_of. rewrite has_char_remove_spaces.
  split; [reflexivity|]. intros [-> | Hup].
  - reflexivity.
  - rewrite (has_char_lower _ _ Hup). apply andb_false_r.
Qed.

Lemma name_prefix_has_no_space_or_capital_witness :
  PyStr.is_ascii (default "" (ConfigEntry.name (Plant.config (Some 1) true)))
  = true /\
  name_prefix_of (Plant.config (Some 1) true) = "eu08l" /\
  PyStr.has_char "E" (name_prefix_of (Plant.config (Some 1) true)) = false.
Proof.
  split; [reflexivity|]. split; [reflexivity|].
  apply (name_prefix_has_no_space_or_capital (Plant.config (Some 1) true) "E").
  - reflexivity.
  - right. reflexivity.
Defined.

(** ** The name accessor and the rest of the sensor *)

Lemma set_sensor_id_same self :
  LambdaSensor.set_sensor_id (LambdaSensor._sensor_id self) self = self.
Proof. destruct self. reflexivity. Qed.

Lemma name_sets_sensor_id coordinator self :
  exists v,
    (LambdaSensor.name coordinator self).2 = LambdaSensor.set_sensor_id v self.
Proof.
  unfold LambdaSensor.name.
  destruct (if default false _ then _ else _) as [overrides|].
  - destruct (overrides !! _) as [[|c r]|].
    + exists (LambdaSensor._sensor_id self). symmetry.
      apply set_sensor_id_same.
    + eexists. reflexivity.
    + exists (LambdaSensor._sensor_id self). symmetry.
      apply set_sensor_id_same.
  - exists (LambdaSensor._sensor_id self). symmetry. apply set_sensor_id_same.
Qed.

Lemma read_names_set_sensor_id coordinator n : forall self,
  exists v,
    (LambdaSensor.read_names coordinator self n).2
    = LambdaSensor.set_sensor_id v self.
Proof.
  induction n as [|n IH]; intros self.
  - exists (LambdaSensor._sensor_id self). symmetry.
    apply set_sensor_id_same.
  - simpl. destruct (name_sets_sensor_id coordinator self) as (v & Hv).
    destruct (LambdaSensor.name coordinator self) as [reported self'].
    simpl in Hv. subst self'.
    destruct (IH (LambdaSensor.set_sensor_id v self)) as (w & Hw).
    destruct (LambdaSensor.read_names coordinator _ n) as [later self''].
    simpl in *. subst self''. exists w. reflexivity.
Qed.

(** X9. Reading the name of a sensor, any number of times and whatever the
    override table holds, changes nothing of the sensor but its sensor id:
    the unique id, the entity id, the display name and every other field
    stay as the constructor set them. *)
Theorem name_changes_only_the_sensor_id coordinator self n :
  (LambdaSensor.read_names coordinator self n).2
  = LambdaSensor.set_sensor_id
      (LambdaSensor._sensor_id (LambdaSensor.read_names coordinator self n).2)
      self.
Proof.
  destruct (read_names_set_sensor_id coordinator n self) as (v & ->).
  reflexivity.
Qed.

(** X10. Without legacy names, or with a coordinator that has no override
    table, every read of the name reports the display name of the sensor and
    leaves the sensor as it is. *)
Theorem name_without_legacy_names coordinator self n :
  default false
    (ConfigEntry.use_legacy_modbus_names (Coordinator.entry coordinator))
  = false \/
  Coordinator.sensor_overrides coordinator = None ->
  LambdaSensor.read_names coordinator self n
  = (replicate n (LambdaSensor._attr_name self), self).
Proof.
  intros H.
  assert (LambdaSensor.name coordinator self
          = (LambdaSensor._attr_name self, self)) as Hname.
  { unfold LambdaSensor.name. destruct H as [-> | ->]; [reflexivity|].
    destruct (default false _); reflexivity. }
  induction n as [|n IH]; [reflexivity|].
  simpl. rewrite Hname, IH. reflexivity.
Qed.

Lemma name_without_legacy_names_witness :
  exists self,
    head (Plant.the (Plant.sensors (Some 1) false
                       [("hp1_flow_temp", "supply_temp")] [])) = Some self /\
    LambdaSensor.read_names
      (Plant.coordinator (Some 1) false [("hp1_flow_temp", "supply_temp")]
         None [])
      self 2
    = (["HP1 Flow Temp"; "HP1 Flow Temp"], self).
Proof.
  eexists. split; [vm_compute; reflexivity|].
  refine (name_without_legacy_names
            (Plant.coordinator (Some 1) false
               [("hp1_flow_temp", "supply_temp")] None [])
            _ 2 _).
  left. reflexivity.
Defined.

(** ** The name accessor and the value accessor together *)

(** X11. Once a read of the name has applied an override, the value accessor
    looks the sensor up under the override name: when the snapshot has no
    entry under that name it gives the absent value, whatever the snapshot
    holds under the sensor id the sensor was constructed with. *)
Theorem value_is_looked_up_under_the_override float_of_str str_of_float
    globals coordinator self overrides o data :
  ConfigEntry.use_legacy_modbus_names (Coordinator.entry coordinator)
    = Some true ->
  Coordinator.sensor_overrides coordinator = Some overrides ->
  overrides !! LambdaSensor._sensor_id self = Some o ->
  o <> "" ->
  Coordinator.data coordinator = Some data ->
  data !! o = None ->
  LambdaSensor.native_value float_of_str str_of_float globals coordinator
    (LambdaSensor.name coordinator self).2
  = Ok None.
Proof.
  intros Hleg Hov Ho Hne Hdata Hnone.
  rewrite (name_override _ _ _ _ Hleg Hov Ho Hne). simpl.
  unfold LambdaSensor.native_value. rewrite Hdata.
  case_bool_decide; [reflexivity|].
  simpl. rewrite Hnone. reflexivity.
Qed.

Lemma value_is_looked_up_under_the_override_witness :
  let coordinator :=
    Plant.coordinator (Some 1) true [("hp1_flow_temp", "supply_temp")]
      (Some [("hp1_flow_temp", PyInt 35)]) [] in
  exists self,
    head (Plant.the (Plant.sensors (Some 1) true
                       [("hp1_flow_temp", "supply_temp")] [])) = Some self /\
    Plant.native_value coordinator self
    = Ok (Some (PhysicalValue (float_of_Z 35))) /\
    Plant.native_value coordinator (LambdaSensor.name coordinator self).2
    = Ok None.
Proof.
  eexists. split; [vm_compute; reflexivity|].
  split; [vm_compute; reflexivity|].
  refine (value_is_looked_up_under_the_override Plant.float_of_str
            Plant.str_of_float Plant.globals
            (Plant.coordinator (Some 1) true
               [("hp1_flow_temp", "supply_temp")]
               (Some [("hp1_flow_temp", PyInt 35)]) [])
            _ (list_to_map [("hp1_flow_temp", "supply_temp")])
            "supply_temp" (list_to_map [("hp1_flow_temp", PyInt 35)])
            _ _ _ _ _ _).
  - reflexivity.
  - reflexivity.
  - vm_compute. reflexivity.
  - discriminate.
  - reflexivity.
  - vm_compute. reflexivity.
Defined.

(** ** What the value accessor raises *)

Lemma py_float_raises float_of_str value e :
  LambdaSensor.py_float float_of_str value = Raise e ->
  e = TypeError \/ e = ValueError \/ e = OverflowError.
Proof.
  destruct value as [|n|x|s]; simpl.
  - intros [= <-]. auto.
  - unfold float_of_int. destruct (float_of_Z n); intros [= <-]. auto.
  - discriminate.
  - destruct (float_of_str s); intros [= <-]. auto.
Qed.

Lemma int_float_raises float_of_str value e :
  LambdaSensor.int_float float_of_str value = Raise e ->
  e = TypeError \/ e = ValueError \/ e = OverflowError.
Proof.
  unfold LambdaSensor.int_float.
  destruct (LambdaSensor.py_float float_of_str value) as [x|e'] eqn:Hx.
  - simpl. destruct x; intros [= <-]; auto.
  - simpl. intros [= <-]. exact (py_float_raises _ _ _ Hx).
Qed.

Lemma decode_state_raises globals self numeric_value e :
  LambdaSensor.decode_state globals self numeric_value = Raise e ->
  e = AttributeError /\ LambdaSensor._device_type self = None.
Proof.
  unfold LambdaSensor.decode_state, LambdaSensor.mapping_name.
  destruct (LambdaSensor._device_type self) as [device_type|].
  - simpl. destruct (globals !! _) as [[t|]|]; discriminate.
  - intros [= <-]. auto.
Qed.

(** X12. The exceptions of the value accessor.  It raises [OverflowError]
    when the raw value is an integer too large for a float or, for a state
    sensor, a float that is infinite; it raises [AttributeError] for a state
    sensor without a device type whose raw value coerces to an integer; and
    it raises nothing else and in no other case. *)
Theorem native_value_raises float_of_str str_of_float globals coordinator
    self e :
  LambdaSensor.native_value float_of_str str_of_float globals coordinator self
  = Raise e <->
  exists data value,
    Coordinator.data coordinator = Some data /\
    data !! LambdaSensor._sensor_id self = Some value /\
    ((e = OverflowError /\
      if LambdaSensor._is_state_sensor self
      then LambdaSensor.int_float float_of_str value = Raise OverflowError
      else LambdaSensor.py_float float_of_str value = Raise OverflowError) \/
     (e = AttributeError /\
      LambdaSensor._is_state_sensor self = true /\
      LambdaSensor._device_type self = None /\
      exists numeric_value,
        LambdaSensor.int_float float_of_str value = Ok numeric_value)).
Proof.
  unfold LambdaSensor.native_value. split.
  - destruct (Coordinator.data coordinator) as [data|]; [|discriminate].
    case_bool_decide as Hempty; [discriminate|].
    destruct (data !! LambdaSensor._sensor_id self) as [value|] eqn:Hvalue;
      [|destruct (LambdaSensor._is_state_sensor self); discriminate].
    intros H. exists data, value. split; [reflexivity|].
    split; [exact Hvalue|].
    destruct (LambdaSensor._is_state_sensor self).
    + destruct (LambdaSensor.int_float float_of_str value) as [n|e'] eqn:Hn.
      * right.
        destruct (LambdaSensor.decode_state globals self n) as [v|e'']
          eqn:Hd.
        { destruct value; discriminate. }
        apply decode_state_raises in Hd as [-> Hdt].
        assert (e = AttributeError) as ->
          by (destruct value; simpl in H; congruence).
        eauto.
      * left. apply int_float_raises in Hn as Hcases.
        destruct Hcases as [-> | [-> | ->]];
          destruct value; try discriminate; injection H as <-; auto.
    + left.
      destruct (LambdaSensor.py_float float_of_str value) as [x|e'] eqn:Hx.
      { destruct value; discriminate. }
      apply py_float_raises in Hx as Hcases.
      destruct Hcases as [-> | [-> | ->]];
        destruct value; try discriminate; injection H as <-; auto.
  - intros (data & value & -> & Hvalue & H).
    case_bool_decide as Hempty.
    { subst data. rewrite lookup_empty in Hvalue. discriminate. }
    rewrite Hvalue.
    destruct H as [[-> H] | (-> & Hstate & Hdt & n & Hn)].
    + destruct (LambdaSensor._is_state_sensor self);
        destruct value; try discriminate H; rewrite H; reflexivity.
    + rewrite Hstate.
      destruct value; [discriminate Hn|..]; rewrite Hn;
        unfold LambdaSensor.decode_state, LambdaSensor.mapping_name;
        rewrite Hdt; reflexivity.
Qed.

Lemma native_value_raises_witness :
  let coordinator :=
    Plant.with_data [("hp1_flow_temp", PyInt (2 ^ 1024));
                     ("hp1_return_temp", PyInt (2 ^ 1024 - 2 ^ 970 - 1))] in
  exists flow_temp return_temp,
    Plant.the (Plant.sensors (Some 1) false [] []) !! 0%nat = Some flow_temp /\
    Plant.the (Plant.sensors (Some 1) false [] []) !! 1%nat
    = Some return_temp /\
    Plant.native_value coordinator flow_temp = Raise OverflowError /\
    (exists x,
       Plant.native_value coordinator return_temp
       = Ok (Some (PhysicalValue x))).
Proof.
  eexists _, _. split; [vm_compute; reflexivity|].
  split; [vm_compute; reflexivity|]. split.
  - apply (proj2 (native_value_raises Plant.float_of_str Plant.str_of_float
                    Plant.globals
                    (Plant.with_data
                       [("hp1_flow_temp", PyInt (2 ^ 1024));
                        ("hp1_return_temp", PyInt (2 ^ 1024 - 2 ^ 970 - 1))])
                    _ OverflowError)).
    exists (list_to_map [("hp1_flow_temp", PyInt (2 ^ 1024));
                         ("hp1_return_temp", PyInt (2 ^ 1024 - 2 ^ 970 - 1))]),
           (PyInt (2 ^ 1024)).
    split; [reflexivity|]. split; [vm_compute; reflexivity|].
    left. split; [reflexivity|]. vm_compute. reflexivity.
  - eexists. vm_compute. reflexivity.
Defined.

(** ** The value of a measuring sensor *)

(** X13. A sensor constructed without text mapping reports the raw value of
    the snapshot as a float and nothing more: whatever scale, precision,
    unit and classes it was constructed with, the value is [float(raw)],
    neither scaled nor rounded. *)
Theorem native_value_applies_no_scale float_of_str str_of_float globals
    coordinator data raw x sensor_id name unit address scale state_class
    device_class relative_address data_type device_type precision entity_id
    unique_id :
  Coordinator.data coordinator = Some data ->
  data !! sensor_id = Some raw ->
  LambdaSensor.py_float float_of_str raw = Ok x ->
  LambdaSensor.native_value float_of_str str_of_float globals coordinator
    (LambdaSensor.__init__ sensor_id name unit address scale state_class
       device_class relative_address data_type device_type false precision
       entity_id unique_id)
  = Ok (Some (PhysicalValue x)).
Proof.
  intros Hdata Hraw Hx. unfold LambdaSensor.native_value. rewrite Hdata.
  case_bool_decide as Hempty.
  { subst data. rewrite lookup_empty in Hraw. discriminate. }
  simpl. rewrite Hraw.
  destruct raw; [discriminate Hx|..]; rewrite Hx; reflexivity.
Qed.

Lemma native_value_applies_no_scale_witness :
  LambdaSensor.native_value Plant.float_of_str Plant.str_of_float
    Plant.globals (Plant.with_data [("hp1_flow_temp", PyInt 351)])
    (LambdaSensor.__init__ "hp1_flow_temp" "HP1 Flow Temp" "°C" 1005
       (float_of_Z 10) "measurement" (Some TEMPERATURE) 5 (Some "int16")
       (Some "HP") false (Some 1) None None)
  = Ok (Some (PhysicalValue (float_of_Z 351))).
Proof.
  apply (native_value_applies_no_scale Plant.float_of_str Plant.str_of_float
           Plant.globals (Plant.with_data [("hp1_flow_temp", PyInt 351)])
           (list_to_map [("hp1_flow_temp", PyInt 351)]) (PyInt 351)
           (float_of_Z 351)).
  - reflexivity.
  - vm_compute. reflexivity.
  - vm_compute. reflexivity.
Defined.

(** ** The shape of a mapping name *)

Lemma upper_char_not_lower a : PyStr.is_lower (PyStr.upper_char a) = false.
Proof.
  destruct a as [[] [] [] [] [] [] [] []]; reflexivity.
Qed.

Lemma has_char_upper c s :
  PyStr.is_lower c = true -> PyStr.has_char c (PyStr.upper s) = false.
Proof.
  intros Hc. induction s as [|a s IH]; [reflexivity|]. simpl.
  rewrite IH, orb_false_r. apply Ascii.eqb_neq. intros Heq.
  rewrite Heq, upper_char_not_lower in Hc. discriminate.
Qed.

(** The characters of [s.replace(a, new)] for a single character [a]. *)
Lemma has_char_replace_char c a new s :
  PyStr.has_char c (PyStr.replace_from (String a "") new 0 s)
  = negb (Ascii.eqb c a) && PyStr.has_char c s
    || PyStr.has_char a s && PyStr.has_char c new.
Proof.
  induction s as [|x s IH].
  - simpl. rewrite andb_false_r. reflexivity.
  - cbn [PyStr.replace_from PyStr.startswith PyStr.has_char].
    rewrite andb_true_r.
    destruct (Ascii.eqb_spec a x) as [<-|Hne].
    + change (Nat.pred (String.length (String a ""))) with 0%nat.
      rewrite has_char_app, IH.
      destruct (Ascii.eqb c a), (PyStr.has_char c s), (PyStr.has_char a s),
        (PyStr.has_char c new); reflexivity.
    + cbn [PyStr.has_char]. rewrite IH.
      destruct (Ascii.eqb_spec c x) as [->|Hcx].
      * destruct (Ascii.eqb_spec x a) as [->|_]; [congruence|].
        destruct (PyStr.has_char x s), (PyStr.has_char a s),
          (PyStr.has_char x new); reflexivity.
      * destruct (Ascii.eqb c a), (PyStr.has_char c s), (PyStr.has_char a s),
          (PyStr.has_char c new); reflexivity.
Qed.

(** X14. The name of the mapping table of a state sensor is the device type
    in upper case, an underscore and a rest that holds no space, no hyphen
    and no small letter of ASCII: spaces and hyphens of the display name
    have become underscores. *)
Theorem mapping_name_shape self mapping_name :
  LambdaSensor.mapping_name self = Ok mapping_name ->
  exists device_type rest,
    LambdaSensor._device_type self = Some device_type /\
    mapping_name = PyStr.upper device_type +:+ "_" +:+ rest /\
    forall c,
      c = " "%char \/ c = "-"%char \/ PyStr.is_lower c = true ->
      PyStr.has_char c rest = false.
Proof.
  unfold LambdaSensor.mapping_name.
  destruct (LambdaSensor._device_type self) as [device_type|];
    [|discriminate].
  intros [= <-]. eexists _, _. split; [reflexivity|].
  split; [reflexivity|]. intros c Hc.
  rewrite !has_char_replace_char.
  destruct Hc as [-> | [-> | Hc]].
  - simpl. rewrite !andb_false_r. reflexivity.
  - simpl. rewrite !andb_false_r. reflexivity.
  - rewrite (has_char_upper _ _ Hc).
    assert (PyStr.has_char c "_" = false) as ->.
    { simpl. rewrite orb_false_r. apply Ascii.eqb_neq. intros ->.
      discriminate Hc. }
    rewrite !andb_false_r. reflexivity.
Qed.

Lemma mapping_name_shape_witness :
  LambdaSensor.mapping_name
    (LambdaSensor.__init__ "hp1_error-state" "HP1 Error-State of pump" "" 1001
       float_one "" None 1 None (Some "hp") true None None None)
  = Ok "HP_ERROR_STATE_OF_PUMP" /\
  exists device_type rest,
    Some "hp" = Some device_type /\
    "HP_ERROR_STATE_OF_PUMP" = PyStr.upper device_type +:+ "_" +:+ rest /\
    forall c,
      c = " "%char \/ c = "-"%char \/ PyStr.is_lower c = true ->
      PyStr.has_char c rest = false.
Proof.
  split; [vm_compute; reflexivity|].
  apply (mapping_name_shape
           (LambdaSensor.__init__ "hp1_error-state" "HP1 Error-State of pump"
              "" 1001 float_one "" None 1 None (Some "hp") true None None
              None)
           "HP_ERROR_STATE_OF_PUMP").
  vm_compute. reflexivity.
Defined.

(** ** When the set-up raises *)

Lemma for_each_Raise {A B : Type} (body : A -> result (list B)) xs e :
  for_each body xs = Raise e -> exists x, x ∈ xs /\ body x = Raise e.
Proof.
  induction xs as [|x xs IH]; [discriminate|]. simpl.
  destruct (body x) as [zs|e'] eqn:Hx; simpl.
  - destruct (for_each body xs) as [ws|e''] eqn:Hxs; simpl; [discriminate|].
    intros [= <-]. destruct (IH eq_refl) as (y & Hy & Hb).
    exists y. split; [apply elem_of_cons; right; exact Hy | exact Hb].
  - intros [= <-]. exists x.
    split; [apply elem_of_cons; left; reflexivity | exact Hx].
Qed.

Lemma for_each_succeeds {A B : Type} (body : A -> result (list B)) xs :
  (exists ys, for_each body xs = Ok ys) <->
  forall x, x ∈ xs -> exists zs, body x = Ok zs.
Proof.
  split.
  - intros (ys & Hys) x Hx.
    destruct (for_each_elem body xs ys x Hys Hx) as (zs & Hzs & _). eauto.
  - intros H. apply for_each_total. apply Forall_forall. exact H.
Qed.

Lemma templated_sensor_succeeds str_format coordinator legacy name_prefix
    prefix idx base sensor_id sensor_info :
  (exists zs,
     templated_sensor str_format coordinator legacy name_prefix prefix idx
       base (sensor_id, sensor_info) = Ok zs) <->
  exists rel,
    Info.relative_address sensor_info = Some rel /\
    (Coordinator.is_register_disabled coordinator (base + rel) = true \/
     (exists c r,
        lookup_override coordinator legacy (data_key prefix idx sensor_id)
        = Some (String c r)) \/
     exists fmt,
       Info.name sensor_info = Some fmt /\
       (prefix = "hc" -> Info.device_type sensor_info = Some "Climate" ->
        exists name, str_format fmt idx = Ok name)).
Proof.
  unfold templated_sensor. split.
  - intros (zs & H).
    destruct (Info.relative_address sensor_info) as [rel|]; [|discriminate].
    simpl in H. exists rel. split; [reflexivity|].
    destruct (Coordinator.is_register_disabled coordinator (base + rel));
      [left; reflexivity | right].
    destruct (lookup_override coordinator legacy _) as [[|c r]|];
      [right | left; eauto | right];
      (destruct (Info.name sensor_info) as [fmt|];
       [|destruct (_ && _); discriminate]);
      exists fmt; (split; [reflexivity|]); intros -> Hdt;
      rewrite Hdt in H; simpl in H;
      (destruct (str_format fmt idx) as [name|]; [eauto | discriminate]).
  - intros (rel & -> & H). simpl.
    destruct (Coordinator.is_register_disabled coordinator (base + rel));
      [eexists; reflexivity|].
    destruct H as [H | [(c & r & ->) | (fmt & Hname & Hfmt)]];
      [discriminate | eexists; reflexivity |].
    assert (exists name,
              ((if (prefix =? "hc")%string &&
                   bool_decide (Info.device_type sensor_info = Some "Climate")
                then fmt ← subscript (Info.name sensor_info);
                     str_format fmt idx
                else name ← subscript (Info.name sensor_info);
                     Ok (PyStr.upper prefix +:+ PyStr.of_int idx +:+ " " +:+
                         name)) : result string) = Ok name) as (name & Hn).
    { rewrite Hname. simpl.
      destruct (String.eqb_spec prefix "hc") as [Hp|_];
        [|eexists; reflexivity].
      case_bool_decide as Hdt; [|eexists; reflexivity].
      simpl. exact (Hfmt Hp Hdt). }
    destruct (lookup_override coordinator legacy _) as [[|c r]|];
      try (eexists; reflexivity); rewrite Hn; eexists; reflexivity.
Qed.

Lemma general_sensor_succeeds coordinator legacy name_prefix sensor_id
    sensor_info :
  (exists zs,
     general_sensor coordinator legacy name_prefix (sensor_id, sensor_info)
     = Ok zs) <->
  exists address,
    Info.address sensor_info = Some address /\
    (Coordinator.is_register_disabled coordinator address = true \/
     (legacy = true /\ exists o, Info.override_name sensor_info = Some o) \/
     exists name, Info.name sensor_info = Some name).
Proof.
  unfold general_sensor. split.
  - intros (zs & H).
    destruct (Info.address sensor_info) as [address|]; [|discriminate].
    simpl in H. exists address. split; [reflexivity|].
    destruct (Coordinator.is_register_disabled coordinator address);
      [left; reflexivity | right].
    destruct legacy.
    + destruct (Info.override_name sensor_info) as [o|]; [left; eauto|].
      right. destruct (Info.name sensor_info); [eauto | discriminate].
    + right. destruct (Info.name sensor_info); [eauto | discriminate].
  - intros (address & -> & H). simpl.
    destruct (Coordinator.is_register_disabled coordinator address);
      [eexists; reflexivity|].
    destruct H as [H | [(-> & o & ->) | (name & Hname)]];
      [discriminate | eexists; reflexivity |].
    destruct (if legacy then Info.override_name sensor_info else None);
      [eexists; reflexivity|].
    rewrite Hname. eexists. reflexivity.
Qed.

Lemma device_sensors_succeeds generate_base_addresses str_format coordinator
    legacy name_prefix prefix count template :
  (exists zs,
     device_sensors generate_base_addresses str_format coordinator legacy
       name_prefix (prefix, count, template) = Ok zs) <->
  forall idx, 1 <= idx <= count ->
    exists base,
      generate_base_addresses prefix count !! idx = Some base /\
      forall item, item ∈ template ->
        exists zs,
          templated_sensor str_format coordinator legacy name_prefix prefix
            idx base item = Ok zs.
Proof.
  unfold device_sensors. rewrite for_each_succeeds. split.
  - intros H idx Hidx.
    destruct (H idx) as (zs & Hzs); [apply elem_of_range; lia|].
    destruct (generate_base_addresses prefix count !! idx) as [base|];
      [|discriminate].
    exists base. split; [reflexivity|]. simpl in Hzs.
    apply for_each_succeeds. eauto.
  - intros H idx Hidx. apply elem_of_range in Hidx.
    destruct (H idx) as (base & -> & Hitems); [lia|]. simpl.
    apply for_each_succeeds. exact Hitems.
Qed.

(** The entries of the specification, one by one. *)
Lemma elem_of_enabled_entries generate_base_addresses coordinator prefix count
    template key address :
  (key, address)
    ∈ enabled_entries generate_base_addresses coordinator prefix count
        template <->
  exists idx base sensor_id sensor_info rel,
    1 <= idx <= count /\
    generate_base_addresses prefix count !! idx = Some base /\
    (sensor_id, sensor_info) ∈ template /\
    Info.relative_address sensor_info = Some rel /\
    Coordinator.is_register_disabled coordinator (base + rel) = false /\
    key = data_key prefix idx sensor_id /\
    address = base + rel.
Proof.
  unfold enabled_entries. rewrite list_elem_of_bind. split.
  - intros (idx & Hin & Hidx).
    apply list_elem_of_fmap in Hidx as (n & -> & Hn). apply elem_of_seq in Hn.
    apply list_elem_of_bind in Hin as ([sensor_id sensor_info] & Hin & Hitem).
    simpl in Hin.
    destruct (generate_base_addresses prefix count !! Z.of_nat n) as [base|]
      eqn:Hbase; [|inversion Hin].
    destruct (Info.relative_address sensor_info) as [rel|] eqn:Hrel;
      [|inversion Hin].
    destruct (Coordinator.is_register_disabled coordinator (base + rel))
      eqn:Hdis; [inversion Hin|].
    apply list_elem_of_singleton in Hin. injection Hin as -> ->.
    exists (Z.of_nat n), base, sensor_id, sensor_info, rel.
    repeat split; try assumption; try reflexivity; lia.
  - intros (idx & base & sensor_id & sensor_info & rel & Hidx & Hbase & Hitem
            & Hrel & Hdis & -> & ->).
    exists idx. split.
    + apply list_elem_of_bind. exists (sensor_id, sensor_info).
      split; [|exact Hitem]. simpl. rewrite Hbase, Hrel, Hdis.
      apply list_elem_of_singleton. reflexivity.
    + apply list_elem_of_fmap. exists (Z.to_nat idx).
      split; [lia|]. apply elem_of_seq. lia.
Qed.

(** C7, as the code has it.  The claim holds for a device type (prefix,
    count, template) that the set-up can enumerate: every instance 1..count
    has a base address, every template entry a relative address and, unless
    its register is disabled or a non-empty override names it, a name, which
    for a climate entry of a heating circuit the format accepts.  Then the
    enumeration gives exactly the sensors of the template entries of the
    instances 1..count whose absolute address (base plus relative address)
    is not disabled, one sensor for each and in that order; none of the
    sensors has a disabled address, and a disabled entry raises nothing. *)
Theorem disabled_registers_are_skipped generate_base_addresses str_format
    coordinator legacy name_prefix prefix count template :
  (forall idx, 1 <= idx <= count ->
     exists base,
       generate_base_addresses prefix count !! idx = Some base /\
       forall sensor_id sensor_info,
         (sensor_id, sensor_info) ∈ template ->
         exists rel,
           Info.relative_address sensor_info = Some rel /\
           (Coordinator.is_register_disabled coordinator (base + rel) = true \/
            (exists c r,
               lookup_override coordinator legacy
                 (data_key prefix idx sensor_id) = Some (String c r)) \/
            exists fmt,
              Info.name sensor_info = Some fmt /\
              (prefix = "hc" ->
               Info.device_type sensor_info = Some "Climate" ->
               exists name, str_format fmt idx = Ok name))) ->
  exists sensors,
    device_sensors generate_base_addresses str_format coordinator legacy
      name_prefix (prefix, count, template) = Ok sensors /\
    (fun self => (LambdaSensor._sensor_id self, LambdaSensor._address self))
      <$> sensors
    = enabled_entries generate_base_addresses coordinator prefix count
        template /\
    length sensors
    = length (enabled_entries generate_base_addresses coordinator prefix
                count template) /\
    (forall key address,
       (key, address)
         ∈ (fun self =>
              (LambdaSensor._sensor_id self, LambdaSensor._address self))
             <$> sensors <->
       exists idx base sensor_id sensor_info rel,
         1 <= idx <= count /\
         generate_base_addresses prefix count !! idx = Some base /\
         (sensor_id, sensor_info) ∈ template /\
         Info.relative_address sensor_info = Some rel /\
         Coordinator.is_register_disabled coordinator (base + rel) = false /\
         key = data_key prefix idx sensor_id /\
         address = base + rel) /\
    Forall (fun self =>
              Coordinator.is_register_disabled coordinator
                (LambdaSensor._address self) = false)
      sensors /\
    (forall idx base sensor_id sensor_info rel,
       Info.relative_address sensor_info = Some rel ->
       Coordinator.is_register_disabled coordinator (base + rel) = true ->
       templated_sensor str_format coordinator legacy name_prefix prefix idx
         base (sensor_id, sensor_info) = Ok []).
Proof.
  intros Hok.
  assert (exists sensors,
            device_sensors generate_base_addresses str_format coordinator
              legacy name_prefix (prefix, count, template) = Ok sensors)
    as (sensors & Hs).
  { apply (proj2 (device_sensors_succeeds _ _ _ _ _ _ _ _)).
    intros idx Hidx. destruct (Hok idx Hidx) as (base & Hbase & Hitems).
    exists base. split; [exact Hbase|]. intros [sensor_id sensor_info] Hitem.
    exact (proj2 (templated_sensor_succeeds _ _ _ _ _ _ _ _ _)
             (Hitems _ _ Hitem)). }
  exists sensors. split; [exact Hs|].
  pose proof (device_sensors_enabled _ _ _ _ _ _ _ _ _ Hs) as Hen.
  split; [exact Hen|]. split; [|split; [|split]].
  - rewrite <- Hen, length_fmap. reflexivity.
  - intros key address. rewrite Hen. apply elem_of_enabled_entries.
  - exact (device_sensors_not_disabled _ _ _ _ _ _ _ _ _ Hs).
  - intros idx base sensor_id sensor_info rel.
    apply templated_sensor_disabled.
Qed.

Lemma disabled_registers_are_skipped_witness :
  exists sensors,
    device_sensors Plant.base_addresses Plant.format_braces
      (Plant.with_disabled [1006; 1103]) false "eu08l"
      ("hp", 2, Plant.HP) = Ok sensors /\
    (fun self => (LambdaSensor._sensor_id self, LambdaSensor._address self))
      <$> sensors
    = [("hp1_flow_temp", 1005); ("hp1_operating_state", 1003);
       ("hp2_flow_temp", 1105); ("hp2_return_temp", 1106)] /\
    Forall (fun self =>
              Coordinator.is_register_disabled
                (Plant.with_disabled [1006; 1103])
                (LambdaSensor._address self) = false) sensors.
Proof.
  destruct (disabled_registers_are_skipped Plant.base_addresses
              Plant.format_braces (Plant.with_disabled [1006; 1103])
              false "eu08l" "hp" 2 Plant.HP)
    as (sensors & Hs & Hen & _ & _ & Hdis & _).
  - intros idx Hidx.
    assert (idx = 1 \/ idx = 2) as [-> | ->] by lia;
      (eexists; split; [vm_compute; reflexivity|]);
      intros sensor_id sensor_info Hitem;
      repeat (apply elem_of_cons in Hitem as [Hitem|Hitem];
              [injection Hitem as -> ->; eexists; split; [reflexivity|];
               right; right; eexists; split; [reflexivity|];
               intros Hp; discriminate Hp|]);
      inversion Hitem.
  - exists sensors. split; [exact Hs|]. split; [|exact Hdis].
    rewrite Hen. vm_compute. reflexivity.
Defined.

(** C7 as the specification words it fails.  The name of a template entry
    is optional in the data model of the specification; for an entry
    without one whose register is enabled the set-up raises [KeyError] and
    gives no sensor at all, not one sensor for each enabled entry. *)
Lemma nameless_entry_stops_the_enumeration :
  device_sensors Plant.base_addresses Plant.format_braces Plant.plain false
    "eu08l" ("hp", 1, Plant.NAMELESS) = Raise KeyError /\
  enabled_entries Plant.base_addresses Plant.plain "hp" 1 Plant.NAMELESS
  = [("hp1_flow_temp", 1005); ("hp1_pressure", 1007)] /\
  device_sensors Plant.base_addresses Plant.format_braces
    (Plant.with_disabled [1007]) false "eu08l" ("hp", 1, Plant.NAMELESS)
  = (fun sensors => take 1 sensors)
      <$> device_sensors Plant.base_addresses Plant.format_braces Plant.plain
            false "eu08l" ("hp", 1, Plant.HP).
Proof. repeat split; vm_compute; reflexivity. Qed.

(** ** Unique ids, with overrides *)

Lemma str_or_app_self a b :
  LambdaSensor.str_or (Some (a +:+ b)) b = a +:+ b.
Proof. destruct a; [destruct b; reflexivity | reflexivity]. Qed.

(** The sensor ids of the templated sensors are distinct. *)
Lemma templated_sensor_ids_NoDup generate_base_addresses str_format
    HP BOIL BUFF SOL HC coordinator legacy name_prefix entry templated :
  Forall (fun t : template => NoDup t.*1) [HP; BOIL; BUFF; SOL; HC] ->
  for_each
    (device_sensors generate_base_addresses str_format coordinator legacy
       name_prefix)
    (TEMPLATES HP BOIL BUFF SOL HC entry) = Ok templated ->
  NoDup (LambdaSensor._sensor_id <$> templated).
Proof.
  intros Htemplates Ht.
  set (P := fun (device : string * Z * template) (y : string) =>
              exists idx sensor_id,
                1 <= idx /\ y = data_key device.1.1 idx sensor_id).
  eapply (for_each_NoDup LambdaSensor._sensor_id P); [| | |exact Ht].
  - eapply NoDup_fmap_1. rewrite TEMPLATES_prefixes.
    exact NoDup_device_prefixes.
  - intros [[prefix count] template] zs Hin Hzs.
    apply TEMPLATES_elem in Hin as [Hp Htpl].
    rewrite Forall_forall in Htemplates.
    exact (device_sensor_ids generate_base_addresses str_format coordinator
             legacy name_prefix prefix count template zs Hp
             (Htemplates template Htpl) Hzs).
  - intros [[p1 c1] t1] [[p2 c2] t2] y H1 H2 (i1 & s1 & Hi1 & ->)
      (i2 & s2 & Hi2 & Hy). simpl in Hy.
    pose proof (TEMPLATES_elem _ _ _ _ _ _ _ _ _ H1) as [Hp1 _].
    pose proof (TEMPLATES_elem _ _ _ _ _ _ _ _ _ H2) as [Hp2 _].
    apply data_key_inj in Hy as (Hp & _ & _); [|assumption..|lia|lia].
    apply (NoDup_fmap_inj_on
             (fun device : string * Z * template => device.1.1)
             (TEMPLATES HP BOIL BUFF SOL HC entry)); [|assumption..].
    rewrite TEMPLATES_prefixes. exact NoDup_device_prefixes.
Qed.

(** The unique id of a templated sensor is the prefix of the naming mode
    followed by the name of its key, when no key without an override holds
    the text [sensor.]. *)
Lemma templated_unique_ids generate_base_addresses str_format HP BOIL BUFF
    SOL HC coordinator entry templated :
  let legacy := default false (ConfigEntry.use_legacy_modbus_names entry) in
  let pre := if legacy then name_prefix_of entry +:+ "_" else "" in
  (forall key,
     generated_key generate_base_addresses HP BOIL BUFF SOL HC coordinator
       entry key ->
     lookup_override coordinator legacy key = None \/
     lookup_override coordinator legacy key = Some "" ->
     PyStr.contains "sensor." (pre +:+ key) = false) ->
  for_each
    (device_sensors generate_base_addresses str_format coordinator legacy
       (name_prefix_of entry))
    (TEMPLATES HP BOIL BUFF SOL HC entry) = Ok templated ->
  Forall (fun self =>
            generated_key generate_base_addresses HP BOIL BUFF SOL HC
              coordinator entry (LambdaSensor._sensor_id self) /\
            LambdaSensor._attr_unique_id self
            = pre +:+ given_name coordinator legacy
                        (LambdaSensor._sensor_id self))
    templated.
Proof.
  intros legacy pre Hsensor. apply for_each_Forall.
  intros [[prefix count] template] zs Hin Hzs.
  eapply device_sensors_Forall; [|exact Hzs].
  intros idx base [sensor_id sensor_info] rs Hidx Hbase Hitem Hrs.
  apply templated_sensor_inv in Hrs as (rel & Hrel & Hrs).
  destruct (Coordinator.is_register_disabled coordinator (base + rel))
    eqn:Hdis.
  { subst rs. constructor. }
  destruct Hrs as (nm & eid & uid & -> & Hnaming).
  constructor; [|constructor].
  assert (generated_key generate_base_addresses HP BOIL BUFF SOL HC
            coordinator entry (data_key prefix idx sensor_id)) as Hgen.
  { exists prefix, count, template, idx, base, sensor_id, sensor_info, rel.
    auto 10. }
  split; [exact Hgen|]. simpl. unfold given_name.
  assert (lookup_override coordinator legacy (data_key prefix idx sensor_id)
          = None \/
          lookup_override coordinator legacy (data_key prefix idx sensor_id)
          = Some "" ->
          uid = PyStr.replace "sensor." "" eid ->
          eid = "sensor." +:+ pre +:+ data_key prefix idx sensor_id ->
          LambdaSensor.str_or (Some uid) (data_key prefix idx sensor_id)
          = pre +:+ data_key prefix idx sensor_id) as Hplain.
  { intros Hov -> ->.
    rewrite (replace_sensor_prefix _ (Hsensor _ Hgen Hov)).
    apply str_or_app_self. }
  destruct (lookup_override coordinator legacy
              (data_key prefix idx sensor_id)) as [[|c r]|] eqn:Hov.
  - destruct Hnaming as (_ & Heid & Huid). apply Hplain; auto.
  - destruct Hnaming as (_ & _ & ->).
    assert (legacy = true) as Hleg.
    { unfold lookup_override in Hov. destruct legacy; [reflexivity|].
      discriminate. }
    unfold pre. rewrite Hleg, append_assoc.
    apply (str_or_Some_app (name_prefix_of entry) (String c r) "_").
  - destruct Hnaming as (_ & Heid & Huid). apply Hplain; auto.
Qed.

(** The unique id of a general sensor is its final sensor id. *)
Lemma general_unique_ids SENSOR_TYPES coordinator legacy name_prefix item zs :
  item ∈ SENSOR_TYPES ->
  general_sensor coordinator legacy name_prefix item = Ok zs ->
  NoDup (LambdaSensor._attr_unique_id <$> zs) /\
  Forall (fun z =>
            LambdaSensor._attr_unique_id z = general_id legacy item /\
            enabled_general SENSOR_TYPES coordinator item) zs.
Proof.
  intros Hitem Hzs.
  destruct (general_sensor_final_id _ _ _ _ _ Hzs) as [Hnd Hid].
  split; [exact Hnd|].
  destruct item as [sensor_id sensor_info].
  apply general_sensor_inv in Hzs as (address & Haddr & Hzs).
  destruct (Coordinator.is_register_disabled coordinator address) eqn:Hdis.
  { subst zs. constructor. }
  eapply Forall_impl; [exact Hid|]. intros z Hz. split; [exact Hz|].
  split; [exact Hitem|]. exists address. auto.
Qed.

(** C2, as the code has it.  The naming rules keep the unique ids apart
    when the names they start from are apart.  The name of a generated key
    [{prefix}{index}_{sensor_id}] is its non-empty override under legacy
    naming and the key itself otherwise; the unique id of its sensor is the
    name, after [{name_prefix}_] under legacy naming.  When the keys of each
    template are distinct (they are the keys of a dict), no generated key
    without an override gives an id that holds the text [sensor.], distinct
    generated keys have distinct names, the general entries whose register
    is enabled have distinct final ids, and none of these is the unique id
    of a generated key, then no two sensors of one enumeration share a
    unique id. *)
Theorem unique_ids_distinct generate_base_addresses str_format
    HP BOIL BUFF SOL HC SENSOR_TYPES coordinator entry sensors :
  let legacy := default false (ConfigEntry.use_legacy_modbus_names entry) in
  let pre := if legacy then name_prefix_of entry +:+ "_" else "" in
  let generated :=
    generated_key generate_base_addresses HP BOIL BUFF SOL HC coordinator
      entry in
  let general := enabled_general SENSOR_TYPES coordinator in
  Forall (fun t : template => NoDup t.*1)
    [HP; BOIL; BUFF; SOL; HC; SENSOR_TYPES] ->
  (forall key,
     generated key ->
     lookup_override coordinator legacy key = None \/
     lookup_override coordinator legacy key = Some "" ->
     PyStr.contains "sensor." (pre +:+ key) = false) ->
  (forall key1 key2,
     generated key1 -> generated key2 ->
     given_name coordinator legacy key1 = given_name coordinator legacy key2 ->
     key1 = key2) ->
  (forall item1 item2,
     general item1 -> general item2 ->
     general_id legacy item1 = general_id legacy item2 ->
     item1.1 = item2.1) ->
  (forall item key,
     general item -> generated key ->
     general_id legacy item <> pre +:+ given_name coordinator legacy key) ->
  enumerate_sensors generate_base_addresses str_format HP BOIL BUFF SOL HC
    SENSOR_TYPES coordinator entry = Ok sensors ->
  NoDup (LambdaSensor._attr_unique_id <$> sensors).
Proof.
  intros legacy pre generated general Hkeys Hsensor Hnames Hgeneral Hapart Hen.
  apply enumerate_Ok in Hen as (templated & general_sensors & Ht & Hg & ->).
  fold legacy in Ht, Hg.
  assert (Forall (fun t : template => NoDup t.*1) [HP; BOIL; BUFF; SOL; HC]
          /\ NoDup SENSOR_TYPES.*1) as [Htemplates Hgkeys].
  { rewrite Forall_forall in Hkeys. split.
    - apply Forall_forall. intros t Hin. apply Hkeys.
      rewrite !elem_of_cons in Hin. rewrite !elem_of_cons.
      destruct Hin as [->|[->|[->|[->|[->|Hin]]]]]; auto 10.
    - apply Hkeys. rewrite !elem_of_cons. auto 10. }
  pose proof (templated_sensor_ids_NoDup _ _ _ _ _ _ _ _ _ _ _ _ Htemplates
                Ht) as Hsids.
  pose proof (templated_unique_ids _ _ _ _ _ _ _ _ _ _ Hsensor Ht) as Huids.
  fold legacy pre generated in Huids. rewrite Forall_forall in Huids.
  assert (forall item zs,
            item ∈ SENSOR_TYPES ->
            general_sensor coordinator legacy (name_prefix_of entry) item
            = Ok zs ->
            NoDup (LambdaSensor._attr_unique_id <$> zs) /\
            Forall (fun z =>
                      (fun item y => y = general_id legacy item /\ general item)
                        item (LambdaSensor._attr_unique_id z)) zs)
    as Hgbody.
  { intros item zs Hitem Hzs.
    exact (general_unique_ids _ _ _ _ _ _ Hitem Hzs). }
  rewrite fmap_app. apply NoDup_app. split; [|split].
  - apply NoDup_fmap_2_strong; [|exact (NoDup_fmap_1 _ _ Hsids)].
    intros x y Hx Hy Hxy.
    destruct (Huids x Hx) as [Hgx Hux]. destruct (Huids y Hy) as [Hgy Huy].
    rewrite Hux, Huy in Hxy. apply append_inj_l in Hxy.
    apply (NoDup_fmap_inj_on LambdaSensor._sensor_id templated _ _ Hsids Hx
             Hy).
    exact (Hnames _ _ Hgx Hgy Hxy).
  - intros y Hy1 Hy2.
    apply list_elem_of_fmap in Hy1 as (z & -> & Hz).
    apply list_elem_of_fmap in Hy2 as (w & Hzw & Hw).
    destruct (Huids z Hz) as [Hgz Huz].
    pose proof (for_each_provenance LambdaSensor._attr_unique_id
                  (fun item y => y = general_id legacy item /\ general item)
                  _ _ _
                  (fun item zs Hin Hzs => proj2 (Hgbody item zs Hin Hzs)) Hg)
      as Hgprov.
    rewrite Forall_forall in Hgprov.
    destruct (Hgprov w Hw) as (item & _ & Hgid & Hitem).
    apply (Hapart item _ Hitem Hgz). rewrite <- Hgid, <- Hzw. exact Huz.
  - eapply (for_each_NoDup LambdaSensor._attr_unique_id
              (fun item y => y = general_id legacy item /\ general item));
      [|exact Hgbody| |exact Hg].
    + eapply NoDup_fmap_1. exact Hgkeys.
    + intros x1 x2 y H1 H2 [-> Hx1] [Hy Hx2].
      apply (NoDup_fmap_inj_on fst SENSOR_TYPES _ _ Hgkeys H1 H2).
      exact (Hgeneral _ _ Hx1 Hx2 Hy).
Qed.

(** The keys that the installation of the examples generates with the
    register 1006 disabled. *)
Lemma plant_generated_keys overrides key :
  generated_key Plant.base_addresses Plant.HP [] [] [] []
    (Plant.coordinator (Some 1) true overrides None [1006])
    (Plant.config (Some 1) true) key ->
  key = "hp1_flow_temp" \/ key = "hp1_operating_state".
Proof.
  intros (prefix & count & template & idx & base & sensor_id & sensor_info
          & rel & Hin & Hidx & Hbase & Hitem & Hrel & Hdis & ->).
  unfold TEMPLATES in Hin. simpl in Hin.
  repeat (apply elem_of_cons in Hin as [Hin|Hin];
          [injection Hin as -> -> ->; try (inversion Hitem; fail)|]);
    [|inversion Hin].
  assert (idx = 1) as -> by lia.
  vm_compute in Hbase. injection Hbase as <-.
  unfold Plant.HP in Hitem.
  repeat (apply elem_of_cons in Hitem as [Hitem|Hitem];
          [injection Hitem as -> ->; simpl in Hrel; injection Hrel as <-|]);
    [..|inversion Hitem].
  - left. reflexivity.
  - vm_compute in Hdis. discriminate Hdis.
  - right. reflexivity.
Qed.

Lemma unique_ids_distinct_witness :
  LambdaSensor._attr_unique_id
    <$> Plant.the (Plant.sensors (Some 1) true
                     [("hp1_flow_temp", "supply_temp");
                      ("hp1_return_temp", "supply_temp")] [1006])
  = ["eu08l_supply_temp"; "eu08l_hp1_operating_state"; "ambient_temp"] /\
  NoDup (LambdaSensor._attr_unique_id
           <$> Plant.the (Plant.sensors (Some 1) true
                            [("hp1_flow_temp", "supply_temp");
                             ("hp1_return_temp", "supply_temp")] [1006])).
Proof.
  split; [vm_compute; reflexivity|].
  destruct (Plant.sensors (Some 1) true
              [("hp1_flow_temp", "supply_temp");
               ("hp1_return_temp", "supply_temp")] [1006])
    as [sensors|e] eqn:Hen; [|vm_compute in Hen; discriminate Hen].
  apply (unique_ids_distinct Plant.base_addresses Plant.format_braces
           Plant.HP [] [] [] [] Plant.GENERAL
           (Plant.coordinator (Some 1) true
              [("hp1_flow_temp", "supply_temp");
               ("hp1_return_temp", "supply_temp")] None [1006])
           (Plant.config (Some 1) true) sensors).
  - repeat (apply Forall_cons_2;
            [apply (bool_decide_unpack _); vm_compute; exact I|]).
    apply Forall_nil_2.
  - intros key Hkey _.
    apply plant_generated_keys in Hkey as [-> | ->]; vm_compute; reflexivity.
  - intros key1 key2 Hkey1 Hkey2 Hname.
    apply plant_generated_keys in Hkey1 as [-> | ->];
      apply plant_generated_keys in Hkey2 as [-> | ->];
      first [reflexivity | vm_compute in Hname; discriminate Hname].
  - intros item1 item2 [Hitem1 _] [Hitem2 _] _.
    apply list_elem_of_singleton in Hitem1 as ->.
    apply list_elem_of_singleton in Hitem2 as ->. reflexivity.
  - intros item key [Hitem _] Hkey H.
    apply list_elem_of_singleton in Hitem as ->.
    apply plant_generated_keys in Hkey as [-> | ->];
      vm_compute in H; discriminate H.
  - exact Hen.
Defined.

(** C2 as the specification words it fails.  Two sensors of one enumeration
    share a unique id when two keys are overridden to one name, when a key
    is overridden to the key of another sensor, when a key holds the text
    [sensor.] that the last rule removes, when two general entries have one
    override name, and when the key of a general entry is the key of a
    templated sensor. *)
Lemma colliding_names_share_unique_id :
  ((map LambdaSensor._attr_unique_id
      <$> Plant.sensors (Some 1) true
            [("hp1_flow_temp", "temp"); ("hp1_return_temp", "temp")] [])
   = Ok ["eu08l_temp"; "eu08l_temp"; "eu08l_hp1_operating_state";
         "ambient_temp"] /\
   ~ NoDup ["eu08l_temp"; "eu08l_temp"; "eu08l_hp1_operating_state";
            "ambient_temp"]) /\
  ((map LambdaSensor._attr_unique_id
      <$> Plant.sensors (Some 1) true
            [("hp1_flow_temp", "hp1_return_temp")] [])
   = Ok ["eu08l_hp1_return_temp"; "eu08l_hp1_return_temp";
         "eu08l_hp1_operating_state"; "ambient_temp"] /\
   ~ NoDup ["eu08l_hp1_return_temp"; "eu08l_hp1_return_temp";
            "eu08l_hp1_operating_state"; "ambient_temp"]) /\
  ((map LambdaSensor._attr_unique_id
      <$> enumerate_sensors Plant.base_addresses Plant.format_braces
            Plant.DOTTED [] [] [] [] [] Plant.plain
            (Plant.config (Some 1) false))
   = Ok ["hp1_t"; "hp1_t"] /\
   ~ NoDup ["hp1_t"; "hp1_t"]) /\
  ((map LambdaSensor._attr_unique_id
      <$> enumerate_sensors Plant.base_addresses Plant.format_braces
            [] [] [] [] [] Plant.TWINS (Plant.with_overrides [])
            (Plant.config (Some 1) true))
   = Ok ["outside"; "outside"] /\
   ~ NoDup ["outside"; "outside"]) /\
  ((map LambdaSensor._attr_unique_id
      <$> enumerate_sensors Plant.base_addresses Plant.format_braces
            Plant.HP [] [] [] [] Plant.SHADOW Plant.plain
            (Plant.config (Some 1) false))
   = Ok ["hp1_flow_temp"; "hp1_return_temp"; "hp1_operating_state";
         "hp1_flow_temp"] /\
   ~ NoDup ["hp1_flow_temp"; "hp1_return_temp"; "hp1_operating_state";
            "hp1_flow_temp"]).
Proof.
  repeat split;
    first [ vm_compute; reflexivity
          | intros H; apply (bool_decide_pack _) in H; vm_compute in H;
            exact H ].
Qed.

(** X15. When the set-up of an entry with a coordinator adds its entities
    and raises nothing: exactly when every instance of every device type has
    a base address and every template entry a relative address and, unless
    its register is disabled or a non-empty override names it, a name that,
    for a climate entry of a heating circuit, the format accepts; and every
    general entry has an address and, unless its register is disabled or,
    with legacy names, it has an override name, a name. *)
Theorem setup_succeeds_iff generate_base_addresses str_format HP BOIL BUFF
    SOL HC SENSOR_TYPES coordinator entry :
  let legacy := default false (ConfigEntry.use_legacy_modbus_names entry) in
  (exists sensors,
     async_setup_entry generate_base_addresses str_format HP BOIL BUFF SOL HC
       SENSOR_TYPES (Some coordinator) entry = Ok (Some sensors)) <->
  (forall prefix count template idx,
     (prefix, count, template) ∈ TEMPLATES HP BOIL BUFF SOL HC entry ->
     1 <= idx <= count ->
     exists base,
       generate_base_addresses prefix count !! idx = Some base /\
       forall sensor_id sensor_info,
         (sensor_id, sensor_info) ∈ template ->
         exists rel,
           Info.relative_address sensor_info = Some rel /\
           (Coordinator.is_register_disabled coordinator (base + rel) = true \/
            (exists c r,
               lookup_override coordinator legacy
                 (data_key prefix idx sensor_id) = Some (String c r)) \/
            exists fmt,
              Info.name sensor_info = Some fmt /\
              (prefix = "hc" ->
               Info.device_type sensor_info = Some "Climate" ->
               exists name, str_format fmt idx = Ok name))) /\
  (forall sensor_id sensor_info,
     (sensor_id, sensor_info) ∈ SENSOR_TYPES ->
     exists address,
       Info.address sensor_info = Some address /\
       (Coordinator.is_register_disabled coordinator address = true \/
        (legacy = true /\ exists o, Info.override_name sensor_info = Some o) \/
        exists name, Info.name sensor_info = Some name)).
Proof.
  intros legacy.
  assert ((exists sensors,
             async_setup_entry generate_base_addresses str_format HP BOIL
               BUFF SOL HC SENSOR_TYPES (Some coordinator) entry
             = Ok (Some sensors)) <->
          (exists templated,
             for_each
               (device_sensors generate_base_addresses str_format coordinator
                  legacy (name_prefix_of entry))
               (TEMPLATES HP BOIL BUFF SOL HC entry) = Ok templated) /\
          (exists general,
             for_each (general_sensor coordinator legacy (name_prefix_of entry))
               SENSOR_TYPES = Ok general)) as ->.
  { unfold async_setup_entry. split.
    - intros (sensors & H). apply bind_Ok in H as (sensors' & H & _).
      apply enumerate_Ok in H as (templated & general & Ht & Hg & _). eauto.
    - intros [(templated & Ht) (general & Hg)]. exists (templated ++ general).
      apply bind_Ok. exists (templated ++ general). split; [|reflexivity].
      apply enumerate_Ok. eauto. }
  rewrite !for_each_succeeds. split.
  - intros [Ht Hg]. split.
    + intros prefix count template idx Hin Hidx.
      apply Ht in Hin.
      destruct (proj1 (device_sensors_succeeds _ _ _ _ _ _ _ _) Hin idx Hidx)
        as (base & Hbase & Hitems).
      exists base. split; [exact Hbase|]. intros sensor_id sensor_info Hitem.
      exact (proj1 (templated_sensor_succeeds _ _ _ _ _ _ _ _ _)
               (Hitems _ Hitem)).
    + intros sensor_id sensor_info Hitem.
      exact (proj1 (general_sensor_succeeds _ _ _ _ _) (Hg _ Hitem)).
  - intros [Ht Hg]. split.
    + intros [[prefix count] template] Hin.
      apply (proj2 (device_sensors_succeeds _ _ _ _ _ _ _ _)).
      intros idx Hidx.
      destruct (Ht prefix count template idx Hin Hidx)
        as (base & Hbase & Hitems).
      exists base. split; [exact Hbase|].
      intros [sensor_id sensor_info] Hitem.
      exact (proj2 (templated_sensor_succeeds _ _ _ _ _ _ _ _ _)
               (Hitems _ _ Hitem)).
    + intros [sensor_id sensor_info] Hitem.
      exact (proj2 (general_sensor_succeeds _ _ _ _ _) (Hg _ _ Hitem)).
Qed.

Lemma setup_succeeds_iff_witness :
  (exists sensors,
     async_setup_entry Plant.base_addresses Plant.format_braces Plant.HP []
       [] [] [] Plant.GENERAL (Some Plant.plain) (Plant.config (Some 1) false)
     = Ok (Some sensors)) /\
  (forall sensor_id sensor_info,
     (sensor_id, sensor_info) ∈ Plant.GENERAL ->
     exists address,
       Info.address sensor_info = Some address /\
       (Coordinator.is_register_disabled Plant.plain address = true \/
        (false = true /\ exists o, Info.override_name sensor_info = Some o) \/
        exists name, Info.name sensor_info = Some name)).
Proof.
  assert (exists sensors,
            async_setup_entry Plant.base_addresses Plant.format_braces
              Plant.HP [] [] [] [] Plant.GENERAL (Some Plant.plain)
              (Plant.config (Some 1) false)
            = Ok (Some sensors)) as H
    by (eexists; vm_compute; reflexivity).
  split; [exact H|].
  exact (proj2 (proj1 (setup_succeeds_iff Plant.base_addresses
                         Plant.format_braces Plant.HP [] [] [] []
                         Plant.GENERAL Plant.plain
                         (Plant.config (Some 1) false)) H)).
Defined.

Lemma templated_name_raises (str_format : string -> Z -> result string)
    prefix idx sensor_info e :
  ((if (prefix =? "hc")%string &&
       bool_decide (Info.device_type sensor_info = Some "Climate")
    then fmt ← subscript (Info.name sensor_info); str_format fmt idx
    else name ← subscript (Info.name sensor_info);
         Ok (PyStr.upper prefix +:+ PyStr.of_int idx +:+ " " +:+ name))
   : result string) = Raise e ->
  e = KeyError \/
  exists fmt,
    prefix = "hc" /\ Info.device_type sensor_info = Some "Climate" /\
    Info.name sensor_info = Some fmt /\ str_format fmt idx = Raise e.
Proof.
  intros H.
  destruct (String.eqb_spec prefix "hc") as [Hp|_]; simpl in H.
  - case_bool_decide as Hdt.
    + destruct (Info.name sensor_info) as [fmt|]; simpl in H.
      * right. eauto.
      * injection H as <-. auto.
    + destruct (Info.name sensor_info) as [fmt|]; simpl in H;
        [discriminate | injection H as <-; auto].
  - destruct (Info.name sensor_info) as [fmt|]; simpl in H;
      [discriminate | injection H as <-; auto].
Qed.

Lemma templated_sensor_raises str_format coordinator legacy name_prefix
    prefix idx base sensor_id sensor_info e :
  templated_sensor str_format coordinator legacy name_prefix prefix idx base
    (sensor_id, sensor_info) = Raise e ->
  e = KeyError \/
  exists fmt,
    prefix = "hc" /\ Info.device_type sensor_info = Some "Climate" /\
    Info.name sensor_info = Some fmt /\ str_format fmt idx = Raise e.
Proof.
  unfold templated_sensor.
  destruct (Info.relative_address sensor_info) as [rel|];
    [|intros [= <-]; auto].
  simpl.
  destruct (Coordinator.is_register_disabled coordinator (base + rel));
    [discriminate|].
  destruct (lookup_override coordinator legacy _) as [[|c r]|];
    [| discriminate |];
    intros H;
    match type of H with
    | context [mbind _ (if ?c then ?a else ?b)] =>
        destruct (if c then a else b) as [name|e'] eqn:Hm; simpl in H;
          [discriminate
          | injection H as <-; exact (templated_name_raises _ _ _ _ _ Hm)]
    end.
Qed.

Lemma general_sensor_raises coordinator legacy name_prefix sensor_id
    sensor_info e :
  general_sensor coordinator legacy name_prefix (sensor_id, sensor_info)
  = Raise e ->
  e = KeyError.
Proof.
  unfold general_sensor.
  destruct (Info.address sensor_info) as [address|]; [|intros [= <-]; auto].
  simpl.
  destruct (Coordinator.is_register_disabled coordinator address);
    [discriminate|].
  destruct (if legacy then Info.override_name sensor_info else None);
    [discriminate|].
  destruct (Info.name sensor_info); [discriminate | intros [= <-]; auto].
Qed.

(** X16. What the set-up raises.  An exception that leaves
    [async_setup_entry] is a [KeyError], of a missing base address, address
    or name, or it is the exception of the name format of a climate entry of
    the heating circuits; and without a coordinator the set-up raises
    nothing. *)
Theorem setup_raises generate_base_addresses str_format HP BOIL BUFF SOL HC
    SENSOR_TYPES coordinator_data entry e :
  async_setup_entry generate_base_addresses str_format HP BOIL BUFF SOL HC
    SENSOR_TYPES coordinator_data entry = Raise e ->
  coordinator_data <> None /\
  (e = KeyError \/
   exists sensor_id sensor_info fmt idx,
     (sensor_id, sensor_info) ∈ HC /\
     Info.device_type sensor_info = Some "Climate" /\
     Info.name sensor_info = Some fmt /\
     1 <= idx <= default 1 (ConfigEntry.num_hc entry) /\
     str_format fmt idx = Raise e).
Proof.
  unfold async_setup_entry.
  destruct coordinator_data as [coordinator|]; [|discriminate].
  intros H. split; [discriminate|].
  destruct (enumerate_sensors _ _ _ _ _ _ _ _ coordinator entry)
    as [sensors|e'] eqn:Hen; [discriminate|].
  injection H as ->. unfold enumerate_sensors in Hen.
  destruct (for_each (device_sensors _ _ _ _ _) _) as [templated|e'] eqn:Ht.
  - simpl in Hen.
    destruct (for_each (general_sensor _ _ _) _) as [general|e'] eqn:Hg;
      [discriminate|].
    injection Hen as ->.
    apply for_each_Raise in Hg as ([sensor_id sensor_info] & _ & Hg).
    left. exact (general_sensor_raises _ _ _ _ _ _ Hg).
  - injection Hen as ->.
    apply for_each_Raise in Ht as ([[prefix count] template] & Hin & Ht).
    unfold device_sensors in Ht.
    apply for_each_Raise in Ht as (idx & Hidx & Ht).
    apply elem_of_range in Hidx.
    destruct (generate_base_addresses prefix count !! idx) as [base|];
      [|injection Ht as <-; auto].
    simpl in Ht.
    apply for_each_Raise in Ht as ([sensor_id sensor_info] & Hitem & Ht).
    apply templated_sensor_raises in Ht
      as [-> | (fmt & -> & Hdt & Hname & Hfmt)]; [auto|].
    right. exists sensor_id, sensor_info, fmt, idx.
    unfold TEMPLATES in Hin.
    repeat (apply elem_of_cons in Hin as [Hin|Hin];
            [try discriminate Hin|]).
    + injection Hin as <- <-. repeat split; auto; lia.
    + inversion Hin.
Qed.

Lemma setup_raises_witness :
  async_setup_entry Plant.base_addresses Plant.format_braces Plant.PRESSURE
    [] [] [] [] Plant.GENERAL (Some Plant.plain) (Plant.config (Some 1) false)
  = Raise KeyError /\
  Some Plant.plain <> None /\
  (KeyError = KeyError \/
   exists (sensor_id : string) (sensor_info : Info.t) fmt idx,
     (sensor_id, sensor_info) ∈ ([] : template) /\
     Info.device_type sensor_info = Some "Climate" /\
     Info.name sensor_info = Some fmt /\
     1 <= idx <= default 1 (ConfigEntry.num_hc (Plant.config (Some 1) false)) /\
     Plant.format_braces fmt idx = Raise KeyError).
Proof.
  split; [vm_compute; reflexivity|].
  apply (setup_raises Plant.base_addresses Plant.format_braces Plant.PRESSURE
           [] [] [] [] Plant.GENERAL (Some Plant.plain)
           (Plant.config (Some 1) false) KeyError).
  vm_compute. reflexivity.
Defined.

(** ** How many sensors the set-up adds *)

Lemma for_each_length_le {A B : Type} (body : A -> result (list B))
    (f : A -> nat) xs ys :
  (forall x zs, x ∈ xs -> body x = Ok zs -> (length zs <= f x)%nat) ->
  for_each body xs = Ok ys -> (length ys <= sum_list (f <$> xs))%nat.
Proof.
  revert ys. induction xs as [|x xs IH]; intros ys Hf Hys.
  - injection Hys as <-. simpl. lia.
  - apply for_each_cons_Ok in Hys as (zs & ws & Hx & Hxs & ->).
    rewrite length_app. simpl.
    assert (length zs <= f x)%nat
      by (apply Hf; [apply elem_of_cons; left; reflexivity | exact Hx]).
    assert (length ws <= sum_list (f <$> xs))%nat.
    { apply IH; [|exact Hxs]. intros y rs Hy.
      apply Hf. apply elem_of_cons. right. exact Hy. }
    apply Nat.add_le_mono; assumption.
Qed.

Lemma for_each_length_eq {A B : Type} (body : A -> result (list B))
    (f : A -> nat) xs ys :
  (forall x zs, x ∈ xs -> body x = Ok zs -> length zs = f x) ->
  for_each body xs = Ok ys -> length ys = sum_list (f <$> xs).
Proof.
  revert ys. induction xs as [|x xs IH]; intros ys Hf Hys.
  - injection Hys as <-. reflexivity.
  - apply for_each_cons_Ok in Hys as (zs & ws & Hx & Hxs & ->).
    rewrite length_app. simpl.
    rewrite (Hf x zs); [|apply elem_of_cons; left; reflexivity | exact Hx].
    rewrite (IH ws); [reflexivity | | exact Hxs].
    intros y rs Hy. apply Hf. apply elem_of_cons. right. exact Hy.
Qed.

Lemma length_range lo hi : length (range lo hi) = Z.to_nat (hi - lo).
Proof. unfold range. rewrite length_map, length_seq. reflexivity. Qed.

Lemma device_sensors_length generate_base_addresses str_format coordinator
    legacy name_prefix prefix count template sensors :
  device_sensors generate_base_addresses str_format coordinator legacy
    name_prefix (prefix, count, template) = Ok sensors ->
  (length sensors <= Z.to_nat count * length template)%nat /\
  ((forall address,
      Coordinator.is_register_disabled coordinator address = false) ->
   length sensors = (Z.to_nat count * length template)%nat).
Proof.
  unfold device_sensors. intros H.
  replace (Z.to_nat count) with (length (range 1 (count + 1)))
    by (rewrite length_range; lia).
  rewrite <- (sum_list_fmap_const (range 1 (count + 1)) (length template)).
  split.
  - revert H. apply for_each_length_le. intros idx zs _ Hzs.
    apply bind_Ok in Hzs as (base & _ & Hzs).
    rewrite <- (Nat.mul_1_r (length template)).
    rewrite <- (sum_list_fmap_const template 1).
    revert Hzs. apply for_each_length_le.
    intros [sensor_id sensor_info] rs _ Hrs.
    apply templated_sensor_inv in Hrs as (rel & _ & Hrs).
    destruct (Coordinator.is_register_disabled coordinator (base + rel)).
    + subst rs. simpl. lia.
    + destruct Hrs as (nm & eid & uid & -> & _). simpl. lia.
  - intros Hen. revert H. apply for_each_length_eq. intros idx zs _ Hzs.
    apply bind_Ok in Hzs as (base & _ & Hzs).
    rewrite <- (Nat.mul_1_r (length template)).
    rewrite <- (sum_list_fmap_const template 1).
    revert Hzs. apply for_each_length_eq.
    intros [sensor_id sensor_info] rs _ Hrs.
    apply templated_sensor_inv in Hrs as (rel & _ & Hrs).
    rewrite Hen in Hrs.
    destruct Hrs as (nm & eid & uid & -> & _). reflexivity.
Qed.

(** X17. The set-up adds at most one sensor for each entry of a device
    template and each instance of the device type, and one for each general
    entry; and exactly that many when no register is disabled.  A count
    that is zero or negative adds none for its device type. *)
Theorem number_of_sensors generate_base_addresses str_format HP BOIL BUFF SOL
    HC SENSOR_TYPES coordinator entry sensors :
  let expected :=
    (Z.to_nat (default 1%Z (ConfigEntry.num_hps entry)) * length HP +
     Z.to_nat (default 1%Z (ConfigEntry.num_boil entry)) * length BOIL +
     Z.to_nat (default 0%Z (ConfigEntry.num_buff entry)) * length BUFF +
     Z.to_nat (default 0%Z (ConfigEntry.num_sol entry)) * length SOL +
     Z.to_nat (default 1%Z (ConfigEntry.num_hc entry)) * length HC +
     length SENSOR_TYPES)%nat in
  async_setup_entry generate_base_addresses str_format HP BOIL BUFF SOL HC
    SENSOR_TYPES (Some coordinator) entry = Ok (Some sensors) ->
  (length sensors <= expected)%nat /\
  ((forall address,
      Coordinator.is_register_disabled coordinator address = false) ->
   length sensors = expected).
Proof.
  intros expected H. unfold async_setup_entry in H.
  apply bind_Ok in H as (sensors' & H & [= <-]).
  apply enumerate_Ok in H as (templated & general & Ht & Hg & ->).
  rewrite length_app.
  pose (f := fun device : string * Z * template =>
               (Z.to_nat device.1.2 * length device.2)%nat).
  assert (sum_list (f <$> TEMPLATES HP BOIL BUFF SOL HC entry)
          + length SENSOR_TYPES = expected)%nat as <-.
  { unfold expected, TEMPLATES, f. simpl. lia. }
  rewrite <- (Nat.mul_1_r (length SENSOR_TYPES)).
  rewrite <- (sum_list_fmap_const SENSOR_TYPES 1).
  split.
  - apply Nat.add_le_mono.
    + revert Ht. apply for_each_length_le.
      intros [[prefix count] template] zs _ Hzs.
      apply device_sensors_length in Hzs as [Hle _]. exact Hle.
    + revert Hg. apply for_each_length_le.
      intros [sensor_id sensor_info] zs _ Hzs.
      apply general_sensor_inv in Hzs as (address & _ & Hzs).
      destruct (Coordinator.is_register_disabled coordinator address).
      * subst zs. simpl. lia.
      * destruct Hzs as (nm & sid & -> & _). simpl. lia.
  - intros Hen. f_equal.
    + revert Ht. apply for_each_length_eq.
      intros [[prefix count] template] zs _ Hzs.
      apply device_sensors_length in Hzs as [_ Heq]. exact (Heq Hen).
    + revert Hg. apply for_each_length_eq.
      intros [sensor_id sensor_info] zs _ Hzs.
      apply general_sensor_inv in Hzs as (address & _ & Hzs).
      rewrite Hen in Hzs. destruct Hzs as (nm & sid & -> & _). reflexivity.
Qed.

Lemma number_of_sensors_witness :
  exists sensors,
    async_setup_entry Plant.base_addresses Plant.format_braces Plant.HP
      Plant.HP [] [] Plant.CLIMATE Plant.GENERAL
      (Some (Plant.with_disabled [1006]))
      {| ConfigEntry.num_hps := Some 2; ConfigEntry.num_boil := Some (-1);
         ConfigEntry.num_buff := None; ConfigEntry.num_sol := None;
         ConfigEntry.num_hc := None;
         ConfigEntry.use_legacy_modbus_names := None;
         ConfigEntry.name := None |}
    = Ok (Some sensors) /\
    length sensors = 7%nat /\
    (length sensors <= 2 * 3 + 0 * 3 + 0 * 0 + 0 * 0 + 1 * 1 + 1)%nat.
Proof.
  eexists. split; [vm_compute; reflexivity|]. split; [reflexivity|].
  refine (proj1 (number_of_sensors Plant.base_addresses Plant.format_braces
                   Plant.HP Plant.HP [] [] Plant.CLIMATE Plant.GENERAL
                   (Plant.with_disabled [1006])
                   {| ConfigEntry.num_hps := Some 2;
                      ConfigEntry.num_boil := Some (-1);
                      ConfigEntry.num_buff := None;
                      ConfigEntry.num_sol := None;
                      ConfigEntry.num_hc := None;
                      ConfigEntry.use_legacy_modbus_names := None;
                      ConfigEntry.name := None |} _ _)).
  vm_compute. reflexivity.
Defined.

(** ** What the set-up reads of the coordinator *)

Lemma for_each_ext {A B : Type} (f g : A -> result (list B)) xs :
  (forall x, x ∈ xs -> f x = g x) -> for_each f xs = for_each g xs.
Proof.
  induction xs as [|x xs IH]; intros H; [reflexivity|]. simpl.
  rewrite (H x) by (apply elem_of_cons; left; reflexivity).
  rewrite IH; [reflexivity|].
  intros y Hy. apply H. apply elem_of_cons. right. exact Hy.
Qed.

(** X18. The set-up reads of the coordinator only which registers are
    disabled and, with legacy names, the override table: with two
    coordinators that agree on these it constructs the sensors from the same
    arguments, or raises the same exception, whatever their snapshots and
    entries are.  Without legacy names the override table is not consulted
    at all. *)
Theorem setup_reads_disabled_registers_and_overrides generate_base_addresses
    str_format HP BOIL BUFF SOL HC SENSOR_TYPES coordinator coordinator'
    entry :
  (forall address,
     Coordinator.is_register_disabled coordinator address
     = Coordinator.is_register_disabled coordinator' address) ->
  (default false (ConfigEntry.use_legacy_modbus_names entry) = true ->
   Coordinator.sensor_overrides coordinator
   = Coordinator.sensor_overrides coordinator') ->
  async_setup_entry generate_base_addresses str_format HP BOIL BUFF SOL HC
    SENSOR_TYPES (Some coordinator) entry
  = async_setup_entry generate_base_addresses str_format HP BOIL BUFF SOL HC
      SENSOR_TYPES (Some coordinator') entry.
Proof.
  intros Hdis Hov. unfold async_setup_entry, enumerate_sensors.
  assert (forall key,
            lookup_override coordinator
              (default false (ConfigEntry.use_legacy_modbus_names entry)) key
            = lookup_override coordinator'
                (default false (ConfigEntry.use_legacy_modbus_names entry))
                key) as Hlook.
  { intros key. unfold lookup_override.
    destruct (default false _); [|reflexivity].
    rewrite (Hov eq_refl). reflexivity. }
  rewrite (for_each_ext
             (device_sensors generate_base_addresses str_format coordinator
                _ _)
             (device_sensors generate_base_addresses str_format coordinator'
                (default false (ConfigEntry.use_legacy_modbus_names entry))
                (name_prefix_of entry))).
  - rewrite (for_each_ext (general_sensor coordinator _ _)
               (general_sensor coordinator'
                  (default false (ConfigEntry.use_legacy_modbus_names entry))
                  (name_prefix_of entry))); [reflexivity|].
    intros [sensor_id sensor_info] _. unfold general_sensor.
    destruct (Info.address sensor_info) as [address|]; [|reflexivity].
    simpl. rewrite Hdis. reflexivity.
  - intros [[prefix count] template] _. unfold device_sensors.
    apply for_each_ext. intros idx _.
    destruct (generate_base_addresses prefix count !! idx) as [base|];
      [|reflexivity].
    simpl. apply for_each_ext. intros [sensor_id sensor_info] _.
    unfold templated_sensor.
    destruct (Info.relative_address sensor_info) as [rel|]; [|reflexivity].
    simpl. rewrite Hdis, Hlook. reflexivity.
Qed.

Lemma setup_reads_disabled_registers_and_overrides_witness :
  async_setup_entry Plant.base_addresses Plant.format_braces Plant.HP [] [] []
    [] Plant.GENERAL
    (Some (Plant.coordinator (Some 1) false
             [("hp1_flow_temp", "supply_temp")]
             (Some [("hp1_flow_temp", PyInt 35)]) [1006]))
    (Plant.config (Some 1) false)
  = async_setup_entry Plant.base_addresses Plant.format_braces Plant.HP [] []
      [] [] Plant.GENERAL (Some (Plant.with_disabled [1006]))
      (Plant.config (Some 1) false).
Proof.
  apply (setup_reads_disabled_registers_and_overrides Plant.base_addresses
           Plant.format_braces Plant.HP [] [] [] [] Plant.GENERAL
           (Plant.coordinator (Some 1) false
              [("hp1_flow_temp", "supply_temp")]
              (Some [("hp1_flow_temp", PyInt 35)]) [1006])
           (Plant.with_disabled [1006]) (Plant.config (Some 1) false)).
  - intros address. reflexivity.
  - simpl. discriminate.
Defined.
